(** * The session connection manager (backend/app/services/websocket_manager.py)

    A shallow embedding of [WebSocketManager]: its five per-session
    dictionaries, the transports it borrows, the message dictionaries it
    mutates in place, and every method of the class, followed by the
    properties of the delivery core: sequence numbers, queueing, replay,
    acknowledgment, heartbeats and cleanup.

    Conventions.
    - A Python [dict] is an insertion-ordered association list ([dict K V]):
      [heartbeat_loop] and [cleanup_old_data] iterate over keys, so the order
      is part of the behaviour.
    - Message dictionaries and WebSocket objects are Python objects that the
      manager only holds references to.  They live in an object store
      ([heap], [sockets]) addressed by [nat] references, so that two
      references to one dictionary alias as they do in Python.
    - [datetime] values are integers (microseconds); a [timedelta] is their
      difference.  [datetime.utcnow()] reads a scripted clock.
    - A coroutine is a state transformer that returns or raises ([M]); the
      model is sequential: one method runs to completion at a time. *)

From Stdlib Require Import ZArith List Lia.
From stdpp Require Import base decidable option list gmap strings.

Import ListNotations.
Local Open Scope string_scope.
Local Open Scope list_scope.

(** ** Python dictionaries *)

Definition dict (K V : Type) : Type := list (K * V).

Section PyDict.
Context {K V : Type} `{EqDecision K}.

(** [d.get(k)] *)
Fixpoint dict_get (k : K) (d : dict K V) : option V :=
  match d with
  | [] => None
  | (k', v) :: d' => if decide (k = k') then Some v else dict_get k d'
  end.

(** [k in d] *)
Definition dict_contains (k : K) (d : dict K V) : bool :=
  match dict_get k d with Some _ => true | None => false end.

(** [d.get(k, dflt)] *)
Definition dict_get_or (k : K) (dflt : V) (d : dict K V) : V :=
  match dict_get k d with Some v => v | None => dflt end.

(** [d[k] = v]: an existing key keeps its position, a new one goes last. *)
Fixpoint dict_set (k : K) (v : V) (d : dict K V) : dict K V :=
  match d with
  | [] => [(k, v)]
  | (k', v') :: d' =>
      if decide (k = k') then (k', v) :: d' else (k', v') :: dict_set k v d'
  end.

(** [del d[k]] (the callers check [k in d] first). *)
Fixpoint dict_del (k : K) (d : dict K V) : dict K V :=
  match d with
  | [] => []
  | (k', v') :: d' =>
      if decide (k = k') then dict_del k d' else (k', v') :: dict_del k d'
  end.

(** [list(d.keys())] *)
Definition dict_keys (d : dict K V) : list K := map fst d.

End PyDict.

(** ** Messages, transports and the clock *)

(** JSON-like values carried by a message. *)
#[warnings="-register-all"]
Inductive pyval : Type :=
| PStr (s : string)
| PInt (n : Z)
| PTime (t : Z)
| PDict (d : list (string * pyval)).

(** A message dictionary.  The manager reads and writes one key,
    ["message_id"], and always stores an integer there; the other keys
    ([type], [timestamp], [data], ...) are kept as they are. *)
Record Message : Type := mkMessage {
  message_id : option Z;
  fields : list (string * pyval)
}.

(** [msg.get("message_id", 0)] *)
Definition get_message_id (msg : Message) : Z :=
  match message_id msg with Some n => n | None => 0%Z end.

(** [msg["message_id"] = n] *)
Definition with_message_id (n : Z) (msg : Message) : Message :=
  {| message_id := Some n; fields := fields msg |}.

Definition empty_message : Message := {| message_id := None; fields := [] |}.

(** What one call on a transport does: it returns, raises
    [WebSocketDisconnect], or raises some other [Exception]. *)
Inductive outcome : Type := Succeeds | Disconnects | Fails.

(** A WebSocket object, seen from the manager: the outcomes of its next
    calls, in order, and the outcome of every call after those. *)
Record WebSocket : Type := mkWebSocket {
  script : list outcome;
  fallback : outcome
}.

Definition reliable : WebSocket := {| script := []; fallback := Succeeds |}.

Inductive method : Type :=
| Accept
| SendJson (frame : Message)
| Close.

(** One call made on a transport, as a mock would record it. *)
Record Call : Type := mkCall {
  call_ws : nat;
  call_method : method;
  call_outcome : outcome
}.

Inductive exn : Type := WebSocketDisconnect | OtherException.

Definition raised_by (o : outcome) : option exn :=
  match o with
  | Succeeds => None
  | Disconnects => Some WebSocketDisconnect
  | Fails => Some OtherException
  end.

(** Everything outside the manager object. *)
Record World : Type := mkWorld {
  sockets : gmap nat WebSocket;   (* WebSocket objects *)
  heap : gmap nat Message;        (* message dictionaries *)
  utc : Z;                        (* what utcnow() returns next *)
  utc_next : list Z;              (* and what it returns after that *)
  calls : list Call               (* transport calls so far, oldest first *)
}.

(** ** The manager *)

Record Metadata : Type := mkMetadata {
  user_id : string;
  connected_at : Z;
  last_heartbeat : Z;
  reconnection_count : Z
}.

Record WebSocketManager : Type := mkManager {
  active_connections : dict string nat;
  connection_metadata : dict string Metadata;
  message_queue : dict string (list nat);
  last_ack : dict string Z;
  message_counters : dict string Z
}.

(** [WebSocketManager.__init__] *)
Definition init : WebSocketManager :=
  {| active_connections := []; connection_metadata := [];
     message_queue := []; last_ack := []; message_counters := [] |}.

Record State : Type := mkState {
  self : WebSocketManager;
  world : World
}.

Definition set_active (f : dict string nat -> dict string nat)
  (m : WebSocketManager) : WebSocketManager :=
  {| active_connections := f (active_connections m);
     connection_metadata := connection_metadata m;
     message_queue := message_queue m;
     last_ack := last_ack m;
     message_counters := message_counters m |}.

Definition set_metadata (f : dict string Metadata -> dict string Metadata)
  (m : WebSocketManager) : WebSocketManager :=
  {| active_connections := active_connections m;
     connection_metadata := f (connection_metadata m);
     message_queue := message_queue m;
     last_ack := last_ack m;
     message_counters := message_counters m |}.

Definition set_queue (f : dict string (list nat) -> dict string (list nat))
  (m : WebSocketManager) : WebSocketManager :=
  {| active_connections := active_connections m;
     connection_metadata := connection_metadata m;
     message_queue := f (message_queue m);
     last_ack := last_ack m;
     message_counters := message_counters m |}.

Definition set_last_ack (f : dict string Z -> dict string Z)
  (m : WebSocketManager) : WebSocketManager :=
  {| active_connections := active_connections m;
     connection_metadata := connection_metadata m;
     message_queue := message_queue m;
     last_ack := f (last_ack m);
     message_counters := message_counters m |}.

Definition set_counters (f : dict string Z -> dict string Z)
  (m : WebSocketManager) : WebSocketManager :=
  {| active_connections := active_connections m;
     connection_metadata := connection_metadata m;
     message_queue := message_queue m;
     last_ack := last_ack m;
     message_counters := f (message_counters m) |}.

Definition set_heap (f : gmap nat Message -> gmap nat Message) (w : World) : World :=
  {| sockets := sockets w; heap := f (heap w); utc := utc w; utc_next := utc_next w;
     calls := calls w |}.

(** ** Coroutines: state, results and exceptions *)

Inductive result (A : Type) : Type :=
| Returned (a : A)
| Raised (e : exn).
Arguments Returned {A} a.
Arguments Raised {A} e.

Definition M (A : Type) : Type := State -> result A * State.

Definition ret {A} (a : A) : M A := fun s => (Returned a, s).

Definition bind {A B} (m : M A) (k : A -> M B) : M B :=
  fun s =>
    match m s with
    | (Returned a, s') => k a s'
    | (Raised e, s') => (Raised e, s')
    end.

Definition raise {A} (e : exn) : M A := fun s => (Raised e, s).

(** [try: body except Exception as e: handler(e)] *)
Definition try_except {A} (body : M A) (handler : exn -> M A) : M A :=
  fun s =>
    match body s with
    | (Returned a, s') => (Returned a, s')
    | (Raised e, s') => handler e s'
    end.

(** State changes, on the manager object and on the world around it. *)
Definition on_self (f : WebSocketManager -> WebSocketManager) (s : State) : State :=
  {| self := f (self s); world := world s |}.

Definition on_world (g : World -> World) (s : State) : State :=
  {| self := self s; world := g (world s) |}.

Definition gets {A} (f : WebSocketManager -> A) : M A :=
  fun s => (Returned (f (self s)), s).

Definition inspect {A} (f : World -> A) : M A :=
  fun s => (Returned (f (world s)), s).

Definition modify (f : WebSocketManager -> WebSocketManager) : M unit :=
  fun s => (Returned tt, on_self f s).

Definition when (b : bool) (m : M unit) : M unit := if b then m else ret tt.

#[global] Instance M_ret : MRet M := @ret.
#[global] Instance M_bind : MBind M := fun A B k m => bind m k.

(** The clock moves on to its next reading. *)
Definition tick (w : World) : World :=
  {| sockets := sockets w; heap := heap w;  utc := List.hd (utc w) (utc_next w); utc_next := List.tl (utc_next w);
     calls := calls w |}.

(** [datetime.utcnow()] *)
Definition utcnow : M Z :=
  fun s => (Returned (utc (world s)), on_world tick s).

(** The object behind a WebSocket reference; one the world has no script
    for always succeeds. *)
Definition socket_of (w : World) (ws : nat) : WebSocket :=
  match sockets w !! ws with Some k => k | None => reliable end.

Definition next_outcome (k : WebSocket) : outcome :=
  match script k with [] => fallback k | o :: _ => o end.

Definition after_call (k : WebSocket) : WebSocket :=
  {| script := List.tl (script k); fallback := fallback k |}.

(** The world after one call on transport [ws]. *)
Definition record_call (ws : nat) (m : method) (w : World) : World :=
  {| sockets := <[ws := after_call (socket_of w ws)]> (sockets w);
     heap := heap w; utc := utc w; utc_next := utc_next w;
     calls := calls w ++ [{| call_ws := ws; call_method := m;
                             call_outcome := next_outcome (socket_of w ws) |}] |}.

(** [await websocket.accept()], [.send_json(frame)], [.close()] *)
Definition ws_call (ws : nat) (m : method) : M unit :=
  fun s =>
    (match raised_by (next_outcome (socket_of (world s) ws)) with
     | None => Returned tt
     | Some e => Raised e
     end,
     on_world (record_call ws m) s).

(** The dictionary behind a message reference.  (A reference held by a
    Python program always has its object; the empty dictionary stands for
    the object of a reference that the store does not know.) *)
Definition message_at (h : gmap nat Message) (r : nat) : Message :=
  match h !! r with Some msg => msg | None => empty_message end.

Definition deref (w : World) (r : nat) : Message := message_at (heap w) r.

Definition load (r : nat) : M Message := inspect (fun w => deref w r).

(** [message["message_id"] = n], in place. *)
Definition stamp (r : nat) (n : Z) (w : World) : World :=
  set_heap (insert r (with_message_id n (deref w r))) w.

Definition store_message_id (r : nat) (n : Z) : M unit :=
  fun s => (Returned tt, on_world (stamp r n) s).

(** A dictionary literal: a new object, at an address not in use. *)
Definition new_ref (w : World) : nat := fresh (dom (heap w)).

Definition allocate (msg : Message) (w : World) : World :=
  {| sockets := sockets w; heap := <[new_ref w := msg]> (heap w);
     utc := utc w; utc_next := utc_next w;
     calls := calls w |}.

Definition alloc (msg : Message) : M nat :=
  fun s => (Returned (new_ref (world s)), on_world (allocate msg) s).

(** ** The methods of [WebSocketManager] *)

(** [disconnect(request_id)] *)
Definition disconnect (request_id : string) : M unit :=
  active ← gets active_connections;
  match dict_get request_id active with
  | Some websocket =>
      try_except (ws_call websocket Close) (fun _ => ret tt);;
      modify (set_active (dict_del request_id))
  | None => ret tt
  end.

(** [_queue_message(request_id, message)] *)
Definition _queue_message (request_id : string) (message : nat) : M unit :=
  queue ← gets message_queue;
  when (negb (dict_contains request_id queue))
       (modify (set_queue (dict_set request_id [])));;
  modify (set_queue (fun q =>
    dict_set request_id (dict_get_or request_id [] q ++ [message]) q)).

(** [send_message(request_id, message)] *)
Definition send_message (request_id : string) (message : nat) : M bool :=
  modify (set_counters (fun c =>
    dict_set request_id (dict_get_or request_id 0%Z c + 1)%Z c));;
  counters ← gets message_counters;
  store_message_id message (dict_get_or request_id 0%Z counters);;
  active ← gets active_connections;
  match dict_get request_id active with
  | Some websocket =>
      try_except
        (frame ← load message;
         ws_call websocket (SendJson frame);;
         ret true)
        (fun e =>
           match e with
           | WebSocketDisconnect =>
               disconnect request_id;;
               _queue_message request_id message;;
               ret false
           | OtherException =>
               disconnect request_id;;
               _queue_message request_id message;;
               ret false
           end)
  | None =>
      _queue_message request_id message;;
      ret false
  end.

(** [broadcast_progress(request_id, event_type, data)] *)
Definition broadcast_progress (request_id event_type : string)
  (data : list (string * pyval)) : M bool :=
  now ← utcnow;
  message ← alloc {| message_id := None;
                      fields := [("type", PStr event_type);
                                 ("timestamp", PTime now);
                                 ("data", PDict data)] |};
  send_message request_id message.

(** The [for message in messages_to_replay] loop of
    [_replay_queued_messages]; [break] ends it. *)
Fixpoint replay_loop (request_id : string) (messages_to_replay : list nat) : M unit :=
  match messages_to_replay with
  | [] => ret tt
  | message :: rest =>
      active ← gets active_connections;
      match dict_get request_id active with
      | Some websocket =>
          sent ← try_except
                    (frame ← load message;
                     ws_call websocket (SendJson frame);;
                     ret true)
                    (fun _ => ret false);
          if (sent : bool) then replay_loop request_id rest else ret tt
      | None => replay_loop request_id rest
      end
  end.

(** The list comprehension of [_replay_queued_messages]. *)
Definition unacknowledged (w : World) (last_ack_id : Z) (queued_messages : list nat) : list nat :=
  List.filter (fun r => (last_ack_id <? get_message_id (deref w r))%Z) queued_messages.

(** [_replay_queued_messages(request_id)] *)
Definition _replay_queued_messages (request_id : string) : M unit :=
  queue ← gets message_queue;
  match dict_get request_id queue with
  | None => ret tt
  | Some queued_messages =>
      last_ack_id ← gets (fun m => dict_get_or request_id 0%Z (last_ack m));
      messages_to_replay ←
        inspect (fun w => unacknowledged w last_ack_id queued_messages);
      match messages_to_replay with
      | [] => ret tt
      | _ :: _ =>
          replay_loop request_id messages_to_replay;;
          modify (set_queue (dict_set request_id []))
      end
  end.

(** The dictionary literal that [connect] sends. *)
Definition connection_established (request_id : string) (now : Z) : Message :=
  {| message_id := None;
     fields := [("type", PStr "connection_established");
                ("timestamp", PTime now);
                ("data", PDict [("request_id", PStr request_id);
                                ("message", PStr "WebSocket connection established")])] |}.

(** [connect(request_id, websocket, user_id)] *)
Definition connect (request_id : string) (websocket : nat) (user_id : string) : M unit :=
  try_except
    (ws_call websocket Accept;;
     modify (set_active (dict_set request_id websocket));;
     t_connected ← utcnow;
     t_heartbeat ← utcnow;
     modify (set_metadata (dict_set request_id
       {| user_id := user_id; connected_at := t_connected;
          last_heartbeat := t_heartbeat; reconnection_count := 0 |}));;
     counters ← gets message_counters;
     when (negb (dict_contains request_id counters))
          (modify (set_counters (dict_set request_id 0%Z)));;
     acks ← gets last_ack;
     when (negb (dict_contains request_id acks))
          (modify (set_last_ack (dict_set request_id 0%Z)));;
     now ← utcnow;
     message ← alloc (connection_established request_id now);
     send_message request_id message;;
     _replay_queued_messages request_id)
    (fun e => raise e).

(** [acknowledge_message(request_id, message_id)] *)
Definition acknowledge_message (request_id : string) (message_id : Z) : M unit :=
  modify (set_last_ack (fun a =>
    dict_set request_id (Z.max (dict_get_or request_id 0%Z a) message_id) a)).


(** [for x in l: body(x)] *)
Fixpoint for_each {A} (l : list A) (body : A -> M unit) : M unit :=
  match l with
  | [] => ret tt
  | x :: l' => body x;; for_each l' body
  end.

(** [await asyncio.sleep(seconds)]: the elapsed time shows in the clock's
    next readings. *)
Definition sleep (seconds : Z) : M unit := ret tt.

(** [timedelta(minutes=5)], in microseconds. *)
Definition inactive_timeout : Z := 5 * 60 * 1000000.

(** [h] hours, in microseconds: the value of [timedelta(hours=h)] when
    it has one. *)
Definition hours (h : Z) : Z := h * 3600 * 1000000.

(** A [timedelta] holds at most 999999999 days, either way; the
    constructor counts [h] hours as [h // 24] days and the rest. *)
Definition max_timedelta_days : Z := 999999999.

Definition representable_hours (h : Z) : bool :=
  (Z.abs (h / 24) <=? max_timedelta_days)%Z.

(** [timedelta(hours=h)]; [OverflowError] beyond the range. *)
Definition timedelta_hours (h : Z) : M Z :=
  if representable_hours h then ret (hours h) else raise OtherException.

(** The frame [{"type": "heartbeat", "timestamp": ...}]. *)
Definition heartbeat_frame (current_time : Z) : Message :=
  {| message_id := None;
     fields := [("type", PStr "heartbeat"); ("timestamp", PTime current_time)] |}.

(** [metadata["last_heartbeat"] = t] *)
Definition with_last_heartbeat (t : Z) (md : Metadata) : Metadata :=
  {| user_id := user_id md; connected_at := connected_at md;
     last_heartbeat := t; reconnection_count := reconnection_count md |}.

(** The body of [for request_id in request_ids] in [heartbeat_loop]. *)
Definition heartbeat_session (current_time : Z) (request_id : string) : M unit :=
  all_metadata ← gets connection_metadata;
  match dict_get request_id all_metadata with
  | None => ret tt
  | Some metadata =>
      if (inactive_timeout <? current_time - last_heartbeat metadata)%Z
      then disconnect request_id
      else
        active ← gets active_connections;
        match dict_get request_id active with
        | Some websocket =>
            try_except
              (ws_call websocket (SendJson (heartbeat_frame current_time));;
               modify (set_metadata (dict_set request_id
                 (with_last_heartbeat current_time metadata))))
              (fun e =>
                 match e with
                 | WebSocketDisconnect => disconnect request_id
                 | OtherException => disconnect request_id
                 end)
        | None => ret tt
        end
  end.

(** One turn of the [while True] of [heartbeat_loop]. *)
Definition heartbeat_cycle : M unit :=
  try_except
    (sleep 30;;
     current_time ← utcnow;
     request_ids ← gets (fun m => dict_keys (active_connections m));
     for_each request_ids (heartbeat_session current_time))
    (fun _ => sleep 5).

(** [heartbeat_loop()], stopped (cancelled) after [cycles] turns. *)
Fixpoint heartbeat_loop (cycles : nat) : M unit :=
  match cycles with
  | O => ret tt
  | S n => heartbeat_cycle;; heartbeat_loop n
  end.

(** [get_active_connection_count()] *)
Definition get_active_connection_count : M nat :=
  gets (fun m => length (active_connections m)).

(** [is_connected(request_id)] *)
Definition is_connected (request_id : string) : M bool :=
  gets (fun m => dict_contains request_id (active_connections m)).

(** [get_connection_metadata(request_id)] *)
Definition get_connection_metadata (request_id : string) : M (option Metadata) :=
  gets (fun m => dict_get request_id (connection_metadata m)).

(** The first loop of [cleanup_old_data]. *)
Definition request_ids_to_remove (m : WebSocketManager) (current_time max_age : Z) : list string :=
  map fst
    (List.filter
       (fun item =>
          negb (dict_contains (fst item) (active_connections m))
          && (max_age <? current_time - connected_at (snd item))%Z)
       (connection_metadata m)).

(** The body of the second loop of [cleanup_old_data]. *)
Definition forget (request_id : string) : M unit :=
  modify (set_metadata (dict_del request_id));;
  queue ← gets message_queue;
  when (dict_contains request_id queue) (modify (set_queue (dict_del request_id)));;
  acks ← gets last_ack;
  when (dict_contains request_id acks) (modify (set_last_ack (dict_del request_id)));;
  counters ← gets message_counters;
  when (dict_contains request_id counters) (modify (set_counters (dict_del request_id))).

(** [cleanup_old_data(max_age_hours)] *)
Definition cleanup_old_data (max_age_hours : Z) : M unit :=
  current_time ← utcnow;
  max_age ← timedelta_hours max_age_hours;
  to_remove ← gets (fun m => request_ids_to_remove m current_time max_age);
  for_each to_remove forget.

(** ** Running the manager *)

(** What a session's clients and producers can ask of the manager, short of
    forgetting the session ([cleanup_old_data]). *)
Inductive op : Type :=
| Connect (request_id : string) (websocket : nat) (user_id : string)
| Disconnect (request_id : string)
| SendMessage (request_id : string) (message : nat)
| BroadcastProgress (request_id event_type : string) (data : list (string * pyval))
| Replay (request_id : string)
| Acknowledge (request_id : string) (message_id : Z)
| HeartbeatCycle.

Definition exec (o : op) : M unit :=
  match o with
  | Connect request_id websocket user_id => connect request_id websocket user_id
  | Disconnect request_id => disconnect request_id
  | SendMessage request_id message => send_message request_id message;; ret tt
  | BroadcastProgress request_id event_type data =>
      broadcast_progress request_id event_type data;; ret tt
  | Replay request_id => _replay_queued_messages request_id
  | Acknowledge request_id message_id => acknowledge_message request_id message_id
  | HeartbeatCycle => heartbeat_cycle
  end.

(** The state after a coroutine, whether it returned or raised. *)
Definition after {A} (m : M A) (s : State) : State := snd (m s).

Definition run (ops : list op) (s : State) : State :=
  fold_left (fun s o => after (exec o) s) ops s.

(** Does [o] call [send_message] for [request_id]? *)
Definition sends_to (request_id : string) (o : op) : bool :=
  match o with
  | Connect r _ _ | SendMessage r _ | BroadcastProgress r _ _ =>
      bool_decide (r = request_id)
  | _ => false
  end.

(** ** Observations *)

Definition counter (s : State) (request_id : string) : Z :=
  dict_get_or request_id 0%Z (message_counters (self s)).

Definition high_water_mark (s : State) (request_id : string) : Z :=
  dict_get_or request_id 0%Z (last_ack (self s)).

Definition queue_of (s : State) (request_id : string) : list nat :=
  dict_get_or request_id [] (message_queue (self s)).

(** The sequence numbers the queued messages carry now. *)
Definition queued_ids (s : State) (request_id : string) : list Z :=
  map (fun r => get_message_id (deref (world s) r)) (queue_of s request_id).

(** The transport calls made since [s]. *)
Definition calls_since (s s' : State) : list Call :=
  drop (length (calls (world s))) (calls (world s')).

(** The frames of the [send_json] calls among [cs]. *)
Fixpoint frames_of (cs : list Call) : list Message :=
  match cs with
  | [] => []
  | c :: cs' =>
      match call_method c with
      | SendJson frame => frame :: frames_of cs'
      | _ => frames_of cs'
      end
  end.

(** What [send_json] calls a replay makes on a transport in state [k] when
    it has [frames] to send: one per frame, until one of them fails. *)
Fixpoint attempts (ws : nat) (k : WebSocket) (frames : list Message) : list Call :=
  match frames with
  | [] => []
  | frame :: rest =>
      {| call_ws := ws; call_method := SendJson frame; call_outcome := next_outcome k |}
      :: match next_outcome k with
         | Succeeds => attempts ws (after_call k) rest
         | _ => []
         end
  end.

(** Strictly increasing. *)
Fixpoint ascending (l : list Z) : Prop :=
  match l with
  | [] => True
  | x :: l' => Forall (fun y => (x < y)%Z) l' /\ ascending l'
  end.

(** Will a message sent now for [request_id] go through: is a transport
    registered whose next call succeeds? *)
Definition transmits (s : State) (request_id : string) : bool :=
  match dict_get request_id (active_connections (self s)) with
  | Some ws =>
      match raised_by (next_outcome (socket_of (world s) ws)) with
      | None => true
      | Some _ => false
      end
  | None => false
  end.

(** The state [send_message] leaves once it has numbered the message: the
    session's counter is one up and the message carries the new number. *)
Definition numbered (request_id : string) (message : nat) (s : State) : State :=
  on_world (stamp message (counter s request_id + 1))
    (on_self (set_counters (dict_set request_id (counter s request_id + 1)%Z)) s).

(** The state [disconnect] leaves when [ws] was registered for the session. *)
Definition closed (request_id : string) (ws : nat) (s : State) : State :=
  on_self (set_active (dict_del request_id)) (on_world (record_call ws Close) s).

(** The state [_queue_message] leaves. *)
Definition enqueued (request_id : string) (message : nat) (s : State) : State :=
  on_self (set_queue (dict_set request_id (queue_of s request_id ++ [message]))) s.

(** The state [connect] is in once the transport has accepted and the
    session is registered, before the confirmation is sent. *)
Definition registered (request_id : string) (websocket : nat) (user : string)
  (s : State) : State :=
  let s1 := on_self (set_active (dict_set request_id websocket))
              (on_world (record_call websocket Accept) s) in
  let s2 := on_self (set_metadata (dict_set request_id
              {| user_id := user; connected_at := utc (world s);
                 last_heartbeat := utc (tick (world s)); reconnection_count := 0 |}))
              (on_world tick (on_world tick s1)) in
  let s3 := if dict_contains request_id (message_counters (self s))
            then s2 else on_self (set_counters (dict_set request_id 0%Z)) s2 in
  if dict_contains request_id (last_ack (self s))
  then s3 else on_self (set_last_ack (dict_set request_id 0%Z)) s3.

(** What [connect] does from there: it sends the confirmation, and
    replays. *)
Definition confirm (request_id : string) : M bool :=
  now ← utcnow;
  message ← alloc (connection_established request_id now);
  send_message request_id message.

Definition confirm_and_replay (request_id : string) : M unit :=
  now ← utcnow;
  message ← alloc (connection_established request_id now);
  send_message request_id message;;
  _replay_queued_messages request_id.

(** What [cleanup_old_data] leaves of a dictionary. *)
Definition without {V} (to_remove : list string) (d : dict string V) : dict string V :=
  fold_left (fun d r => dict_del r d) to_remove d.

(** ** Scenarios *)

(** A producer holding two message dictionaries, at addresses 0 and 1,
    and a manager just constructed. *)
Definition progress_message (x : Z) : Message :=
  {| message_id := None; fields := [("type", PStr "progress"); ("data", PDict [("x", PInt x)])] |}.

Definition producer : State :=
  {| self := init;
     world := {| sockets := ∅;
                 heap := <[1%nat := progress_message 2]> (<[0%nat := progress_message 1]> ∅);
                 utc := 1000; utc_next := [1001; 1002; 1003; 1004; 1005; 1006]%Z;
                 calls := [] |} |}.

(** The producer sends its first dictionary, its second, and its first
    again, to a session that is not connected. *)
Definition resent : State :=
  run [SendMessage "r1" 0%nat; SendMessage "r1" 1%nat; SendMessage "r1" 0%nat] producer.

(** The producer's world with a transport, 7, whose next call fails. *)
Definition refusing : State :=
  on_world (fun w =>
    {| sockets := <[7%nat := {| script := [Fails]; fallback := Succeeds |}]> (sockets w);
       heap := heap w; utc := utc w; utc_next := utc_next w;
       calls := calls w |}) producer.

(** A session connected on a transport, 7, that accepts, sends the
    confirmation, and fails after that. *)
Definition flaky : State :=
  after (connect "r1" 7 "u1")
    (on_world (fun w =>
       {| sockets := <[7%nat := {| script := [Succeeds; Succeeds]; fallback := Fails |}]> (sockets w);
          heap := heap w; utc := utc w; utc_next := utc_next w;
          calls := calls w |}) producer).

(** A session connected on transport 7 and connected again on transport 8. *)
Definition reconnected : State :=
  run [Connect "r1" 7 "u1"; Connect "r1" 8 "u1"] producer.

(** A session connects, disconnects, and is cleaned up at once. *)
Definition cleaned : State :=
  after (cleanup_old_data 0) (run [Connect "r1" 7 "u1"; Disconnect "r1"] producer).

(** Three messages are queued for a session, which then connects and
    disconnects; a day and an hour later it is cleaned up. *)
Definition aged : State :=
  on_world (fun w =>
      {| sockets := sockets w; heap := heap w;      utc := utc w + hours 25; utc_next := []; calls := calls w |})
    (run [SendMessage "r1" 0%nat; SendMessage "r1" 1%nat; SendMessage "r1" 0%nat;
          Connect "r1" 7 "u1"; Disconnect "r1"] producer).

Definition cleaned_later : State := after (cleanup_old_data 24) aged.

(** The session of [resent] connects on transport 7: the state of
    [connect] when it calls [_replay_queued_messages]. *)
Definition reconnecting : State :=
  after (confirm "r1") (registered "r1" 7 "u1" resent).

(** A message is queued, then acknowledged. *)
Definition acknowledged : State :=
  run [SendMessage "r1" 0%nat; Acknowledge "r1" 1] producer.

(** ** Reasoning about coroutines *)

(** [m] never raises. *)
Definition total {A} (m : M A) : Prop :=
  forall s, exists a, fst (m s) = Returned a.

(** [m] maintains [I], whether it returns or raises. *)
Definition keeps {A} (I : State -> Prop) (m : M A) : Prop :=
  forall s, I s -> I (after m s).

(** Invariants that only look at the manager object and at the message
    dictionaries. *)
Definition inv (Q : WebSocketManager -> gmap nat Message -> Prop) : State -> Prop :=
  fun s => Q (self s) (heap (world s)).

(** What an invariant may be indifferent to. *)
Definition ignores_active (Q : WebSocketManager -> gmap nat Message -> Prop) : Prop :=
  forall m h f, Q m h -> Q (set_active f m) h.
Definition ignores_metadata (Q : WebSocketManager -> gmap nat Message -> Prop) : Prop :=
  forall m h f, Q m h -> Q (set_metadata f m) h.
Definition ignores_queue (Q : WebSocketManager -> gmap nat Message -> Prop) : Prop :=
  forall m h f, Q m h -> Q (set_queue f m) h.
Definition ignores_last_ack (Q : WebSocketManager -> gmap nat Message -> Prop) : Prop :=
  forall m h f, Q m h -> Q (set_last_ack f m) h.

Definition ignores_heap (Q : WebSocketManager -> gmap nat Message -> Prop) : Prop :=
  forall m h h', Q m h -> Q m h'.
Definition ignores_counter (request_id : string)
  (Q : WebSocketManager -> gmap nat Message -> Prop) : Prop :=
  forall m h n, Q m h -> Q (set_counters (dict_set request_id n) m) h.

(** "The counter entry of [request_id] satisfies [P]." *)
Definition counter_entry (request_id : string) (P : option Z -> Prop) :
  WebSocketManager -> gmap nat Message -> Prop :=
  fun m _ => P (dict_get request_id (message_counters m)).

(** The queues are in order: in every session's queue the messages carry
    ascending sequence numbers, none above the session's counter, and
    every queued reference has its dictionary. *)
Definition orderly (m : WebSocketManager) (h : gmap nat Message) : Prop :=
  forall r,
    let q := dict_get_or r [] (message_queue m) in
    let ids := map (fun ref => get_message_id (message_at h ref)) q in
    ascending ids /\
    Forall (fun n => (n <= dict_get_or r 0%Z (message_counters m))%Z) ids /\
    Forall (fun ref => is_Some (h !! ref)) q.

(** The dictionary behind [ref] is in no queue. *)
Definition not_queued (m : WebSocketManager) (ref : nat) : Prop :=
  forall r, ~ In ref (dict_get_or r [] (message_queue m)).

(** No operation of [ops] passes to [send_message] a dictionary that is
    waiting in a queue. *)
Fixpoint careful (ops : list op) (s : State) : Prop :=
  match ops with
  | [] => True
  | o :: ops' =>
      match o with
      | SendMessage _ message => not_queued (self s) message
      | _ => True
      end /\ careful ops' (after (exec o) s)
  end.

(** Since [s0], only calls satisfying [P] were made on transports. *)
Definition calls_inv (P : Call -> Prop) (s0 : State) : State -> Prop :=
  fun s => exists cs, calls (world s) = calls (world s0) ++ cs /\ Forall P cs.

(** Session [request_id] has transport [ws] or none, and since [s0] no
    other transport was called. *)
Definition serves (request_id : string) (ws : nat) (s0 : State) : State -> Prop :=
  fun s =>
    (dict_get request_id (active_connections (self s)) = Some ws \/
     dict_get request_id (active_connections (self s)) = None) /\
    calls_inv (fun c => call_ws c = ws) s0 s.

Definition method_name (m : method) : string :=
  match m with
  | Accept => "accept"
  | SendJson _ => "send_json"
  | Close => "close"
  end.

(** The four per-session entries that [cleanup_old_data] deletes. *)
Definition forgotten (request_id : string) (m : WebSocketManager) : Prop :=
  dict_get request_id (connection_metadata m) = None /\
  dict_get request_id (message_queue m) = None /\
  dict_get request_id (last_ack m) = None /\
  dict_get request_id (message_counters m) = None.

(** A heartbeat frame or a close: what [heartbeat_loop] does to transports. *)
Definition heartbeat_call (c : Call) : Prop :=
  match call_method c with
  | SendJson frame =>
      message_id frame = None /\ dict_get "type" (fields frame) = Some (PStr "heartbeat")
  | Close => True
  | Accept => False
  end.

(** ** The endpoint (backend/app/api/websocket.py) *)

(** What one [await websocket.receive_json()] does: a control frame
    arrives, the peer has gone ([WebSocketDisconnect]), or the call fails
    with another exception.  A frame is a dictionary; like the manager,
    the endpoint reads its ["message_id"] as an integer.  (A frame that
    is no dictionary, or whose ["message_id"] cannot be compared with an
    integer, makes the body of the loop raise before the manager is
    touched: it ends the loop as [ReceiveFails] does.) *)
Inductive inbound : Type :=
| Arrives (data : Message)
| PeerLeaves
| ReceiveFails.

(** [data.get("type") == name] *)
Definition has_type (name : string) (data : Message) : bool :=
  match dict_get "type" (fields data) with
  | Some (PStr t) => bool_decide (t = name)
  | _ => false
  end.

(** [connection_metadata[request_id]["last_heartbeat"] = now] *)
Definition refresh_heartbeat (request_id : string) (now : Z)
  (d : dict string Metadata) : dict string Metadata :=
  match dict_get request_id d with
  | Some md => dict_set request_id (with_last_heartbeat now md) d
  | None => d
  end.

(** The body of the endpoint's [while True], once a frame is received. *)
Definition handle_frame (request_id : string) (data : Message) : M unit :=
  if has_type "ack" data then
    match message_id data with
    | Some acked =>
        if (acked =? 0)%Z then ret tt else acknowledge_message request_id acked
    | None => ret tt
    end
  else if has_type "heartbeat_response" data then
    all_metadata ← gets connection_metadata;
    if dict_contains request_id all_metadata
    then now ← utcnow; modify (set_metadata (refresh_heartbeat request_id now))
    else ret tt
  else if has_type "reconnect" data then _replay_queued_messages request_id
  else ret tt.

(** The endpoint's [while True]: [incoming] is what the successive
    [receive_json] calls do; when it is used up, the peer has gone. *)
Fixpoint receive_loop (request_id : string) (incoming : list inbound) : M unit :=
  match incoming with
  | [] => raise WebSocketDisconnect
  | Arrives data :: rest =>
      handle_frame request_id data;; receive_loop request_id rest
  | PeerLeaves :: _ => raise WebSocketDisconnect
  | ReceiveFails :: _ => raise OtherException
  end.

(** [websocket_endpoint(websocket, request_id, token)].  [verify_token]
    belongs to app.core.security: it gives nothing for a token it
    rejects, and otherwise the payload's ["sub"] (a string, when present).
    [WebSocketException] is an [Exception] like another. *)
Definition websocket_endpoint (verify_token : string -> option (option string))
  (websocket : nat) (request_id token : string) (incoming : list inbound) : M unit :=
  match verify_token token with
  | None => raise OtherException
  | Some None => raise OtherException
  | Some (Some user) =>
      if bool_decide (user = "") then raise OtherException
      else
        try_except
          (connect request_id websocket user;;
           try_except (receive_loop request_id incoming)
             (fun e =>
                match e with
                | WebSocketDisconnect => ret tt
                | OtherException => ret tt
                end);;
           disconnect request_id)
          (fun e => raise e)
  end.

(** ** More scenarios and observations *)

(** A transport on which every call succeeds, now and later. *)
Definition always_succeeds (k : WebSocket) : Prop :=
  Forall (fun o => o = Succeeds) (script k) /\ fallback k = Succeeds.

(** A session connected on a transport that never fails. *)
Definition connected : State := after (connect "r1" 7 "u1") producer.

(** Two sessions, each on its own transport. *)
Definition two_sessions : State :=
  run [Connect "r1" 7 "u1"; Connect "r2" 8 "u2"] producer.

(** Session [request_id] is registered on [ws], a transport that never
    fails, and its metadata is [md]. *)
Definition in_good_order (request_id : string) (ws : nat) (md : Metadata) : State -> Prop :=
  fun s =>
    dict_get request_id (active_connections (self s)) = Some ws /\
    dict_get request_id (connection_metadata (self s)) = Some md /\
    always_succeeds (socket_of (world s) ws).

(** Three sessions; the transport of the first fails from now on, the
    second has been silent for more than five minutes, the third is in
    good order. *)
Definition three_sessions : State :=
  on_self (set_metadata (dict_set "r2"
      {| user_id := "u2"; connected_at := 0; last_heartbeat := 1009 - inactive_timeout - 1;
         reconnection_count := 0 |}))
    (run [Connect "r1" 7 "u1"; Connect "r2" 8 "u2"; Connect "r3" 9 "u3"]
       (on_world (fun w =>
          {| sockets := <[7%nat := {| script := [Succeeds; Succeeds]; fallback := Fails |}]>
                          (sockets w);
             heap := heap w; utc := utc w;
             utc_next := [1001; 1002; 1003; 1004; 1005; 1006; 1007; 1008; 1009; 1010]%Z;
             calls := calls w |}) producer)).

(** ** Everything a deployment does to the manager *)

(** The manager's operations, the periodic cleanup, and the endpoint
    serving one client from connection to disconnection. *)
Inductive action : Type :=
| Operation (o : op)
| CleanupOldData (max_age_hours : Z)
| Endpoint (verify_token : string -> option (option string))
           (websocket : nat) (request_id token : string) (incoming : list inbound).

Definition perform (a : action) : M unit :=
  match a with
  | Operation o => exec o
  | CleanupOldData max_age_hours => cleanup_old_data max_age_hours
  | Endpoint verify_token websocket request_id token incoming =>
      websocket_endpoint verify_token websocket request_id token incoming
  end.

Definition history (actions : list action) (s : State) : State :=
  fold_left (fun s a => after (perform a) s) actions s.

(** Does [a] call [send_message] for [request_id]?  (The endpoint does,
    through [connect], when it serves that session.) *)
Definition action_sends_to (request_id : string) (a : action) : bool :=
  match a with
  | Operation o => sends_to request_id o
  | CleanupOldData _ => false
  | Endpoint _ _ r _ _ => bool_decide (r = request_id)
  end.

(** No action of [actions] calls [send_message] for [request_id]. *)
Definition silent (request_id : string) (actions : list action) : bool :=
  forallb (fun a => negb (action_sends_to request_id a)) actions.

(** Does the action keep what the manager knows of its sessions? *)
Definition retains (a : action) : bool :=
  match a with
  | CleanupOldData _ => false
  | _ => true
  end.


(** The registry is consistent: no session is registered twice or has
    its metadata twice (the association lists are dictionaries), and every
    registered session has metadata. *)
Definition consistent (m : WebSocketManager) : Prop :=
  NoDup (dict_keys (active_connections m)) /\
  NoDup (dict_keys (connection_metadata m)) /\
  forall r, dict_contains r (active_connections m) = true ->
            dict_contains r (connection_metadata m) = true.

Definition sound (s : State) : Prop := consistent (self s).

(** Events are broadcast for a session that is not connected yet. *)
Definition backlog : State :=
  run [BroadcastProgress "r1" "analysis_started" [];
       BroadcastProgress "r1" "analysis_complete" [("models", PInt 3)];
       Acknowledge "r1" 1] producer.

(** The user the endpoint serves, if it serves the request at all: the
    token must be accepted and its payload must name a user. *)
Definition authenticated (verify_token : string -> option (option string))
  (token : string) : option string :=
  match verify_token token with
  | Some (Some user) => if bool_decide (user = "") then None else Some user
  | _ => None
  end.

(** The session is known as [user]'s, connected at [t]. *)
Definition known_as (request_id user : string) (t : Z) : State -> Prop :=
  fun s =>
    exists md, dict_get request_id (connection_metadata (self s)) = Some md /\
               user_id md = user /\ connected_at md = t.

(** A token check that accepts one token, for user u1. *)
Definition verify_token_example (token : string) : option (option string) :=
  if bool_decide (token = "good") then Some (Some "u1")
  else if bool_decide (token = "anonymous") then Some None
  else None.

Definition ack_frame (n : Z) : Message :=
  {| message_id := Some n; fields := [("type", PStr "ack")] |}.

Definition control_frame (type : string) : Message :=
  {| message_id := None; fields := [("type", PStr type)] |}.

(** A [send_json] on transport [ws]. *)
Definition is_send (ws : nat) (c : Call) : Prop :=
  call_ws c = ws /\ exists frame, call_method c = SendJson frame.

(** The life of a client's transport once it is registered, in state
    [s0]: frames are sent on it while the session is registered, and the
    session is unregistered by closing it, after which it is not called
    again. *)
Definition lifecycle (request_id : string) (ws : nat) (s0 : State) : State -> Prop :=
  fun s =>
    exists sends,
      Forall (is_send ws) sends /\
      (dict_get request_id (active_connections (self s)) = Some ws /\
       calls (world s) = calls (world s0) ++ sends
       \/
       dict_get request_id (active_connections (self s)) = None /\
       exists o, calls (world s) =
                 calls (world s0) ++ sends ++
                 [ {| call_ws := ws; call_method := Close; call_outcome := o |} ]).

(** The sequence number a frame acknowledges, if it is an
    acknowledgment that the endpoint heeds. *)
Definition acknowledgment (data : Message) : option Z :=
  if has_type "ack" data then
    match message_id data with
    | Some acked => if (acked =? 0)%Z then None else Some acked
    | None => None
    end
  else None.

(** The acknowledgments received until the client leaves. *)
Fixpoint acknowledgments (incoming : list inbound) : list Z :=
  match incoming with
  | Arrives data :: rest =>
      match acknowledgment data with
      | Some acked => acked :: acknowledgments rest
      | None => acknowledgments rest
      end
  | _ => []
  end.

(** The session's counter and high-water mark have reached [c] and [mark]. *)
Definition at_least (request_id : string) (c mark : Z) : State -> Prop :=
  fun s => (c <= counter s request_id)%Z /\ (mark <= high_water_mark s request_id)%Z.

(** The session of [backlog], with a transport, 7, that accepts and then
    fails. *)
Definition unlucky : State :=
  on_world (fun w =>
    {| sockets := <[7%nat := {| script := [Succeeds]; fallback := Fails |}]> (sockets w);
       heap := heap w; utc := utc w; utc_next := utc_next w;
       calls := calls w |}) backlog.

(** The session of [backlog] connecting on a transport, 7, that accepts,
    takes the confirmation, and fails after that: the state of [connect]
    when it calls the replay. *)
Definition replaying : State :=
  after (confirm "r1")
    (registered "r1" 7 "u1"
       (on_world (fun w =>
          {| sockets := <[7%nat := {| script := [Succeeds; Succeeds]; fallback := Fails |}]>
                          (sockets w);
             heap := heap w; utc := utc w; utc_next := utc_next w;
             calls := calls w |}) backlog)).

(** Metadata that differs at most in [last_heartbeat]. *)
Definition same_session (md md' : Metadata) : Prop :=
  user_id md' = user_id md /\ connected_at md' = connected_at md /\
  reconnection_count md' = reconnection_count md.

(** From [s] to [s'] no session's metadata appeared, disappeared, or
    changed in anything but [last_heartbeat]. *)
Definition same_sessions (s s' : State) : Prop :=
  forall r,
    match dict_get r (connection_metadata (self s)),
          dict_get r (connection_metadata (self s')) with
    | Some md, Some md' => same_session md md'
    | None, None => True
    | _, _ => False
    end.

(** * Properties *)

(** ** Dictionaries *)

Section PyDictFacts.
Context {K V : Type} `{EqDecision K}.
Implicit Types (k : K) (v : V) (d : dict K V).

Lemma dict_get_set_eq k v d : dict_get k (dict_set k v d) = Some v.
Proof.
  induction d as [|[k' v'] d IH]; simpl.
  - by rewrite decide_True.
  - destruct (decide (k = k')) as [->|Hne]; simpl.
    + by rewrite decide_True.
    + by rewrite decide_False.
Qed.

Lemma dict_get_set_ne k k' v d : k ≠ k' -> dict_get k' (dict_set k v d) = dict_get k' d.
Proof.
  intros Hne. induction d as [|[k0 v0] d IH]; simpl.
  - rewrite decide_False; [done | congruence].
  - destruct (decide (k = k0)) as [->|Hk]; simpl.
    + rewrite !decide_False; [done | congruence | congruence].
    + destruct (decide (k' = k0)); [done | apply IH].
Qed.

Lemma dict_get_del_eq k d : dict_get k (dict_del k d) = None.
Proof.
  induction d as [|[k' v'] d IH]; simpl; [done|].
  destruct (decide (k = k')) as [->|Hne]; simpl; [done|].
  by rewrite decide_False.
Qed.

Lemma dict_get_del_ne k k' d : k ≠ k' -> dict_get k' (dict_del k d) = dict_get k' d.
Proof.
  intros Hne. induction d as [|[k0 v0] d IH]; simpl; [done|].
  destruct (decide (k = k0)) as [->|Hk]; simpl.
  - rewrite decide_False; [apply IH | congruence].
  - destruct (decide (k' = k0)); [done | apply IH].
Qed.

(** Deleting never brings a key back. *)
Lemma dict_get_del_None k k' d : dict_get k' d = None -> dict_get k' (dict_del k d) = None.
Proof.
  intros Hd. destruct (decide (k = k')) as [->|Hne].
  - apply dict_get_del_eq.
  - by rewrite dict_get_del_ne.
Qed.

Lemma dict_get_or_set_eq k v dflt d : dict_get_or k dflt (dict_set k v d) = v.
Proof. unfold dict_get_or. by rewrite dict_get_set_eq. Qed.

Lemma dict_get_or_set_ne k k' v dflt d :
  k ≠ k' -> dict_get_or k' dflt (dict_set k v d) = dict_get_or k' dflt d.
Proof. intros Hne. unfold dict_get_or. by rewrite dict_get_set_ne. Qed.

(** Deleting a key that is not there changes nothing. *)
Lemma dict_del_absent k d : dict_get k d = None -> dict_del k d = d.
Proof.
  induction d as [|[k' v'] d IH]; simpl; [done|].
  destruct (decide (k = k')); [done|]. intros Hd. by rewrite IH.
Qed.

(** Deleting several keys. *)
Lemma dict_get_del_all_None k (l : list K) d :
  dict_get k d = None -> dict_get k (fold_left (fun d r => dict_del r d) l d) = None.
Proof.
  revert d. induction l as [|r l IH]; intros d Hd; simpl; [done|].
  apply IH. by apply dict_get_del_None.
Qed.

Lemma dict_get_del_all_In k (l : list K) d :
  In k l -> dict_get k (fold_left (fun d r => dict_del r d) l d) = None.
Proof.
  revert d. induction l as [|r l IH]; intros d Hin; simpl; [done|].
  destruct Hin as [->|Hin]; [|by apply IH].
  apply dict_get_del_all_None, dict_get_del_eq.
Qed.

(** Writing the same key twice keeps the second value only. *)
Lemma dict_set_set k v v' d : dict_set k v' (dict_set k v d) = dict_set k v' d.
Proof.
  induction d as [|[k0 v0] d IH]; simpl.
  - by rewrite decide_True.
  - destruct (decide (k = k0)) as [->|Hk]; simpl.
    + by rewrite decide_True.
    + rewrite decide_False; [by rewrite IH | done].
Qed.

(** A key whose first binding passes a filter is among the filtered keys. *)
Lemma dict_get_filter_keys (f : K * V -> bool) k v d :
  dict_get k d = Some v -> f (k, v) = true -> In k (map fst (List.filter f d)).
Proof.
  induction d as [|[k0 v0] d IH]; simpl; [done|].
  destruct (decide (k = k0)) as [->|Hk].
  - intros [= ->] Hf. rewrite Hf. simpl. by left.
  - intros Hget Hf. destruct (f (k0, v0)); simpl; auto.
Qed.

End PyDictFacts.

(** ** Coroutines *)

(** Closed goals decided by running the model. *)
Ltac by_computation := vm_compute; reflexivity.

Ltac unfold_monad :=
  unfold mbind, M_bind, mret, M_ret, bind, ret, raise, try_except, gets,
    modify, when, load, inspect, sleep, after in *.

Section CoroutineFacts.
Context {A B : Type}.
Implicit Types (I : State -> Prop) (m : M A) (k : A -> M B).

Lemma total_ret (a : A) : total (ret a).
Proof. intros s. by exists a. Qed.

Lemma total_bind m k : total m -> (forall a, total (k a)) -> total (x ← m; k x).
Proof.
  intros Hm Hk s. unfold_monad. destruct (Hm s) as [a Ha].
  destruct (m s) as [r s1]; simpl in Ha; subst r. apply Hk.
Qed.

Lemma total_try_except m (handler : exn -> M A) :
  (forall e, total (handler e)) -> total (try_except m handler).
Proof.
  intros Hh s. unfold_monad. destruct (m s) as [[a|e] s1]; [by exists a|].
  apply Hh.
Qed.

Lemma total_gets (f : WebSocketManager -> A) : total (gets f).
Proof. intros s. by eexists. Qed.

Lemma total_inspect (f : World -> A) : total (inspect f).
Proof. intros s. by eexists. Qed.

(** A coroutine that never raises returns in every state. *)
Lemma total_returns m s : total m -> exists a, m s = (Returned a, after m s).
Proof.
  intros Hm. destruct (Hm s) as [a Ha]. exists a. unfold after.
  destruct (m s) as [r s1]; simpl in *. by subst.
Qed.

Lemma keeps_ret I (a : A) : keeps I (ret a).
Proof. by intros s. Qed.

Lemma keeps_raise I (e : exn) : keeps I (raise (A:=A) e).
Proof. by intros s. Qed.

Lemma keeps_bind I m k : keeps I m -> (forall a, keeps I (k a)) -> keeps I (x ← m; k x).
Proof.
  intros Hm Hk s Hs. specialize (Hm s Hs). unfold_monad.
  destruct (m s) as [[a|e] s1]; simpl in *; [by apply Hk | done].
Qed.

Lemma keeps_try_except I m (handler : exn -> M A) :
  keeps I m -> (forall e, keeps I (handler e)) -> keeps I (try_except m handler).
Proof.
  intros Hb Hh s Hs. specialize (Hb s Hs). unfold_monad.
  destruct (m s) as [[a|e] s1]; simpl in *; [done | by apply Hh].
Qed.

Lemma keeps_gets I (f : WebSocketManager -> A) : keeps I (gets f).
Proof. by intros s. Qed.

Lemma keeps_inspect I (f : World -> A) : keeps I (inspect f).
Proof. by intros s. Qed.

End CoroutineFacts.

Lemma total_modify (f : WebSocketManager -> WebSocketManager) : total (modify f).
Proof. intros s. by eexists. Qed.

Lemma total_utcnow : total utcnow.
Proof. intros s. by eexists. Qed.

Lemma total_alloc (msg : Message) : total (alloc msg).
Proof. intros s. by eexists. Qed.

Lemma total_store_message_id (r : nat) (n : Z) : total (store_message_id r n).
Proof. intros s. by eexists. Qed.

Lemma total_when (b : bool) (m : M unit) : total m -> total (when b m).
Proof. intros Hm. destruct b; [done | apply total_ret]. Qed.

Lemma total_for_each {A} (l : list A) (body : A -> M unit) :
  (forall x, total (body x)) -> total (for_each l body).
Proof.
  intros Hb. induction l as [|x l IH]; simpl.
  - apply total_ret.
  - apply total_bind; [apply Hb | intros _; apply IH].
Qed.

Lemma keeps_when (I : State -> Prop) (b : bool) (m : M unit) : keeps I m -> keeps I (when b m).
Proof. intros Hm. destruct b; [done | apply keeps_ret]. Qed.

Lemma keeps_for_each {A} (I : State -> Prop) (l : list A) (body : A -> M unit) :
  (forall x, keeps I (body x)) -> keeps I (for_each l body).
Proof.
  intros Hb. induction l as [|x l IH]; simpl.
  - apply keeps_ret.
  - apply keeps_bind; [apply Hb | intros _; apply IH].
Qed.

Lemma keeps_modify (I : State -> Prop) (f : WebSocketManager -> WebSocketManager) :
  (forall s, I s -> I (on_self f s)) -> keeps I (modify f).
Proof. intros Hf s Hs. by apply Hf. Qed.

Lemma keeps_ws_call (I : State -> Prop) (ws : nat) (m : method) :
  (forall s, I s -> I (on_world (record_call ws m) s)) -> keeps I (ws_call ws m).
Proof. intros Hf s Hs. by apply Hf. Qed.

Lemma keeps_utcnow (I : State -> Prop) :
  (forall s, I s -> I (on_world tick s)) -> keeps I utcnow.
Proof. intros Hf s Hs. by apply Hf. Qed.

Lemma keeps_alloc (I : State -> Prop) (msg : Message) :
  (forall s, I s -> I (on_world (allocate msg) s)) -> keeps I (alloc msg).
Proof. intros Hf s Hs. by apply Hf. Qed.

Lemma keeps_store_message_id (I : State -> Prop) (r : nat) (n : Z) :
  (forall s, I s -> I (on_world (stamp r n) s)) -> keeps I (store_message_id r n).
Proof. intros Hf s Hs. by apply Hf. Qed.

Create HintDb coroutine.
#[export] Hint Resolve total_ret total_gets total_inspect total_modify total_utcnow
  total_alloc total_store_message_id total_when : coroutine.

Ltac step_total :=
  repeat first
    [ progress auto with coroutine
    | lazymatch goal with
      | |- total (mbind _ _) => apply total_bind; [|intros ?]
      | |- total (try_except _ _) => apply total_try_except; intros ?
      | |- total (for_each _ _) => apply total_for_each; intros ?
      | |- total (match ?x with _ => _ end) => destruct x
      end ].

(** Such an invariant sees neither the transports nor the clock. *)
Lemma inv_record_call Q ws m s : inv Q s -> inv Q (on_world (record_call ws m) s).
Proof. done. Qed.

Lemma inv_tick Q s : inv Q s -> inv Q (on_world tick s).
Proof. done. Qed.

#[export] Hint Resolve inv_record_call inv_tick : coroutine.

(** Cuts a [keeps] goal down to the [modify]s and the method calls of the
    coroutine. *)
Ltac step_keeps :=
  repeat
    lazymatch goal with
    | |- keeps _ (mbind _ _) => apply keeps_bind; [|intros ?]
    | |- keeps _ (try_except _ _) => apply keeps_try_except; [|intros ?]
    | |- keeps _ (ret _) => apply keeps_ret
    | |- keeps _ (raise _) => apply keeps_raise
    | |- keeps _ (sleep _) => apply keeps_ret
    | |- keeps _ (gets _) => apply keeps_gets
    | |- keeps _ (inspect _) => apply keeps_inspect
    | |- keeps _ (load _) => apply keeps_inspect
    | |- keeps _ (when _ _) => apply keeps_when
    | |- keeps _ (for_each _ _) => apply keeps_for_each; intros ?
    | |- keeps _ (ws_call _ _) => apply keeps_ws_call; solve [auto with coroutine]
    | |- keeps _ utcnow => apply keeps_utcnow; solve [auto with coroutine]
    | |- keeps _ (alloc _) => apply keeps_alloc; solve [auto with coroutine]
    | |- keeps _ (store_message_id _ _) =>
        apply keeps_store_message_id; solve [auto with coroutine]
    | |- keeps _ (modify _) => apply keeps_modify
    | |- keeps _ (match ?x with _ => _ end) => destruct x
    end.

(** ** The world *)

Arguments socket_of : simpl never.
Arguments deref : simpl never.

Lemma socket_of_tick w ws : socket_of (tick w) ws = socket_of w ws.
Proof. done. Qed.

Lemma socket_of_stamp r n w ws : socket_of (stamp r n w) ws = socket_of w ws.
Proof. done. Qed.

Lemma socket_of_allocate msg w ws : socket_of (allocate msg w) ws = socket_of w ws.
Proof. done. Qed.

Lemma socket_of_record_call_eq ws m w :
  socket_of (record_call ws m w) ws = after_call (socket_of w ws).
Proof. unfold socket_of at 1. simpl. by rewrite lookup_insert_eq. Qed.

Lemma socket_of_record_call_ne ws ws' m w :
  ws ≠ ws' -> socket_of (record_call ws m w) ws' = socket_of w ws'.
Proof. intros Hne. unfold socket_of. simpl. by rewrite lookup_insert_ne. Qed.

Lemma deref_tick w r : deref (tick w) r = deref w r.
Proof. done. Qed.

Lemma deref_record_call ws m w r : deref (record_call ws m w) r = deref w r.
Proof. done. Qed.

Lemma deref_stamp_eq r n w : deref (stamp r n w) r = with_message_id n (deref w r).
Proof. unfold deref at 1, message_at. simpl. by rewrite lookup_insert_eq. Qed.

Lemma deref_stamp_ne r r' n w : r ≠ r' -> deref (stamp r n w) r' = deref w r'.
Proof. intros Hne. unfold deref, message_at. simpl. by rewrite lookup_insert_ne. Qed.

Lemma deref_allocate_eq msg w : deref (allocate msg w) (new_ref w) = msg.
Proof. unfold deref, message_at. simpl. by rewrite lookup_insert_eq. Qed.

(** A new dictionary takes the place of no other. *)
Lemma deref_allocate_ne msg w r :
  is_Some (heap w !! r) -> deref (allocate msg w) r = deref w r.
Proof.
  intros Hr. unfold deref, message_at. simpl. rewrite lookup_insert_ne; [done|].
  intros <-. apply (is_fresh (dom (heap w))). by apply elem_of_dom.
Qed.

(** The calls made between two states, when the log only grew. *)
Lemma calls_since_app s s' cs :
  calls (world s') = calls (world s) ++ cs -> calls_since s s' = cs.
Proof. intros Hcs. unfold calls_since. rewrite Hcs. by rewrite drop_app_length. Qed.

Lemma calls_since_refl s s' : calls (world s') = calls (world s) -> calls_since s s' = [].
Proof. intros Hcs. apply calls_since_app. by rewrite app_nil_r. Qed.

(** ** Acknowledgment *)

Lemma acknowledge_message_after request_id acked s :
  after (acknowledge_message request_id acked) s =
  on_self (set_last_ack
    (dict_set request_id (Z.max (high_water_mark s request_id) acked))) s.
Proof. done. Qed.

(** C5. [acknowledge_message] returns, and sets the high-water mark of
    its session to the maximum of its current value (0 for a session with
    no mark) and the acknowledged id.  So the mark never decreases, an
    acknowledgment repeated changes nothing, nor does an acknowledgment
    of an older id, and acknowledging 3 then 2 leaves the mark where
    acknowledging 3 left it: at 3 for a session that had no mark. *)
Theorem acknowledge_message_high_water_mark (request_id : string) (acked : Z) (s : State) :
  let s' := after (acknowledge_message request_id acked) s in
  acknowledge_message request_id acked s = (Returned tt, s') /\
  high_water_mark s' request_id = Z.max (high_water_mark s request_id) acked /\
  (high_water_mark s request_id <= high_water_mark s' request_id)%Z /\
  after (acknowledge_message request_id acked) s' = s' /\
  (forall older, (older <= acked)%Z ->
     after (acknowledge_message request_id older) s' = s') /\
  high_water_mark
    (after (acknowledge_message request_id 2) (after (acknowledge_message request_id 3) s))
    request_id = Z.max (high_water_mark s request_id) 3 /\
  high_water_mark
    (after (acknowledge_message request_id 2)
       (after (acknowledge_message request_id 3) {| self := init; world := world s |}))
    request_id = 3%Z.
Proof.
  assert (Hmark : forall a t,
    high_water_mark (after (acknowledge_message request_id a) t) request_id
    = Z.max (high_water_mark t request_id) a).
  { intros a t. rewrite acknowledge_message_after. unfold high_water_mark at 1. simpl.
    by rewrite dict_get_or_set_eq. }
  assert (Hsame : forall a b t, (b <= a)%Z ->
    after (acknowledge_message request_id b) (after (acknowledge_message request_id a) t)
    = after (acknowledge_message request_id a) t).
  { intros a b t Hle. rewrite (acknowledge_message_after _ b), Hmark.
    rewrite acknowledge_message_after. unfold on_self, set_last_ack. simpl.
    rewrite dict_set_set. do 3 f_equal. lia. }
  simpl. repeat split.
  - apply Hmark.
  - rewrite Hmark. lia.
  - apply Hsame. lia.
  - intros older Hle. by apply Hsame.
  - rewrite !Hmark. lia.
  - rewrite !Hmark. done.
Qed.

(** ** Disconnecting and queueing *)

Lemma disconnect_live request_id ws s :
  dict_get request_id (active_connections (self s)) = Some ws ->
  disconnect request_id s = (Returned tt, closed request_id ws s).
Proof.
  intros Hws. unfold disconnect, ws_call. unfold_monad. simpl. rewrite Hws.
  by destruct (raised_by _).
Qed.

Lemma disconnect_idle request_id s :
  dict_get request_id (active_connections (self s)) = None ->
  disconnect request_id s = (Returned tt, s).
Proof. intros Hws. unfold disconnect. unfold_monad. simpl. by rewrite Hws. Qed.

Lemma _queue_message_enqueued request_id message s :
  _queue_message request_id message s = (Returned tt, enqueued request_id message s).
Proof.
  unfold _queue_message, enqueued, queue_of, dict_contains, dict_get_or. unfold_monad. simpl.
  destruct (dict_get request_id (message_queue (self s))) as [q|] eqn:Hq; simpl.
  - unfold on_self, set_queue. simpl. by rewrite Hq.
  - unfold on_self, set_queue. simpl. rewrite dict_get_set_eq. by rewrite dict_set_set.
Qed.

Lemma total_disconnect request_id : total (disconnect request_id).
Proof.
  intros s. destruct (dict_get request_id (active_connections (self s))) eqn:Hws.
  - rewrite (disconnect_live _ _ _ Hws). by eexists.
  - rewrite (disconnect_idle _ _ Hws). by eexists.
Qed.

Lemma total__queue_message request_id message : total (_queue_message request_id message).
Proof. intros s. rewrite _queue_message_enqueued. by eexists. Qed.

#[export] Hint Resolve total_disconnect total__queue_message : coroutine.

(** ** Sending *)

(** The three ways [send_message] ends: delivered, queued after a failed
    transmission, queued for want of a transport. *)
Lemma send_message_delivered request_id message ws s :
  dict_get request_id (active_connections (self s)) = Some ws ->
  raised_by (next_outcome (socket_of (world s) ws)) = None ->
  let s1 := numbered request_id message s in
  send_message request_id message s =
  (Returned true, on_world (record_call ws (SendJson (deref (world s1) message))) s1).
Proof.
  intros Hws Hok s1.
  unfold send_message. unfold_monad. simpl. unfold counter in s1.
  rewrite dict_get_or_set_eq. rewrite Hws. unfold ws_call. simpl.
  rewrite socket_of_stamp. by rewrite Hok.
Qed.

Lemma send_message_failed request_id message ws e s :
  dict_get request_id (active_connections (self s)) = Some ws ->
  raised_by (next_outcome (socket_of (world s) ws)) = Some e ->
  let s1 := numbered request_id message s in
  let s2 := on_world (record_call ws (SendJson (deref (world s1) message))) s1 in
  send_message request_id message s =
  (Returned false, enqueued request_id message (closed request_id ws s2)).
Proof.
  intros Hws He s1 s2.
  unfold send_message. unfold_monad. simpl. unfold counter in s1.
  rewrite dict_get_or_set_eq. rewrite Hws. unfold ws_call. simpl.
  rewrite socket_of_stamp. rewrite He.
  assert (Hd : disconnect request_id s2 = (Returned tt, closed request_id ws s2)).
  { by apply disconnect_live. }
  destruct e;
    (match goal with |- context [disconnect request_id ?x] => change x with s2 end);
    rewrite Hd; by rewrite _queue_message_enqueued.
Qed.

Lemma send_message_idle request_id message s :
  dict_get request_id (active_connections (self s)) = None ->
  send_message request_id message s =
  (Returned false, enqueued request_id message (numbered request_id message s)).
Proof.
  intros Hws. unfold send_message. unfold_monad. simpl.
  rewrite dict_get_or_set_eq. rewrite Hws.
  by rewrite _queue_message_enqueued.
Qed.

(** ** What the methods leave alone *)

Section ManagerInvariants.
Variable Q : WebSocketManager -> gmap nat Message -> Prop.

Lemma keeps_disconnect request_id :
  ignores_active Q -> keeps (inv Q) (disconnect request_id).
Proof. intros HQ. unfold disconnect. step_keeps. intros s. apply HQ. Qed.

Lemma keeps__queue_message request_id message :
  ignores_queue Q -> keeps (inv Q) (_queue_message request_id message).
Proof. intros HQ. unfold _queue_message. step_keeps; intros s; apply HQ. Qed.

Lemma keeps_replay_loop request_id messages_to_replay :
  keeps (inv Q) (replay_loop request_id messages_to_replay).
Proof.
  induction messages_to_replay as [|message rest IH]; simpl; step_keeps; apply IH.
Qed.

Lemma keeps__replay_queued_messages_clearing request_id :
  (forall m h, Q m h -> Q (set_queue (dict_set request_id []) m) h) ->
  keeps (inv Q) (_replay_queued_messages request_id).
Proof.
  intros HQ. unfold _replay_queued_messages. step_keeps.
  - apply keeps_replay_loop.
  - intros s. apply HQ.
Qed.

Lemma keeps__replay_queued_messages request_id :
  ignores_queue Q -> keeps (inv Q) (_replay_queued_messages request_id).
Proof.
  intros HQ. apply keeps__replay_queued_messages_clearing. intros m h. apply HQ.
Qed.

Lemma keeps_acknowledge_message request_id acked :
  ignores_last_ack Q -> keeps (inv Q) (acknowledge_message request_id acked).
Proof. intros HQ. unfold acknowledge_message. step_keeps. intros s. apply HQ. Qed.

Lemma keeps_heartbeat_session current_time request_id :
  ignores_active Q -> ignores_metadata Q ->
  keeps (inv Q) (heartbeat_session current_time request_id).
Proof.
  intros HA HM. unfold heartbeat_session. step_keeps;
    first [ by apply keeps_disconnect | intros s; apply HM ].
Qed.

Lemma keeps_heartbeat_cycle :
  ignores_active Q -> ignores_metadata Q -> keeps (inv Q) heartbeat_cycle.
Proof.
  intros HA HM. unfold heartbeat_cycle. step_keeps.
  by apply keeps_heartbeat_session.
Qed.

Lemma keeps_heartbeat_loop cycles :
  ignores_active Q -> ignores_metadata Q -> keeps (inv Q) (heartbeat_loop cycles).
Proof.
  intros HA HM. induction cycles as [|n IH]; simpl; step_keeps; auto.
  by apply keeps_heartbeat_cycle.
Qed.

(** [send_message] for session [request_id], given that [Q] does not
    depend on that session's counter nor on the message it numbers. *)
Lemma keeps_send_message request_id message :
  ignores_active Q -> ignores_queue Q -> ignores_counter request_id Q ->
  (forall m h msg, Q m h -> Q m (<[message := msg]> h)) ->
  keeps (inv Q) (send_message request_id message).
Proof.
  intros HA HQ HC HH. unfold send_message. step_keeps;
    try first [ by apply keeps_disconnect | by apply keeps__queue_message ].
  - intros s Hs.
    apply (HC (self s) _ (dict_get_or request_id 0 (message_counters (self s)) + 1)%Z Hs).
  - apply keeps_store_message_id. intros s Hs. apply (HH _ _ _ Hs).
Qed.

Lemma keeps_broadcast_progress request_id event_type data :
  ignores_active Q -> ignores_queue Q -> ignores_counter request_id Q -> ignores_heap Q ->
  keeps (inv Q) (broadcast_progress request_id event_type data).
Proof.
  intros HA HQ HC HH. unfold broadcast_progress. step_keeps.
  - apply keeps_alloc. intros s Hs. apply (HH _ _ _ Hs).
  - apply keeps_send_message; auto. intros m h msg Hm. apply (HH _ _ _ Hm).
Qed.

Lemma keeps_confirm_and_replay request_id :
  ignores_active Q -> ignores_queue Q -> ignores_counter request_id Q -> ignores_heap Q ->
  keeps (inv Q) (confirm_and_replay request_id).
Proof.
  intros HA HQ HC HH. unfold confirm_and_replay. step_keeps.
  - apply keeps_alloc. intros s Hs. apply (HH _ _ _ Hs).
  - apply keeps_send_message; auto. intros m h msg Hm. apply (HH _ _ _ Hm).
  - by apply keeps__replay_queued_messages.
Qed.

Lemma keeps_connect request_id websocket user :
  ignores_active Q -> ignores_metadata Q -> ignores_queue Q -> ignores_last_ack Q ->
  ignores_counter request_id Q -> ignores_heap Q ->
  keeps (inv Q) (connect request_id websocket user).
Proof.
  intros HA HM HQ HL HC HH. unfold connect. step_keeps.
  - intros s. apply HA.
  - intros s. apply HM.
  - intros s. apply HC.
  - intros s. apply HL.
  - apply keeps_alloc. intros s Hs. apply (HH _ _ _ Hs).
  - apply keeps_send_message; auto. intros m h msg Hm. apply (HH _ _ _ Hm).
  - by apply keeps__replay_queued_messages.
Qed.

End ManagerInvariants.

Lemma total_send_message request_id message : total (send_message request_id message).
Proof. unfold send_message. step_total. Qed.

#[export] Hint Resolve total_send_message : coroutine.

(** The message once numbered, and the session's counter. *)
Lemma numbered_message request_id message s :
  deref (world (numbered request_id message s)) message =
  with_message_id (counter s request_id + 1) (deref (world s) message).
Proof. unfold numbered. simpl. by rewrite deref_stamp_eq. Qed.

Lemma numbered_counter request_id message s :
  counter (numbered request_id message s) request_id = (counter s request_id + 1)%Z.
Proof. unfold numbered, counter. simpl. by rewrite dict_get_or_set_eq. Qed.

(** Whatever becomes of the message, [send_message] returns, having moved
    the session's counter one up and written the new value in the message. *)
Ltac open_state := cbn [world self enqueued closed on_self on_world].

Lemma send_message_numbers request_id message s :
  exists delivered s',
    send_message request_id message s = (Returned delivered, s') /\
    counter s' request_id = (counter s request_id + 1)%Z /\
    message_id (deref (world s') message) = Some (counter s request_id + 1)%Z /\
    delivered = transmits s request_id.
Proof.
  unfold transmits.
  destruct (dict_get request_id (active_connections (self s))) as [ws|] eqn:Hws.
  - destruct (raised_by (next_outcome (socket_of (world s) ws))) as [e|] eqn:Ho.
    + eexists _, _. split; [by apply (send_message_failed _ _ _ _ _ Hws Ho)|].
      split; [|split; [|done]].
      * apply (numbered_counter request_id message s).
      * open_state. rewrite !deref_record_call. by rewrite numbered_message.
    + eexists _, _. split; [by apply (send_message_delivered _ _ _ _ Hws Ho)|].
      split; [|split; [|done]].
      * apply (numbered_counter request_id message s).
      * open_state. rewrite deref_record_call. by rewrite numbered_message.
  - eexists _, _. split; [by apply (send_message_idle _ _ _ Hws)|].
    split; [|split; [|done]].
    + apply (numbered_counter request_id message s).
    + open_state. by rewrite numbered_message.
Qed.

(** C6. [send_message] never raises: it returns a boolean.  When the
    session has a live transport and the transmission fails (with
    [WebSocketDisconnect] or any other exception), it runs [disconnect]
    for the session (the transport is closed and unregistered), appends
    the message, which carries its sequence number, to the session's
    queue, and returns [False].  When the session has no live transport
    it calls no transport, appends the message to the queue and returns
    [False]. *)
Theorem send_message_queues_on_failure (request_id : string) (message : nat) (s : State) :
  let n := (counter s request_id + 1)%Z in
  (exists delivered s', send_message request_id message s = (Returned delivered, s')) /\
  (forall ws e,
     dict_get request_id (active_connections (self s)) = Some ws ->
     raised_by (next_outcome (socket_of (world s) ws)) = Some e ->
     exists s_failed s',
       send_message request_id message s = (Returned false, s') /\
       s' = after (_queue_message request_id message)
              (after (disconnect request_id) s_failed) /\
       calls_since s s' =
         [ {| call_ws := ws;
              call_method := SendJson (with_message_id n (deref (world s) message));
              call_outcome := next_outcome (socket_of (world s) ws) |};
           {| call_ws := ws; call_method := Close;
              call_outcome := next_outcome (after_call (socket_of (world s) ws)) |} ] /\
       dict_get request_id (active_connections (self s')) = None /\
       dict_get request_id (message_queue (self s')) =
         Some (queue_of s request_id ++ [message]) /\
       message_id (deref (world s') message) = Some n) /\
  (dict_get request_id (active_connections (self s)) = None ->
     exists s',
       send_message request_id message s = (Returned false, s') /\
       calls_since s s' = [] /\
       dict_get request_id (message_queue (self s')) =
         Some (queue_of s request_id ++ [message]) /\
       message_id (deref (world s') message) = Some n).
Proof.
  intros n. split; [|split].
  - destruct (send_message_numbers request_id message s) as (d & s' & Hs & _). eauto.
  - intros ws e Hws Ho.
    pose (s1 := numbered request_id message s).
    pose (s2 := on_world (record_call ws (SendJson (deref (world s1) message))) s1).
    assert (Hws2 : dict_get request_id (active_connections (self s2)) = Some ws) by done.
    exists s2, (enqueued request_id message (closed request_id ws s2)).
    split; [by apply (send_message_failed _ _ _ _ _ Hws Ho)|].
    split.
    { unfold after. rewrite (disconnect_live _ _ _ Hws2). cbn [snd].
      by rewrite _queue_message_enqueued. }
    split.
    { apply calls_since_app. unfold s2. open_state.
      cbn [record_call calls]. rewrite socket_of_record_call_eq. unfold s1.
      rewrite numbered_message. unfold numbered. open_state.
      rewrite !socket_of_stamp. by rewrite <- app_assoc. }
    split; [|split].
    + open_state. simpl. apply dict_get_del_eq.
    + open_state. simpl. by rewrite dict_get_set_eq.
    + unfold s2. open_state. rewrite !deref_record_call.
      unfold s1. by rewrite numbered_message.
  - intros Hws. eexists. split; [by apply (send_message_idle _ _ _ Hws)|].
    split; [|split].
    + by apply calls_since_refl.
    + open_state. simpl. by rewrite dict_get_set_eq.
    + open_state. by rewrite numbered_message.
Qed.

(** ** Replay *)

(** One turn of the replay loop. *)
Lemma replay_loop_cons_live request_id ws message rest s :
  dict_get request_id (active_connections (self s)) = Some ws ->
  replay_loop request_id (message :: rest) s =
  let s1 := on_world (record_call ws (SendJson (deref (world s) message))) s in
  match next_outcome (socket_of (world s) ws) with
  | Succeeds => replay_loop request_id rest s1
  | _ => (Returned tt, s1)
  end.
Proof.
  intros Hws. cbn [replay_loop]. unfold_monad. cbn [self]. rewrite Hws.
  unfold ws_call. by destruct (next_outcome (socket_of (world s) ws)).
Qed.

(** A replay that reaches a registered transport: the manager object and
    the messages are as before, and the transport saw [attempts]. *)
Lemma replay_loop_live request_id ws messages_to_replay : forall s,
  dict_get request_id (active_connections (self s)) = Some ws ->
  exists s',
    replay_loop request_id messages_to_replay s = (Returned tt, s') /\
    self s' = self s /\
    heap (world s') = heap (world s) /\
    calls (world s') =
      calls (world s) ++
      attempts ws (socket_of (world s) ws) (map (deref (world s)) messages_to_replay).
Proof.
  induction messages_to_replay as [|message rest IH]; intros s Hws.
  - exists s. by rewrite app_nil_r.
  - pose (s1 := on_world (record_call ws (SendJson (deref (world s) message))) s).
    destruct (IH s1 Hws) as (s' & Hrun & Hself & Hheap & Hcalls).
    assert (Hderef : map (deref (world s1)) rest = map (deref (world s)) rest).
    { apply map_ext. intros r. apply deref_record_call. }
    assert (Hsock : socket_of (world s1) ws = after_call (socket_of (world s) ws)).
    { apply socket_of_record_call_eq. }
    assert (Hlog : calls (world s1) =
      calls (world s) ++
      [{| call_ws := ws; call_method := SendJson (deref (world s) message);
          call_outcome := next_outcome (socket_of (world s) ws) |}]) by done.
    rewrite Hderef, Hsock, Hlog in Hcalls. clear Hderef Hsock.
    rewrite (replay_loop_cons_live _ _ _ _ _ Hws). cbn [attempts map]. fold s1.
    destruct (next_outcome (socket_of (world s) ws)) eqn:Ho; cbn zeta.
    + exists s'. rewrite Hrun. repeat split; try done.
      rewrite Hcalls. by rewrite <- app_assoc.
    + exists s1. by repeat split.
    + exists s1. by repeat split.
Qed.

(** A replay for a session with no registered transport does nothing. *)
Lemma replay_loop_idle request_id messages_to_replay s :
  dict_get request_id (active_connections (self s)) = None ->
  replay_loop request_id messages_to_replay s = (Returned tt, s).
Proof.
  intros Hws. induction messages_to_replay as [|message rest IH]; [done|].
  cbn [replay_loop]. unfold_monad. cbn [self]. by rewrite Hws.
Qed.

Lemma total_replay_loop request_id messages_to_replay :
  total (replay_loop request_id messages_to_replay).
Proof.
  intros s. destruct (dict_get request_id (active_connections (self s))) eqn:Hws.
  - destruct (replay_loop_live _ _ messages_to_replay s Hws) as (s' & -> & _). by eexists.
  - rewrite (replay_loop_idle _ _ _ Hws). by eexists.
Qed.

Lemma total__replay_queued_messages request_id : total (_replay_queued_messages request_id).
Proof.
  unfold _replay_queued_messages. pose proof total_replay_loop. step_total.
Qed.

#[export] Hint Resolve total_replay_loop total__replay_queued_messages : coroutine.

(** The three ways [_replay_queued_messages] goes. *)
Lemma _replay_queued_messages_absent request_id s :
  dict_get request_id (message_queue (self s)) = None ->
  _replay_queued_messages request_id s = (Returned tt, s).
Proof. intros Hq. unfold _replay_queued_messages. unfold_monad. cbn [self]. by rewrite Hq. Qed.

Lemma _replay_queued_messages_nothing request_id queued s :
  dict_get request_id (message_queue (self s)) = Some queued ->
  unacknowledged (world s) (high_water_mark s request_id) queued = [] ->
  _replay_queued_messages request_id s = (Returned tt, s).
Proof.
  intros Hq Hp. unfold _replay_queued_messages. unfold_monad. cbn [self world].
  rewrite Hq. unfold high_water_mark in Hp. by rewrite Hp.
Qed.

Lemma _replay_queued_messages_pending request_id queued s :
  dict_get request_id (message_queue (self s)) = Some queued ->
  unacknowledged (world s) (high_water_mark s request_id) queued ≠ [] ->
  _replay_queued_messages request_id s =
  (Returned tt,
   on_self (set_queue (dict_set request_id []))
     (after (replay_loop request_id
               (unacknowledged (world s) (high_water_mark s request_id) queued)) s)).
Proof.
  intros Hq Hp. unfold _replay_queued_messages. unfold_monad. cbn [self world].
  rewrite Hq. unfold high_water_mark in *.
  destruct (unacknowledged _ _ queued) as [|r pending] eqn:Hpending; [done|].
  destruct (total_returns _ s (total_replay_loop request_id (r :: pending))) as [[] Hrun].
  unfold after in Hrun. by rewrite Hrun.
Qed.

(** Facts on lists used by the replay. *)
Lemma map_filter_comm {A B} (g : A -> B) (p : B -> bool) (l : list A) :
  map g (List.filter (fun x => p (g x)) l) = List.filter p (map g l).
Proof.
  induction l as [|x l IH]; [done|]. simpl.
  destruct (p (g x)); simpl; by rewrite IH.
Qed.

Lemma Forall_list_filter {A} (P : A -> Prop) (p : A -> bool) (l : list A) :
  Forall P l -> Forall P (List.filter p l).
Proof.
  induction 1 as [|x l Hx Hl IH]; simpl; [done|].
  destruct (p x); [by constructor | done].
Qed.

Lemma ascending_filter (p : Z -> bool) (l : list Z) :
  ascending l -> ascending (List.filter p l).
Proof.
  induction l as [|x l IH]; [done|]. intros [Hx Hl]. simpl.
  destruct (p x); [|by apply IH]. split; [|by apply IH].
  by apply Forall_list_filter.
Qed.

Lemma filter_sublist {A} (p : A -> bool) (l : list A) : sublist (List.filter p l) l.
Proof.
  induction l as [|x l IH]; [done|]. simpl.
  destruct (p x); by constructor.
Qed.

(** The frames of [attempts] are the first frames to send, and every
    attempt but the last succeeded. *)
Lemma attempts_frames ws k frames : frames_of (attempts ws k frames) `prefix_of` frames.
Proof.
  revert k. induction frames as [|frame rest IH]; intros k; [done|].
  simpl. destruct (next_outcome k).
  - by apply prefix_cons.
  - apply prefix_cons, prefix_nil.
  - apply prefix_cons, prefix_nil.
Qed.

Lemma attempts_stop ws k frames before c after_c :
  attempts ws k frames = before ++ c :: after_c ->
  call_outcome c ≠ Succeeds -> after_c = [].
Proof.
  revert k before. induction frames as [|frame rest IH]; intros k before Heq Hc.
  - by destruct before.
  - simpl in Heq. destruct before as [|b before]; simpl in Heq.
    + injection Heq as <- <-. simpl in Hc. by destruct (next_outcome k).
    + injection Heq as _ Heq. destruct (next_outcome k); try by destruct before.
      by apply (IH _ _ Heq).
Qed.

Lemma attempts_all_succeed ws k frames :
  Forall (fun c => call_outcome c = Succeeds) (attempts ws k frames) ->
  frames_of (attempts ws k frames) = frames.
Proof.
  revert k. induction frames as [|frame rest IH]; intros k Hall; [done|].
  simpl in *. apply Forall_cons in Hall as [Ho Hall]. simpl in Ho.
  rewrite Ho in *. by rewrite IH.
Qed.

(** ** Connecting *)

(** Running a coroutine one step at a time. *)
Lemma bind_returned {A B} (m : M A) (k : A -> M B) s a s1 :
  m s = (Returned a, s1) -> mbind k m s = k a s1.
Proof. intros Hm. unfold mbind, M_bind, bind. by rewrite Hm. Qed.

Ltac run_step := erewrite bind_returned; [|reflexivity].

(** The same, when the step is itself two steps. *)
Lemma bind_assoc_returned {A B C} (m : M A) (k : A -> M B) (k' : B -> M C) s b s1 :
  (x ← m; k x) s = (Returned b, s1) ->
  (x ← m; y ← k x; k' y) s = k' b s1.
Proof.
  unfold mbind, M_bind, bind. destruct (m s) as [[a|e] s0]; [|done].
  by intros ->.
Qed.

(** A handler that raises again is no handler. *)
Lemma try_except_raise {A} (m : M A) s : try_except m (fun e => raise e) s = m s.
Proof. unfold try_except, raise. by destruct (m s) as [[a|e] s']. Qed.

Lemma total_confirm_and_replay request_id : total (confirm_and_replay request_id).
Proof. unfold confirm_and_replay. step_total. Qed.

(** A transport that refuses the handshake: [connect] logs and raises
    again, having changed nothing in the manager. *)
Lemma connect_rejected request_id websocket user e s :
  raised_by (next_outcome (socket_of (world s) websocket)) = Some e ->
  connect request_id websocket user s =
  (Raised e, on_world (record_call websocket Accept) s).
Proof.
  intros Ho. unfold connect, ws_call. unfold_monad. cbn [fst snd]. by rewrite Ho.
Qed.

(** A transport that accepts: [connect] registers the session, then
    confirms and replays. *)
Lemma connect_accepted request_id websocket user s :
  raised_by (next_outcome (socket_of (world s) websocket)) = None ->
  connect request_id websocket user s =
  confirm_and_replay request_id (registered request_id websocket user s).
Proof.
  intros Ho. unfold connect. rewrite try_except_raise.
  assert (Haccept : ws_call websocket Accept s =
                    (Returned tt, on_world (record_call websocket Accept) s)).
  { unfold ws_call. by rewrite Ho. }
  rewrite (bind_returned _ _ _ _ _ Haccept).
  do 4 run_step. run_step.
  cbn [self on_self on_world set_active set_metadata message_counters].
  unfold registered.
  destruct (dict_contains request_id (message_counters (self s))); cbn [negb];
    run_step; run_step;
    cbn [self on_self on_world set_active set_metadata set_counters last_ack];
    destruct (dict_contains request_id (last_ack (self s))); cbn [negb];
    run_step; reflexivity.
Qed.

(** ** Queues in order *)

Lemma ascending_snoc (l : list Z) (x : Z) :
  ascending l -> Forall (fun y => (y < x)%Z) l -> ascending (l ++ [x]).
Proof.
  induction l as [|y l IH]; intros Hl Hx; simpl; [done|].
  destruct Hl as [Hy Hl]. apply Forall_cons in Hx as [Hyx Hx]. split; [|by apply IH].
  apply Forall_app. split; [done|]. by repeat constructor.
Qed.

Lemma orderly_ignores_active : ignores_active orderly.
Proof. by intros m h f. Qed.

Lemma orderly_ignores_metadata : ignores_metadata orderly.
Proof. by intros m h f. Qed.

Lemma orderly_ignores_last_ack : ignores_last_ack orderly.
Proof. by intros m h f. Qed.

(** Emptying a queue. *)
Lemma orderly_clear request_id m h :
  orderly m h -> orderly (set_queue (dict_set request_id []) m) h.
Proof.
  intros Hm r. cbn [set_queue message_queue message_counters].
  destruct (decide (request_id = r)) as [->|Hne].
  - rewrite dict_get_or_set_eq. by repeat split.
  - rewrite dict_get_or_set_ne; [apply Hm | done].
Qed.

(** Giving a counter, at 0, to a session that has none. *)
Lemma orderly_counter_init request_id m h :
  dict_contains request_id (message_counters m) = false ->
  orderly m h -> orderly (set_counters (dict_set request_id 0%Z) m) h.
Proof.
  intros Habsent Hm r. cbn [set_counters message_queue message_counters].
  destruct (decide (request_id = r)) as [->|Hne].
  - rewrite dict_get_or_set_eq. specialize (Hm r). cbn zeta in Hm.
    unfold dict_contains in Habsent. unfold dict_get_or at 2 in Hm.
    by destruct (dict_get r (message_counters m)).
  - rewrite dict_get_or_set_ne; [apply Hm | done].
Qed.

(** Writing in a dictionary that is in no queue leaves the queued numbers
    as they are. *)
Lemma queued_ids_insert ref msg h (q : list nat) :
  ~ In ref q ->
  map (fun r => get_message_id (message_at (<[ref := msg]> h) r)) q =
  map (fun r => get_message_id (message_at h r)) q.
Proof.
  intros Hq. apply map_ext_in. intros r Hr. unfold message_at.
  rewrite lookup_insert_ne; [done|]. by intros ->.
Qed.

Lemma message_at_insert_eq ref msg (h : gmap nat Message) :
  message_at (<[ref := msg]> h) ref = msg.
Proof. unfold message_at. by rewrite lookup_insert_eq. Qed.

Lemma allocated_insert ref msg (h : gmap nat Message) (q : list nat) :
  Forall (fun r => is_Some (h !! r)) q ->
  Forall (fun r => is_Some (<[ref := msg]> h !! r)) q.
Proof.
  intros Hq. eapply Forall_impl; [exact Hq|].
  intros r Hr. cbn beta in *. destruct (decide (ref = r)) as [->|Hne].
  - rewrite lookup_insert_eq. by eexists.
  - by rewrite lookup_insert_ne.
Qed.

(** Numbering a message that is in no queue. *)
Lemma orderly_numbered request_id ref m h :
  orderly m h -> not_queued m ref ->
  let n := (dict_get_or request_id 0%Z (message_counters m) + 1)%Z in
  orderly (set_counters (dict_set request_id n) m)
    (<[ref := with_message_id n (message_at h ref)]> h).
Proof.
  intros Hm Hfree n r. cbn [set_counters message_queue message_counters].
  destruct (Hm r) as (Hasc & Hmax & Hall). cbn zeta in *.
  rewrite (queued_ids_insert _ _ _ _ (Hfree r)).
  split; [done|]. split; [|by apply allocated_insert].
  destruct (decide (request_id = r)) as [->|Hne].
  - rewrite dict_get_or_set_eq. eapply Forall_impl; [exact Hmax|].
    intros x Hx. unfold n. cbn beta in Hx. lia.
  - by rewrite dict_get_or_set_ne.
Qed.

(** Numbering a message that is in no queue, and queueing it. *)
Lemma orderly_numbered_enqueued request_id ref m h :
  orderly m h -> not_queued m ref ->
  let n := (dict_get_or request_id 0%Z (message_counters m) + 1)%Z in
  orderly
    (set_queue (dict_set request_id (dict_get_or request_id [] (message_queue m) ++ [ref]))
       (set_counters (dict_set request_id n) m))
    (<[ref := with_message_id n (message_at h ref)]> h).
Proof.
  intros Hm Hfree n r.
  pose proof (orderly_numbered request_id ref m h Hm Hfree r) as Hn.
  cbn [set_queue set_counters message_queue message_counters] in *. fold n in Hn.
  destruct (decide (request_id = r)) as [->|Hne].
  - rewrite !dict_get_or_set_eq in *. destruct Hn as (Hasc & _ & Hall).
    destruct (Hm r) as (_ & Hmax & _). cbn zeta in Hmax.
    rewrite <- (queued_ids_insert ref (with_message_id n (message_at h ref)) h _ (Hfree r))
      in Hmax.
    rewrite map_app. cbn [map]. rewrite message_at_insert_eq.
    cbn [get_message_id with_message_id message_id].
    split; [|split].
    + apply ascending_snoc; [done|]. eapply Forall_impl; [exact Hmax|].
      intros x Hx. unfold n. cbn beta in Hx. lia.
    + apply Forall_app. split; [|by repeat constructor].
      eapply Forall_impl; [exact Hmax|]. intros x Hx. unfold n. cbn beta in Hx. lia.
    + apply Forall_app. split; [done|]. repeat constructor.
      rewrite lookup_insert_eq. by eexists.
  - rewrite !dict_get_or_set_ne in *; done.
Qed.

(** [send_message] with a dictionary that is in no queue. *)
Lemma orderly_send_message request_id ref s :
  inv orderly s -> not_queued (self s) ref ->
  inv orderly (after (send_message request_id ref) s).
Proof.
  intros Hs Hfree. unfold after.
  pose proof (orderly_numbered request_id ref _ _ Hs Hfree) as Hn.
  pose proof (orderly_numbered_enqueued request_id ref _ _ Hs Hfree) as He.
  destruct (dict_get request_id (active_connections (self s))) as [ws|] eqn:Hws.
  - destruct (raised_by (next_outcome (socket_of (world s) ws))) as [e|] eqn:Ho.
    + rewrite (send_message_failed _ _ _ _ _ Hws Ho). cbn [snd].
      apply (orderly_ignores_active _ _ (dict_del request_id)) in He. exact He.
    + by rewrite (send_message_delivered _ _ _ _ Hws Ho).
  - by rewrite (send_message_idle _ _ _ Hws).
Qed.

(** A new dictionary is in no queue. *)
Lemma orderly_allocate msg s :
  inv orderly s ->
  inv orderly (on_world (allocate msg) s) /\ not_queued (self s) (new_ref (world s)).
Proof.
  intros Hs.
  assert (Hfree : not_queued (self s) (new_ref (world s))).
  { intros r Hin. destruct (Hs r) as (_ & _ & Hall). cbn zeta in Hall.
    rewrite Forall_forall in Hall. apply list_elem_of_In, Hall in Hin.
    apply (is_fresh (dom (heap (world s)))). by apply elem_of_dom. }
  split; [|done]. intros r. destruct (Hs r) as (Hasc & Hmax & Hall).
  unfold inv in *. cbn [self world on_world allocate heap] in *. cbn zeta in *.
  rewrite (queued_ids_insert _ _ _ _ (Hfree r)).
  split; [done|]. split; [done|]. by apply allocated_insert.
Qed.

Lemma orderly_alloc_send request_id msg s :
  inv orderly s ->
  exists delivered s',
    (message ← alloc msg; send_message request_id message) s = (Returned delivered, s') /\
    inv orderly s'.
Proof.
  intros Hs. run_step.
  destruct (orderly_allocate msg s Hs) as [Ha Hfree].
  pose proof (orderly_send_message request_id _ _ Ha Hfree) as Hsent.
  destruct (total_returns _ (on_world (allocate msg) s)
              (total_send_message request_id (new_ref (world s)))) as [d Hrun].
  exists d, (after (send_message request_id (new_ref (world s))) (on_world (allocate msg) s)).
  by split.
Qed.

Lemma orderly_confirm_and_replay request_id s :
  inv orderly s -> inv orderly (after (confirm_and_replay request_id) s).
Proof.
  intros Hs. unfold after, confirm_and_replay. run_step.
  destruct (orderly_alloc_send request_id
              (connection_established request_id (utc (world s))) (on_world tick s) Hs)
    as (d & s' & Hrun & Hs').
  rewrite (bind_assoc_returned _ _ _ _ _ _ Hrun).
  by apply (keeps__replay_queued_messages_clearing orderly request_id (orderly_clear request_id)).
Qed.

Lemma orderly_confirm request_id s :
  inv orderly s -> inv orderly (after (confirm request_id) s).
Proof.
  intros Hs. unfold after, confirm. run_step.
  destruct (orderly_alloc_send request_id
              (connection_established request_id (utc (world s))) (on_world tick s) Hs)
    as (d & s' & Hrun & Hs').
  by rewrite Hrun.
Qed.

(** [connect] replays in the state that its confirmation leaves. *)
Lemma confirm_and_replay_split request_id s :
  confirm_and_replay request_id s =
  _replay_queued_messages request_id (after (confirm request_id) s).
Proof.
  unfold after, confirm, confirm_and_replay. do 2 run_step.
  symmetry. do 2 run_step. symmetry.
  destruct (total_returns _ (on_world (allocate
              (connection_established request_id (utc (world s)))) (on_world tick s))
              (total_send_message request_id (new_ref (world (on_world tick s)))))
    as [d Hrun].
  rewrite (bind_returned _ _ _ _ _ Hrun). unfold after in Hrun. by rewrite Hrun.
Qed.

Lemma orderly_registered request_id websocket user s :
  inv orderly s -> inv orderly (registered request_id websocket user s).
Proof.
  intros Hs. unfold registered.
  destruct (dict_contains request_id (message_counters (self s))) eqn:Hc;
    destruct (dict_contains request_id (last_ack (self s))) eqn:Ha;
    first [ exact Hs | by apply (orderly_counter_init request_id (self s)) ].
Qed.

(** Every operation keeps the queues in order, so long as no dictionary
    is passed to [send_message] while it waits in a queue. *)
Lemma orderly_exec o s :
  inv orderly s ->
  match o with
  | SendMessage _ message => not_queued (self s) message
  | _ => True
  end ->
  inv orderly (after (exec o) s).
Proof.
  intros Hs Ho.
  destruct o as [r ws u|r|r msg|r ev data|r|r acked|]; cbn [exec].
  - unfold after.
    destruct (raised_by (next_outcome (socket_of (world s) ws))) as [e|] eqn:Haccept.
    + by rewrite (connect_rejected _ _ _ _ _ Haccept).
    + rewrite (connect_accepted _ _ _ _ Haccept).
      by apply orderly_confirm_and_replay, orderly_registered.
  - by apply (keeps_disconnect orderly r orderly_ignores_active).
  - pose proof (orderly_send_message r msg s Hs Ho) as Hsent. unfold after in *.
    destruct (total_returns _ s (total_send_message r msg)) as [d Hrun].
    unfold after in Hrun. rewrite Hrun in Hsent.
    by erewrite bind_returned; [|exact Hrun].
  - assert (Hsent : exists d s',
      broadcast_progress r ev data s = (Returned d, s') /\ inv orderly s').
    { unfold broadcast_progress. run_step. by apply orderly_alloc_send. }
    destruct Hsent as (d & s' & Hrun & Hs').
    unfold after. by erewrite bind_returned; [|exact Hrun].
  - by apply (keeps__replay_queued_messages_clearing orderly r (orderly_clear r)).
  - by apply (keeps_acknowledge_message orderly r acked orderly_ignores_last_ack).
  - by apply (keeps_heartbeat_cycle orderly orderly_ignores_active orderly_ignores_metadata).
Qed.

Lemma orderly_run ops : forall s,
  inv orderly s -> careful ops s -> inv orderly (run ops s).
Proof.
  induction ops as [|o ops IH]; intros s Hs Hops; [done|].
  destruct Hops as [Ho Hops]. cbn [run fold_left]. apply IH; [|done].
  by apply orderly_exec.
Qed.

(** A manager just constructed has its queues in order. *)
Lemma orderly_init w : inv orderly {| self := init; world := w |}.
Proof. intros r. by repeat split. Qed.

(** Replay returns, and the transport calls it makes. *)
Lemma _replay_queued_messages_calls request_id queued s :
  dict_get request_id (message_queue (self s)) = Some queued ->
  let pending := unacknowledged (world s) (high_water_mark s request_id) queued in
  let s' := after (_replay_queued_messages request_id) s in
  _replay_queued_messages request_id s = (Returned tt, s') /\
  calls (world s') =
    calls (world s) ++
    match dict_get request_id (active_connections (self s)) with
    | Some ws => attempts ws (socket_of (world s) ws) (map (deref (world s)) pending)
    | None => []
    end.
Proof.
  intros Hq pending s'.
  destruct (total_returns _ s (total__replay_queued_messages request_id)) as [[] Hrun].
  split; [done|]. unfold s', after.
  destruct (decide (pending = [])) as [Hp|Hp].
  - rewrite (_replay_queued_messages_nothing _ _ _ Hq Hp). fold pending. rewrite Hp.
    cbn [snd map attempts].
    destruct (dict_get request_id (active_connections (self s))); by rewrite app_nil_r.
  - rewrite (_replay_queued_messages_pending _ _ _ Hq Hp). fold pending.
    cbn [snd world on_self]. unfold after.
    destruct (dict_get request_id (active_connections (self s))) as [ws|] eqn:Hws.
    + destruct (replay_loop_live _ _ pending s Hws) as (s1 & Hloop & _ & _ & Hlog).
      by rewrite Hloop.
    + rewrite (replay_loop_idle _ _ _ Hws). by rewrite app_nil_r.
Qed.

(** C2, as amended.  For a session with a queue, replay returns, and keeps
    for transmission exactly the queued messages whose sequence number is
    now strictly greater than the session's high-water mark, in the order
    of the queue.  With a transport registered for the session, it sends
    them on it in that order, one call each, and stops after the first
    call that fails (all of them are sent when no call fails); with none,
    it calls no transport.  The order of the
    queue is ascending sequence order whenever the numbers of the queued
    messages are ascending, and they are in every state that a manager
    reaches by operations that never pass to [send_message] a dictionary
    waiting in a queue, and in the state in which a [connect] that
    follows them calls the replay.  After acknowledging 3 with a queue
    numbered 1, 2, 3, 4, 5, the messages kept are those numbered 4 and
    5. *)
Theorem replay_transmits_unacknowledged (request_id : string) (s : State) (queued : list nat) :
  dict_get request_id (message_queue (self s)) = Some queued ->
  let mark := high_water_mark s request_id in
  let pending := unacknowledged (world s) mark queued in
  let s' := after (_replay_queued_messages request_id) s in
  _replay_queued_messages request_id s = (Returned tt, s') /\
  (forall r, In r pending <->
             In r queued /\ (mark < get_message_id (deref (world s) r))%Z) /\
  sublist pending queued /\
  (forall ws,
     dict_get request_id (active_connections (self s)) = Some ws ->
     calls_since s s' = attempts ws (socket_of (world s) ws) (map (deref (world s)) pending)) /\
  (dict_get request_id (active_connections (self s)) = None -> calls_since s s' = []) /\
  frames_of (calls_since s s') `prefix_of` map (deref (world s)) pending /\
  (forall before c rest,
     calls_since s s' = before ++ c :: rest -> call_outcome c ≠ Succeeds -> rest = []) /\
  (forall ws,
     dict_get request_id (active_connections (self s)) = Some ws ->
     Forall (fun c => call_outcome c = Succeeds) (calls_since s s') ->
     frames_of (calls_since s s') = map (deref (world s)) pending) /\
  (ascending (queued_ids s request_id) ->
   ascending (map get_message_id (map (deref (world s)) pending))) /\
  (forall ops w websocket user,
     careful ops {| self := init; world := w |} ->
     let reached := run ops {| self := init; world := w |} in
     s = reached \/
     s = after (confirm request_id) (registered request_id websocket user reached) ->
     ascending (queued_ids s request_id)) /\
  (queued_ids s request_id = [1; 2; 3; 4; 5]%Z -> mark = 3%Z ->
   map get_message_id (map (deref (world s)) pending) = [4; 5]%Z).
Proof.
  intros Hq mark pending s'.
  destruct (_replay_queued_messages_calls _ _ _ Hq) as [Hrun Hcalls].
  fold mark pending s' in Hrun, Hcalls.
  assert (Hids : map get_message_id (map (deref (world s)) pending) =
                 List.filter (fun n => (mark <? n)%Z) (queued_ids s request_id)).
  { unfold queued_ids, queue_of, dict_get_or. rewrite Hq. rewrite map_map.
    rewrite <- (map_filter_comm (fun r => get_message_id (deref (world s) r))). done. }
  split; [done|]. split.
  { intros r. unfold pending, unacknowledged. rewrite filter_In.
    by rewrite Z.ltb_lt. }
  split; [apply filter_sublist|]. split.
  { intros ws Hws. apply calls_since_app. by rewrite Hcalls, Hws. }
  split.
  { intros Hws. apply calls_since_app. by rewrite Hcalls, Hws. }
  split.
  { rewrite (calls_since_app _ _ _ Hcalls).
    destruct (dict_get request_id (active_connections (self s)));
      [apply attempts_frames | apply prefix_nil]. }
  split.
  { intros before c rest. rewrite (calls_since_app _ _ _ Hcalls).
    destruct (dict_get request_id (active_connections (self s)));
      [apply attempts_stop | by destruct before]. }
  split.
  { intros ws Hws. rewrite (calls_since_app _ _ _ Hcalls), Hws. apply attempts_all_succeed. }
  split.
  { intros Hasc. rewrite Hids. by apply ascending_filter. }
  split.
  { intros ops w websocket user Hops reached Hs.
    pose proof (orderly_run ops _ (orderly_init w) Hops) as Hreached. fold reached in Hreached.
    assert (Horderly : inv orderly s).
    { destruct Hs as [->| ->]; [done|]. by apply orderly_confirm, orderly_registered. }
    by destruct (Horderly request_id) as [Hasc _]. }
  intros Hfive Hmark. rewrite Hids, Hfive, Hmark. done.
Qed.

(** The hypothesis of C2 holds in a reachable state, where the theorem
    gives the calls of a replay. *)
Lemma replay_transmits_unacknowledged_witness :
  dict_get "r1" (message_queue (self resent)) = Some [0; 1; 0]%nat /\
  calls_since resent (after (_replay_queued_messages "r1") resent) = [].
Proof.
  assert (Hq : dict_get "r1" (message_queue (self resent)) = Some [0; 1; 0]%nat)
    by by_computation.
  split; [exact Hq|].
  destruct (replay_transmits_unacknowledged "r1" resent [0; 1; 0]%nat Hq)
    as (_ & _ & _ & _ & Hidle & _).
  apply Hidle. by_computation.
Defined.

(** C2, as stated, fails.  A producer sends dictionary 0, dictionary 1 and
    dictionary 0 again to a disconnected session: the queue holds the
    references 0, 1, 0 and the dictionaries now carry the numbers 3 and 2.
    The session then connects on transport 7.  When [connect] comes to
    the replay, the transport is registered, the high-water mark is 0 and
    the replay transmits the numbers 3, 2, 3 in that order: not
    ascending.  (The transport has received [connection_established],
    numbered 4, before.) *)
Lemma replay_order_counterexample :
  queue_of resent "r1" = [0; 1; 0]%nat /\
  queued_ids resent "r1" = [3; 2; 3]%Z /\
  after (connect "r1" 7 "u1") resent = after (_replay_queued_messages "r1") reconnecting /\
  dict_get "r1" (active_connections (self reconnecting)) = Some 7%nat /\
  queued_ids reconnecting "r1" = [3; 2; 3]%Z /\
  high_water_mark reconnecting "r1" = 0%Z /\
  map get_message_id
    (frames_of (calls_since reconnecting (after (_replay_queued_messages "r1") reconnecting)))
  = [3; 2; 3]%Z /\
  map get_message_id
    (frames_of (calls_since resent (after (connect "r1" 7 "u1") resent)))
  = [4; 3; 2; 3]%Z /\
  ~ ascending [3; 2; 3]%Z.
Proof.
  do 8 (split; [by_computation|]).
  intros [H32 _]. apply Forall_cons in H32 as [H32 _]. lia.
Qed.

(** C3, as amended.  For a session with a queue, when at least one queued
    message has a sequence number above the high-water mark, the queue is
    empty after replay: whatever the transport did (so also when a
    transmission failed partway) and also when no transport is registered.
    When the high-water mark filters every queued message out, replay
    changes nothing: the queue stays as it was. *)
Theorem replay_clears_queue (request_id : string) (s : State) (queued : list nat) :
  dict_get request_id (message_queue (self s)) = Some queued ->
  let pending := unacknowledged (world s) (high_water_mark s request_id) queued in
  let s' := after (_replay_queued_messages request_id) s in
  (pending ≠ [] -> dict_get request_id (message_queue (self s')) = Some []) /\
  (pending = [] -> s' = s).
Proof.
  intros Hq pending s'. split; intros Hp; unfold s', after.
  - rewrite (_replay_queued_messages_pending _ _ _ Hq Hp).
    cbn [snd self on_self set_queue message_queue]. apply dict_get_set_eq.
  - by rewrite (_replay_queued_messages_nothing _ _ _ Hq Hp).
Qed.

(** The hypothesis of C3 holds in a reachable state, whose queue the
    replay empties though no transport is registered. *)
Lemma replay_clears_queue_witness :
  dict_get "r1" (message_queue (self resent)) = Some [0; 1; 0]%nat /\
  dict_get "r1" (message_queue (self (after (_replay_queued_messages "r1") resent))) = Some [].
Proof.
  assert (Hq : dict_get "r1" (message_queue (self resent)) = Some [0; 1; 0]%nat)
    by by_computation.
  split; [exact Hq|].
  destruct (replay_clears_queue "r1" resent [0; 1; 0]%nat Hq) as [Hclear _].
  apply Hclear. vm_compute. discriminate.
Defined.

(** C3, as stated, fails.  A message is queued with number 1 and then
    acknowledged: the replay filters it out and leaves it in the queue,
    on an explicit replay as on the replay of a new connection. *)
Lemma replay_keeps_acknowledged_counterexample :
  queue_of acknowledged "r1" = [0%nat] /\
  queued_ids acknowledged "r1" = [1%Z] /\
  high_water_mark acknowledged "r1" = 1%Z /\
  queue_of (after (_replay_queued_messages "r1") acknowledged) "r1" = [0%nat] /\
  queue_of (after (connect "r1" 7 "u1") acknowledged) "r1" = [0%nat].
Proof. repeat split; by_computation. Qed.

(** ** What [connect] and [disconnect] raise *)

(** C4, as amended.  [disconnect] returns whatever the transport does on
    [close].  [connect] returns whatever the transport does on the
    [send_json] and [close] calls it leads to, but a transport whose
    [accept] fails makes [connect] raise that failure to its caller (after
    logging it), with the manager unchanged. *)
Theorem connect_raises_only_on_accept (request_id : string) (s : State) :
  (exists s', disconnect request_id s = (Returned tt, s')) /\
  (forall websocket user,
     match raised_by (next_outcome (socket_of (world s) websocket)) with
     | None => exists s', connect request_id websocket user s = (Returned tt, s')
     | Some e =>
         connect request_id websocket user s =
         (Raised e, on_world (record_call websocket Accept) s)
     end).
Proof.
  split.
  - destruct (total_returns _ s (total_disconnect request_id)) as [[] Hrun]. eauto.
  - intros websocket user.
    destruct (raised_by (next_outcome (socket_of (world s) websocket))) as [e|] eqn:Ho.
    + by apply connect_rejected.
    + rewrite (connect_accepted _ _ _ _ Ho).
      destruct (total_returns _ (registered request_id websocket user s)
                  (total_confirm_and_replay request_id)) as [[] Hrun].
      eauto.
Qed.

(** C4, as stated, fails: a transport whose [accept] fails makes
    [connect] raise, with nothing registered. *)
Lemma connect_raises_counterexample :
  next_outcome (socket_of (world refusing) 7) = Fails /\
  fst (connect "r1" 7 "u1" refusing) = Raised OtherException /\
  self (after (connect "r1" 7 "u1") refusing) = init.
Proof. repeat split; by_computation. Qed.

(** ** Connecting again *)

(** What [connect] calls, it calls on the new transport. *)
Section Serves.
Variables (request_id : string) (ws : nat) (s0 : State).
Abbreviation serving := (serves request_id ws s0).

Lemma serves_record_call m s : serving s -> serving (on_world (record_call ws m) s).
Proof.
  intros [Hws (cs & Hcs & Hall)]. split; [done|].
  eexists (cs ++ [_]). cbn [world on_world record_call calls]. rewrite Hcs.
  split; [by rewrite <- app_assoc|]. apply Forall_app. split; [done|]. by repeat constructor.
Qed.

Lemma serves_quiet s s' :
  active_connections (self s') = active_connections (self s) ->
  calls (world s') = calls (world s) ->
  serving s -> serving s'.
Proof.
  intros Ha Hc [Hws (cs & Hcs & Hall)]. split; [by rewrite Ha|].
  exists cs. by rewrite Hc.
Qed.

Lemma serves_attempts k frames s s' :
  active_connections (self s') = active_connections (self s) ->
  calls (world s') = calls (world s) ++ attempts ws k frames ->
  serving s -> serving s'.
Proof.
  intros Ha Hc [Hws (cs & Hcs & Hall)]. split; [by rewrite Ha|].
  exists (cs ++ attempts ws k frames). rewrite Hc, Hcs. split; [by rewrite <- app_assoc|].
  apply Forall_app. split; [done|]. clear.
  revert k. induction frames as [|frame rest IH]; intros k; simpl; [done|].
  constructor; [done|]. destruct (next_outcome k); [apply IH | done | done].
Qed.

Lemma serves_closed s :
  serving s -> dict_get request_id (active_connections (self s)) = Some ws ->
  serving (closed request_id ws s).
Proof.
  intros Hs Hws. apply (serves_record_call Close) in Hs as [_ Hcalls].
  split; [|done]. right. unfold closed. cbn [self on_self set_active active_connections].
  apply dict_get_del_eq.
Qed.

Lemma keeps_serves_disconnect : keeps serving (disconnect request_id).
Proof.
  intros s Hs. unfold after. destruct (proj1 Hs) as [Hws|Hws].
  - rewrite (disconnect_live _ _ _ Hws). by apply serves_closed.
  - by rewrite (disconnect_idle _ _ Hws).
Qed.

Lemma keeps_serves_send_message message : keeps serving (send_message request_id message).
Proof.
  intros s Hs. unfold after.
  assert (Hn : serving (numbered request_id message s)).
  { apply (serves_quiet s); [reflexivity | reflexivity | exact Hs]. }
  destruct (proj1 Hs) as [Hws|Hws].
  - destruct (raised_by (next_outcome (socket_of (world s) ws))) as [e|] eqn:Ho.
    + rewrite (send_message_failed _ _ _ _ _ Hws Ho). cbn [snd].
      eapply serves_quiet; [| |apply serves_closed]; [reflexivity|reflexivity| |exact Hws].
      by apply serves_record_call.
    + rewrite (send_message_delivered _ _ _ _ Hws Ho). cbn [snd].
      by apply serves_record_call.
  - rewrite (send_message_idle _ _ _ Hws). cbn [snd].
    by apply (serves_quiet (numbered request_id message s)).
Qed.

Lemma keeps_serves__replay_queued_messages :
  keeps serving (_replay_queued_messages request_id).
Proof.
  intros s Hs. unfold after.
  destruct (dict_get request_id (message_queue (self s))) as [queued|] eqn:Hq;
    [|by rewrite (_replay_queued_messages_absent _ _ Hq)].
  destruct (decide (unacknowledged (world s) (high_water_mark s request_id) queued = []))
    as [Hp|Hp]; [by rewrite (_replay_queued_messages_nothing _ _ _ Hq Hp)|].
  rewrite (_replay_queued_messages_pending _ _ _ Hq Hp). cbn [snd]. unfold after.
  destruct (proj1 Hs) as [Hws|Hws].
  - destruct (replay_loop_live _ _ (unacknowledged (world s) (high_water_mark s request_id) queued)
                s Hws) as (s1 & Hrun & Hself & _ & Hlog).
    rewrite Hrun. cbn [snd].
    eapply (serves_attempts _ _ s); [|exact Hlog|exact Hs].
    cbn [self on_self set_queue active_connections]. by rewrite Hself.
  - rewrite (replay_loop_idle _ _ _ Hws). cbn [snd].
    apply (serves_quiet s); [reflexivity|reflexivity|exact Hs].
Qed.

Lemma keeps_serves_confirm_and_replay : keeps serving (confirm_and_replay request_id).
Proof.
  unfold confirm_and_replay. step_keeps.
  - apply keeps_serves_send_message.
  - apply keeps_serves__replay_queued_messages.
Qed.

End Serves.

(** The state once registered. *)
Lemma registered_world request_id websocket user s :
  world (registered request_id websocket user s) =
  tick (tick (record_call websocket Accept (world s))).
Proof.
  unfold registered.
  destruct (dict_contains request_id (message_counters (self s)));
    by destruct (dict_contains request_id (last_ack (self s))).
Qed.

Lemma registered_active request_id websocket user s :
  active_connections (self (registered request_id websocket user s)) =
  dict_set request_id websocket (active_connections (self s)).
Proof.
  unfold registered.
  destruct (dict_contains request_id (message_counters (self s)));
    by destruct (dict_contains request_id (last_ack (self s))).
Qed.

Lemma registered_metadata request_id websocket user s :
  connection_metadata (self (registered request_id websocket user s)) =
  dict_set request_id
    {| user_id := user; connected_at := utc (world s);
       last_heartbeat := utc (tick (world s)); reconnection_count := 0 |}
    (connection_metadata (self s)).
Proof.
  unfold registered.
  destruct (dict_contains request_id (message_counters (self s)));
    by destruct (dict_contains request_id (last_ack (self s))).
Qed.

Lemma registered_serves request_id websocket user s :
  serves request_id websocket s (registered request_id websocket user s).
Proof.
  split.
  - left. rewrite registered_active. apply dict_get_set_eq.
  - eexists [_]. rewrite registered_world. split; [reflexivity|]. by repeat constructor.
Qed.

(** When the confirmation is delivered, the new transport stays registered. *)
Lemma confirm_and_replay_delivered request_id ws s :
  dict_get request_id (active_connections (self s)) = Some ws ->
  raised_by (next_outcome (socket_of (world s) ws)) = None ->
  dict_get request_id (active_connections (self (after (confirm_and_replay request_id) s)))
  = Some ws.
Proof.
  intros Hws Ho. unfold after, confirm_and_replay. do 2 run_step.
  erewrite bind_returned; [|by apply send_message_delivered].
  apply (keeps__replay_queued_messages
           (fun m _ => dict_get request_id (active_connections m) = Some ws)).
  - by intros m h f.
  - done.
Qed.

(** C7, as amended.  When the transport accepts, [connect] returns, and
    every transport call it makes is on the new transport: a transport
    registered before for the session is not closed, it is replaced in
    the registry, which holds at most the new transport for the session
    afterwards (the new one when the confirmation is delivered, none when
    its transmission fails).  The session's metadata is replaced by a
    fresh record: [connected_at] and [last_heartbeat] are the clock's
    readings, and [reconnection_count] is 0, whether or not metadata
    existed before. *)
Theorem connect_replaces_transport (request_id : string) (websocket : nat)
  (user : string) (s : State) :
  raised_by (next_outcome (socket_of (world s) websocket)) = None ->
  let s' := after (connect request_id websocket user) s in
  connect request_id websocket user s = (Returned tt, s') /\
  Forall (fun c => call_ws c = websocket) (calls_since s s') /\
  (dict_get request_id (active_connections (self s')) = Some websocket \/
   dict_get request_id (active_connections (self s')) = None) /\
  (raised_by (next_outcome (after_call (socket_of (world s) websocket))) = None ->
   dict_get request_id (active_connections (self s')) = Some websocket) /\
  dict_get request_id (connection_metadata (self s')) =
    Some {| user_id := user; connected_at := utc (world s);
            last_heartbeat := utc (tick (world s)); reconnection_count := 0 |}.
Proof.
  intros Ho s'.
  pose (sr := registered request_id websocket user s).
  assert (Hs' : s' = after (confirm_and_replay request_id) sr).
  { unfold s', after. by rewrite (connect_accepted _ _ _ _ Ho). }
  pose proof (keeps_serves_confirm_and_replay request_id websocket s sr
                (registered_serves _ _ _ _)) as [Hactive (cs & Hcs & Hall)].
  rewrite <- Hs' in Hactive, Hcs.
  split; [|split; [|split; [|split]]].
  - rewrite (connect_accepted _ _ _ _ Ho).
    destruct (total_returns _ sr (total_confirm_and_replay request_id)) as [[] Hrun].
    by rewrite Hs'.
  - by rewrite (calls_since_app _ _ _ Hcs).
  - done.
  - intros Hsend. rewrite Hs'. apply confirm_and_replay_delivered.
    + unfold sr. rewrite registered_active. apply dict_get_set_eq.
    + unfold sr. rewrite registered_world. rewrite !socket_of_tick.
      by rewrite socket_of_record_call_eq.
  - rewrite Hs'.
    assert (Hmd : keeps (inv (fun m _ =>
              dict_get request_id (connection_metadata m) =
              Some {| user_id := user; connected_at := utc (world s);
                      last_heartbeat := utc (tick (world s)); reconnection_count := 0 |}))
              (confirm_and_replay request_id)).
    { apply keeps_confirm_and_replay; by intros m h f. }
    apply (Hmd sr). unfold inv, sr. rewrite registered_metadata. apply dict_get_set_eq.
Qed.

(** The hypothesis of C7 holds for a second connection of a session, on a
    transport that accepts; the theorem gives the new registration. *)
Lemma connect_replaces_transport_witness :
  raised_by (next_outcome (socket_of (world (after (connect "r1" 7 "u1") producer)) 8)) = None /\
  dict_get "r1" (active_connections
     (self (after (connect "r1" 8 "u1") (after (connect "r1" 7 "u1") producer)))) = Some 8%nat.
Proof.
  assert (Haccepts : raised_by (next_outcome
            (socket_of (world (after (connect "r1" 7 "u1") producer)) 8)) = None)
    by by_computation.
  split; [exact Haccepts|].
  destruct (connect_replaces_transport "r1" 8 "u1"
              (after (connect "r1" 7 "u1") producer) Haccepts)
    as (_ & _ & _ & Hnew & _).
  apply Hnew. by_computation.
Defined.

(** C7, as stated, fails.  A session connected on transport 7 connects
    again on transport 8: transport 7 is never closed, and the stored
    reconnection count is 0 after the second connection as after the
    first. *)
Lemma reconnect_counterexample :
  dict_get "r1" (connection_metadata (self (after (connect "r1" 7 "u1") producer)))
  = Some {| user_id := "u1"; connected_at := 1000; last_heartbeat := 1001;
            reconnection_count := 0 |} /\
  map (fun c => (call_ws c, method_name (call_method c))) (calls (world reconnected))
  = [(7%nat, "accept"); (7%nat, "send_json"); (8%nat, "accept"); (8%nat, "send_json")] /\
  dict_get "r1" (active_connections (self reconnected)) = Some 8%nat /\
  dict_get "r1" (connection_metadata (self reconnected))
  = Some {| user_id := "u1"; connected_at := 1003; last_heartbeat := 1004;
            reconnection_count := 0 |}.
Proof. repeat split; by_computation. Qed.

(** ** Cleanup *)

Lemma forget_deletes request_id s :
  exists s',
    forget request_id s = (Returned tt, s') /\
    world s' = world s /\
    active_connections (self s') = active_connections (self s) /\
    connection_metadata (self s') = dict_del request_id (connection_metadata (self s)) /\
    message_queue (self s') = dict_del request_id (message_queue (self s)) /\
    last_ack (self s') = dict_del request_id (last_ack (self s)) /\
    message_counters (self s') = dict_del request_id (message_counters (self s)).
Proof.
  unfold forget. do 2 run_step.
  cbn [self on_self set_metadata message_queue].
  assert (Hdel : forall V (d : dict string V),
    (if dict_contains request_id d then dict_del request_id d else d) = dict_del request_id d).
  { intros V d. unfold dict_contains.
    destruct (dict_get request_id d) eqn:Hd; [done|]. by rewrite dict_del_absent. }
  destruct (dict_contains request_id (message_queue (self s))) eqn:Hq;
    do 2 run_step; cbn [self on_self set_metadata set_queue last_ack];
    destruct (dict_contains request_id (last_ack (self s))) eqn:Ha;
    do 2 run_step; cbn [self on_self set_metadata set_queue set_last_ack message_counters];
    destruct (dict_contains request_id (message_counters (self s))) eqn:Hc;
    eexists; (split; [reflexivity|]);
    cbn [self world on_self set_metadata set_queue set_last_ack set_counters
         active_connections connection_metadata message_queue last_ack message_counters];
    rewrite <- (Hdel _ (message_queue (self s))), <- (Hdel _ (last_ack (self s))),
      <- (Hdel _ (message_counters (self s))), ?Hq, ?Ha, ?Hc; done.
Qed.

Lemma for_each_forget to_remove : forall s,
  exists s',
    for_each to_remove forget s = (Returned tt, s') /\
    world s' = world s /\
    active_connections (self s') = active_connections (self s) /\
    connection_metadata (self s') = without to_remove (connection_metadata (self s)) /\
    message_queue (self s') = without to_remove (message_queue (self s)) /\
    last_ack (self s') = without to_remove (last_ack (self s)) /\
    message_counters (self s') = without to_remove (message_counters (self s)).
Proof.
  induction to_remove as [|r l IH]; intros s.
  - by exists s.
  - destruct (forget_deletes r s) as (s1 & Hrun & Hw & Ha & Hm & Hq & Hl & Hc).
    destruct (IH s1) as (s' & Hrun' & Hw' & Ha' & Hm' & Hq' & Hl' & Hc').
    exists s'. cbn [for_each]. rewrite (bind_returned _ _ _ _ _ Hrun).
    split; [done|]. unfold without in *. simpl.
    rewrite Hw', Ha', Hm', Hq', Hl', Hc', Hw, Ha, Hm, Hq, Hl, Hc. done.
Qed.

(** [cleanup_old_data] reads the clock once.  When [max_age_hours] is
    beyond what a [timedelta] holds it raises there, and nothing else has
    happened; otherwise it deletes the four entries of every session it
    selects. *)
Lemma cleanup_old_data_overflow max_age_hours s :
  representable_hours max_age_hours = false ->
  cleanup_old_data max_age_hours s = (Raised OtherException, on_world tick s).
Proof.
  intros Hrange. unfold cleanup_old_data. run_step. unfold timedelta_hours.
  rewrite Hrange. reflexivity.
Qed.

Lemma cleanup_old_data_deletes max_age_hours s :
  representable_hours max_age_hours = true ->
  let to_remove := request_ids_to_remove (self s) (utc (world s)) (hours max_age_hours) in
  exists s',
    cleanup_old_data max_age_hours s = (Returned tt, s') /\
    world s' = tick (world s) /\
    active_connections (self s') = active_connections (self s) /\
    connection_metadata (self s') = without to_remove (connection_metadata (self s)) /\
    message_queue (self s') = without to_remove (message_queue (self s)) /\
    last_ack (self s') = without to_remove (last_ack (self s)) /\
    message_counters (self s') = without to_remove (message_counters (self s)).
Proof.
  intros Hrange to_remove. unfold cleanup_old_data. run_step.
  unfold timedelta_hours. rewrite Hrange. do 2 run_step.
  cbn [self on_world]. fold to_remove.
  destruct (for_each_forget to_remove (on_world tick s)) as (s' & Hrun & Hrest).
  exists s'. split; [done|]. exact Hrest.
Qed.

(** A disconnected session older than the retention window is selected. *)
Lemma request_ids_to_remove_old request_id md m current_time max_age :
  dict_get request_id (connection_metadata m) = Some md ->
  dict_get request_id (active_connections m) = None ->
  (max_age < current_time - connected_at md)%Z ->
  In request_id (request_ids_to_remove m current_time max_age).
Proof.
  intros Hmd Hws Hage. unfold request_ids_to_remove.
  apply (dict_get_filter_keys _ _ md); [done|]. cbn [fst snd].
  unfold dict_contains. rewrite Hws. by apply Z.ltb_lt in Hage as ->.
Qed.

(** A session that [cleanup_old_data] selects is forgotten. *)
Lemma cleanup_old_data_forgets request_id md max_age_hours s :
  representable_hours max_age_hours = true ->
  dict_get request_id (connection_metadata (self s)) = Some md ->
  dict_get request_id (active_connections (self s)) = None ->
  (hours max_age_hours < utc (world s) - connected_at md)%Z ->
  forgotten request_id (self (after (cleanup_old_data max_age_hours) s)).
Proof.
  intros Hrange Hmd Hws Hage.
  pose proof (request_ids_to_remove_old _ _ _ _ _ Hmd Hws Hage) as Hin.
  destruct (cleanup_old_data_deletes max_age_hours s Hrange)
    as (s' & Hrun & _ & _ & Hm & Hq & Hl & Hc).
  unfold after. rewrite Hrun. cbn [snd]. unfold forgotten.
  rewrite Hm, Hq, Hl, Hc. unfold without. by rewrite !dict_get_del_all_In.
Qed.

(** What [disconnect] leaves: the session unregistered, and everything
    [cleanup_old_data] looks at as it was. *)
Lemma disconnect_after request_id s :
  let s1 := after (disconnect request_id) s in
  dict_get request_id (active_connections (self s1)) = None /\
  connection_metadata (self s1) = connection_metadata (self s) /\
  utc (world s1) = utc (world s).
Proof.
  unfold after.
  destruct (dict_get request_id (active_connections (self s))) as [ws|] eqn:Hws.
  - rewrite (disconnect_live _ _ _ Hws). cbn [snd]. unfold closed.
    cbn [self world on_self on_world set_active active_connections]. split; [|done].
    apply dict_get_del_eq.
  - by rewrite (disconnect_idle _ _ Hws).
Qed.

(** C8, as amended.  For a session with metadata, when the clock reads
    later than the session's [connected_at], [disconnect] followed by
    [cleanup_old_data(0)] leaves the session with no transport, no
    metadata, no queue, no high-water mark and no counter.  An
    acknowledgment for the session then returns without raising and leaves
    the registry, the metadata, the queues, the counters and the world as
    they are, but it is not a no-op: it records the high-water mark
    max(0, acknowledged id) for the session. *)
Theorem cleanup_then_acknowledge (request_id : string) (md : Metadata) (acked : Z) (s : State) :
  dict_get request_id (connection_metadata (self s)) = Some md ->
  (connected_at md < utc (world s))%Z ->
  let s1 := after (cleanup_old_data 0) (after (disconnect request_id) s) in
  let s2 := after (acknowledge_message request_id acked) s1 in
  dict_get request_id (active_connections (self s1)) = None /\
  forgotten request_id (self s1) /\
  acknowledge_message request_id acked s1 = (Returned tt, s2) /\
  s2 = on_self (set_last_ack (dict_set request_id (Z.max 0 acked))) s1 /\
  dict_get request_id (last_ack (self s2)) = Some (Z.max 0 acked) /\
  s2 ≠ s1.
Proof.
  intros Hmd Hclock s1 s2.
  destruct (disconnect_after request_id s) as (Hws & Hsame & Hutc).
  assert (Hforgotten : forgotten request_id (self s1)).
  { apply (cleanup_old_data_forgets _ md).
    - reflexivity.
    - by rewrite Hsame.
    - done.
    - rewrite Hutc. unfold hours. lia. }
  assert (Hmark : high_water_mark s1 request_id = 0%Z).
  { destruct Hforgotten as (_ & _ & Hack & _).
    unfold high_water_mark, dict_get_or. by rewrite Hack. }
  assert (Hs2 : s2 = on_self (set_last_ack (dict_set request_id (Z.max 0 acked))) s1).
  { unfold s2. rewrite acknowledge_message_after. by rewrite Hmark. }
  split.
  { unfold s1.
    destruct (cleanup_old_data_deletes 0 (after (disconnect request_id) s) eq_refl)
      as (s' & Hrun & _ & Ha & _).
    unfold after at 1. rewrite Hrun. cbn [snd]. by rewrite Ha. }
  split; [done|]. split; [done|]. split; [done|].
  assert (Hnew : dict_get request_id (last_ack (self s2)) = Some (Z.max 0 acked)).
  { rewrite Hs2. cbn [self on_self set_last_ack last_ack]. apply dict_get_set_eq. }
  split; [done|].
  intros Heq. rewrite Heq in Hnew. destruct Hforgotten as (_ & _ & Hack & _). congruence.
Qed.

(** The hypotheses of C8 hold for a session that connected when the clock
    read 1000 and is cleaned up when it reads 1003; the theorem gives that
    it is forgotten. *)
Lemma cleanup_then_acknowledge_witness :
  dict_get "r1" (connection_metadata (self (after (connect "r1" 7 "u1") producer)))
  = Some {| user_id := "u1"; connected_at := 1000; last_heartbeat := 1001;
            reconnection_count := 0 |} /\
  (1000 < utc (world (after (connect "r1" 7 "u1") producer)))%Z /\
  forgotten "r1" (self cleaned).
Proof.
  assert (Hmd : dict_get "r1"
            (connection_metadata (self (after (connect "r1" 7 "u1") producer)))
          = Some {| user_id := "u1"; connected_at := 1000; last_heartbeat := 1001;
                    reconnection_count := 0 |}) by by_computation.
  assert (Hclock : (1000 < utc (world (after (connect "r1" 7 "u1") producer)))%Z)
    by by_computation.
  split; [exact Hmd|]. split; [exact Hclock|].
  destruct (cleanup_then_acknowledge "r1" _ 5 _ Hmd Hclock) as (_ & Hforgotten & _).
  exact Hforgotten.
Defined.

(** C8, as stated, fails in its second half.  After the cleanup the
    manager holds nothing for the session; acknowledging message 5 then
    creates a high-water mark of 5 for it, so the manager's state
    changes. *)
Lemma acknowledge_after_cleanup_counterexample :
  self cleaned = init /\
  self (after (acknowledge_message "r1" 5) cleaned)
  = {| active_connections := []; connection_metadata := []; message_queue := [];
       last_ack := [("r1", 5%Z)]; message_counters := [] |} /\
  self (after (acknowledge_message "r1" 5) cleaned) <> self cleaned.
Proof. split; [by_computation|]. split; [by_computation|]. vm_compute. discriminate. Qed.

(** ** Sequence numbers from one call to the next *)

Lemma dict_get_del_all_cases {K V} `{EqDecision K} (k : K) (l : list K) (d : dict K V) :
  dict_get k (fold_left (fun d r => dict_del r d) l d) = dict_get k d \/
  dict_get k (fold_left (fun d r => dict_del r d) l d) = None.
Proof.
  revert d. induction l as [|r l IH]; intros d; [by left|]. cbn.
  destruct (IH (dict_del r d)) as [Hsame|Hnone]; [|by right].
  rewrite Hsame. destruct (decide (r = k)) as [->|Hne].
  - right. apply dict_get_del_eq.
  - left. by apply dict_get_del_ne.
Qed.

(** Only [send_message] for the session, and [cleanup_old_data], touch
    the session's counter; the latter can only delete it. *)
Section NumberingOfSession.
Variables (request_id : string) (P : option Z -> Prop).
Hypothesis P_forgotten : forall entry, P entry -> P None.

Abbreviation numbering := (counter_entry request_id P).

Lemma numbering_ignores_active : ignores_active numbering.
Proof. by intros m h f. Qed.
Lemma numbering_ignores_metadata : ignores_metadata numbering.
Proof. by intros m h f. Qed.
Lemma numbering_ignores_queue : ignores_queue numbering.
Proof. by intros m h f. Qed.
Lemma numbering_ignores_last_ack : ignores_last_ack numbering.
Proof. by intros m h f. Qed.
Lemma numbering_ignores_heap : ignores_heap numbering.
Proof. by intros m h h'. Qed.
Lemma numbering_ignores_counter r : r ≠ request_id -> ignores_counter r numbering.
Proof.
  intros Hne m h n Hm. unfold counter_entry in *. simpl. by rewrite dict_get_set_ne.
Qed.

Lemma keeps_numbering_exec o :
  sends_to request_id o = false -> keeps (inv numbering) (exec o).
Proof.
  pose proof numbering_ignores_active. pose proof numbering_ignores_metadata.
  pose proof numbering_ignores_queue. pose proof numbering_ignores_last_ack.
  pose proof numbering_ignores_heap.
  destruct o as [r ws u|r|r msg|r ev data|r|r acked|]; simpl; intros Hq;
    try (apply bool_decide_eq_false in Hq; pose proof (numbering_ignores_counter r Hq)).
  - by apply keeps_connect.
  - by apply keeps_disconnect.
  - step_keeps. apply keeps_send_message; auto.
  - step_keeps. by apply keeps_broadcast_progress.
  - by apply keeps__replay_queued_messages.
  - by apply keeps_acknowledge_message.
  - by apply keeps_heartbeat_cycle.
Qed.

Lemma keeps_numbering_handle_frame r data : keeps (inv numbering) (handle_frame r data).
Proof.
  unfold handle_frame.
  destruct (has_type "ack" data).
  { destruct (message_id data) as [acked|]; [|apply keeps_ret].
    destruct (acked =? 0)%Z; [apply keeps_ret|].
    apply keeps_acknowledge_message. apply numbering_ignores_last_ack. }
  destruct (has_type "heartbeat_response" data).
  { step_keeps. intros s. apply numbering_ignores_metadata. }
  destruct (has_type "reconnect" data); [|apply keeps_ret].
  apply keeps__replay_queued_messages. apply numbering_ignores_queue.
Qed.

Lemma keeps_numbering_receive_loop r incoming :
  keeps (inv numbering) (receive_loop r incoming).
Proof.
  induction incoming as [|[data| |] rest IH]; cbn [receive_loop]; step_keeps;
    [apply keeps_numbering_handle_frame | apply IH].
Qed.

Lemma keeps_numbering_websocket_endpoint verify_token websocket r token incoming :
  r ≠ request_id ->
  keeps (inv numbering) (websocket_endpoint verify_token websocket r token incoming).
Proof.
  intros Hne. unfold websocket_endpoint.
  destruct (verify_token token) as [[user|]|]; try apply keeps_raise.
  destruct (bool_decide (user = "")); [apply keeps_raise|].
  step_keeps.
  - apply keeps_connect;
      first [ apply numbering_ignores_active | apply numbering_ignores_metadata
            | apply numbering_ignores_queue | apply numbering_ignores_last_ack
            | apply numbering_ignores_heap | by apply numbering_ignores_counter ].
  - apply keeps_numbering_receive_loop.
  - apply keeps_disconnect. apply numbering_ignores_active.
Qed.

Lemma keeps_numbering_cleanup_old_data max_age_hours :
  keeps (inv numbering) (cleanup_old_data max_age_hours).
Proof.
  intros s Hs. unfold after. destruct (representable_hours max_age_hours) eqn:Hrange.
  - destruct (cleanup_old_data_deletes max_age_hours s Hrange)
      as (s' & -> & _ & _ & _ & _ & _ & Hc). cbn [snd].
    unfold inv, counter_entry in *. rewrite Hc. unfold without.
    destruct (dict_get_del_all_cases request_id
                (request_ids_to_remove (self s) (utc (world s)) (hours max_age_hours))
                (message_counters (self s))) as [-> | ->]; [done|].
    by apply (P_forgotten _ Hs).
  - by rewrite (cleanup_old_data_overflow _ _ Hrange).
Qed.


Lemma keeps_numbering_perform a :
  action_sends_to request_id a = false -> keeps (inv numbering) (perform a).
Proof.
  destruct a as [o|h|verify_token websocket r token incoming];
    cbn [perform action_sends_to]; intros Hquiet.
  - by apply keeps_numbering_exec.
  - apply keeps_numbering_cleanup_old_data.
  - apply keeps_numbering_websocket_endpoint. by apply bool_decide_eq_false in Hquiet.
Qed.


Lemma numbering_history actions : forall s,
  silent request_id actions = true ->
  inv numbering s -> inv numbering (history actions s).
Proof.
  induction actions as [|a rest IH]; intros s Hquiet Hs; [done|].
  cbn in Hquiet. apply andb_true_iff in Hquiet as [Ha Hquiet]. apply negb_true_iff in Ha.
  cbn [history fold_left]. apply (IH _ Hquiet). by apply keeps_numbering_perform.
Qed.

End NumberingOfSession.




(** C10.  When [cleanup_old_data] removes a session (its argument is a
    number of hours that a [timedelta] can hold, and the session has
    metadata, no live transport, and is older than the retention window),
    the session has no counter left, whatever it was before, and the next
    [send_message] for the session, after any operations, heartbeat
    turns, cleanups and client sessions served by the endpoint that do
    not themselves call [send_message] for it, gives the message the
    number 1: the numbers given before the cleanup are given again. *)
Theorem cleanup_restarts_numbering (request_id : string) (md : Metadata)
  (max_age_hours : Z) (s : State) :
  representable_hours max_age_hours = true ->
  dict_get request_id (connection_metadata (self s)) = Some md ->
  dict_get request_id (active_connections (self s)) = None ->
  (hours max_age_hours < utc (world s) - connected_at md)%Z ->
  let s1 := after (cleanup_old_data max_age_hours) s in
  cleanup_old_data max_age_hours s = (Returned tt, s1) /\
  dict_get request_id (message_counters (self s1)) = None /\
  forall actions message,
    silent request_id actions = true ->
    exists delivered s2,
      send_message request_id message (history actions s1) = (Returned delivered, s2) /\
      message_id (deref (world s2) message) = Some 1%Z /\
      counter s2 request_id = 1%Z.
Proof.
  intros Hrange Hmd Hws Hage s1.
  destruct (cleanup_old_data_forgets _ _ _ _ Hrange Hmd Hws Hage) as (_ & _ & _ & Hc).
  fold s1 in Hc. split.
  { destruct (cleanup_old_data_deletes max_age_hours s Hrange) as (s' & Hrun & _).
    unfold s1, after. by rewrite Hrun. }
  split; [done|].
  intros actions message Hquiet.
  assert (Hzero : counter (history actions s1) request_id = 0%Z).
  { assert (Hentry : inv (counter_entry request_id (fun entry => entry = None))
                         (history actions s1)) by by apply numbering_history.
    unfold inv, counter_entry in Hentry. unfold counter, dict_get_or. by rewrite Hentry. }
  destruct (send_message_numbers request_id message (history actions s1))
    as (d & s2 & Hrun & Hc2 & Hm2 & _).
  rewrite Hzero in Hc2, Hm2. by exists d, s2.
Qed.

(** The hypotheses of C10 hold for a session whose counter stood at 4
    when it was cleaned up, a day and an hour after it connected, with a
    retention of 24 hours; the theorem gives that its next message is
    numbered 1. *)
Lemma cleanup_restarts_numbering_witness :
  representable_hours 24 = true /\
  dict_get "r1" (connection_metadata (self aged))
  = Some {| user_id := "u1"; connected_at := 1000; last_heartbeat := 1001;
            reconnection_count := 0 |} /\
  dict_get "r1" (active_connections (self aged)) = None /\
  (hours 24 < utc (world aged) - 1000)%Z /\
  counter aged "r1" = 4%Z /\
  exists delivered s2,
    send_message "r1" 1 cleaned_later = (Returned delivered, s2) /\
    message_id (deref (world s2) 1) = Some 1%Z /\
    counter s2 "r1" = 1%Z.
Proof.
  assert (Hrange : representable_hours 24 = true) by reflexivity.
  assert (Hmd : dict_get "r1" (connection_metadata (self aged))
          = Some {| user_id := "u1"; connected_at := 1000; last_heartbeat := 1001;
                    reconnection_count := 0 |}) by by_computation.
  assert (Hidle : dict_get "r1" (active_connections (self aged)) = None) by by_computation.
  assert (Hage : (hours 24 < utc (world aged) - 1000)%Z) by by_computation.
  split; [exact Hrange|]. split; [exact Hmd|]. split; [exact Hidle|]. split; [exact Hage|].
  split; [by_computation|].
  destruct (cleanup_restarts_numbering "r1" _ 24 aged Hrange Hmd Hidle Hage)
    as (_ & _ & Hnext).
  exact (Hnext [] 1%nat eq_refl).
Defined.

(** ** Heartbeats *)

Lemma calls_inv_record_call (P : Call -> Prop) s0 ws m s :
  (forall o, P {| call_ws := ws; call_method := m; call_outcome := o |}) ->
  calls_inv P s0 s -> calls_inv P s0 (on_world (record_call ws m) s).
Proof.
  intros HP (cs & Hcs & Hall). eexists (cs ++ [_]).
  cbn [world on_world record_call calls]. rewrite Hcs.
  split; [by rewrite <- app_assoc|]. apply Forall_app. split; [done|].
  by repeat constructor.
Qed.

Lemma calls_inv_refl (P : Call -> Prop) s : calls_inv P s s.
Proof. exists []. by rewrite app_nil_r. Qed.

Section HeartbeatCalls.
Variable s0 : State.

Lemma keeps_heartbeat_call_disconnect request_id :
  keeps (calls_inv heartbeat_call s0) (disconnect request_id).
Proof.
  unfold disconnect. step_keeps.
  - apply keeps_ws_call. intros s. by apply calls_inv_record_call.
  - by intros s.
Qed.

Lemma keeps_heartbeat_call_session current_time request_id :
  keeps (calls_inv heartbeat_call s0) (heartbeat_session current_time request_id).
Proof.
  unfold heartbeat_session. step_keeps; try apply keeps_heartbeat_call_disconnect.
  - apply keeps_ws_call. intros s. by apply calls_inv_record_call.
  - by intros s.
Qed.

Lemma keeps_heartbeat_call_loop cycles :
  keeps (calls_inv heartbeat_call s0) (heartbeat_loop cycles).
Proof.
  induction cycles as [|n IH]; simpl; step_keeps; [|done].
  unfold heartbeat_cycle. step_keeps. apply keeps_heartbeat_call_session.
Qed.

End HeartbeatCalls.

(** A heartbeat that goes through. *)
Lemma heartbeat_session_success current_time request_id md ws s :
  dict_get request_id (connection_metadata (self s)) = Some md ->
  (current_time - last_heartbeat md <= inactive_timeout)%Z ->
  dict_get request_id (active_connections (self s)) = Some ws ->
  raised_by (next_outcome (socket_of (world s) ws)) = None ->
  heartbeat_session current_time request_id s =
  (Returned tt,
   on_self (set_metadata (dict_set request_id (with_last_heartbeat current_time md)))
     (on_world (record_call ws (SendJson (heartbeat_frame current_time))) s)).
Proof.
  intros Hmd Hfresh Hws Ho. unfold heartbeat_session. run_step. rewrite Hmd.
  apply Z.ltb_ge in Hfresh as ->. run_step. rewrite Hws.
  unfold try_except, ws_call. unfold_monad. by rewrite Ho.
Qed.

(** C9.  Through any number of turns of the heartbeat loop, the sequence
    counters, the delivery queues, the high-water marks and the message
    dictionaries stay as they are, so no heartbeat is numbered, queued or
    replayed; the only [send_json] calls made carry a frame of type
    ["heartbeat"] with no [message_id] (the other calls close the
    transports of evicted sessions).  A heartbeat that goes through
    changes nothing in the manager but the [last_heartbeat] of the
    session's metadata. *)
Theorem heartbeat_bypasses_sequencing (cycles : nat) (s : State) :
  let s' := after (heartbeat_loop cycles) s in
  message_counters (self s') = message_counters (self s) /\
  message_queue (self s') = message_queue (self s) /\
  last_ack (self s') = last_ack (self s) /\
  heap (world s') = heap (world s) /\
  (forall request_id, queued_ids s' request_id = queued_ids s request_id) /\
  Forall heartbeat_call (calls_since s s') /\
  forall current_time request_id md ws,
    dict_get request_id (connection_metadata (self s)) = Some md ->
    (current_time - last_heartbeat md <= inactive_timeout)%Z ->
    dict_get request_id (active_connections (self s)) = Some ws ->
    raised_by (next_outcome (socket_of (world s) ws)) = None ->
    heartbeat_session current_time request_id s =
    (Returned tt,
     on_self (set_metadata (dict_set request_id (with_last_heartbeat current_time md)))
       (on_world (record_call ws (SendJson (heartbeat_frame current_time))) s)).
Proof.
  intros s'.
  assert (Hkept : inv (fun m h =>
            message_counters m = message_counters (self s) /\
            message_queue m = message_queue (self s) /\
            last_ack m = last_ack (self s) /\
            h = heap (world s)) s').
  { apply keeps_heartbeat_loop; [by intros m h f | by intros m h f | done]. }
  destruct Hkept as (Hc & Hq & Ha & Hh).
  destruct (keeps_heartbeat_call_loop s cycles s (calls_inv_refl _ s)) as (cs & Hcs & Hall).
  fold s' in Hcs.
  do 4 (split; [done|]). split; [|split].
  - intros request_id. unfold queued_ids, queue_of, deref. by rewrite Hq, Hh.
  - by rewrite (calls_since_app _ _ _ Hcs).
  - intros current_time request_id md ws. apply heartbeat_session_success.
Qed.

(** ** The theorems at work *)

(** C5 at work: a late acknowledgment of 2 after 3 changes nothing. *)
Lemma acknowledge_message_high_water_mark_witness :
  (2 <= 3)%Z /\
  after (acknowledge_message "r1" 2) (after (acknowledge_message "r1" 3) producer)
  = after (acknowledge_message "r1" 3) producer.
Proof.
  split; [lia|].
  destruct (acknowledge_message_high_water_mark "r1" 3 producer)
    as (_ & _ & _ & _ & Holder & _).
  apply (Holder 2%Z). lia.
Defined.

(** C6 at work: on a transport that fails, the message is queued with its
    number and the session is unregistered. *)
Lemma send_message_queues_on_failure_witness :
  dict_get "r1" (active_connections (self flaky)) = Some 7%nat /\
  raised_by (next_outcome (socket_of (world flaky) 7)) = Some OtherException /\
  exists s',
    send_message "r1" 0 flaky = (Returned false, s') /\
    dict_get "r1" (active_connections (self s')) = None /\
    dict_get "r1" (message_queue (self s')) = Some [0%nat] /\
    message_id (deref (world s') 0) = Some 2%Z.
Proof.
  assert (Hlive : dict_get "r1" (active_connections (self flaky)) = Some 7%nat)
    by by_computation.
  assert (Hfails : raised_by (next_outcome (socket_of (world flaky) 7)) = Some OtherException)
    by by_computation.
  split; [exact Hlive|]. split; [exact Hfails|].
  destruct (send_message_queues_on_failure "r1" 0 flaky) as (_ & Hfail & _).
  destruct (Hfail 7%nat OtherException Hlive Hfails)
    as (s_failed & s' & Hrun & _ & _ & Hactive & Hqueue & Hid).
  exists s'. split; [exact Hrun|]. split; [exact Hactive|]. split; [exact Hqueue | exact Hid].
Defined.

(** C9 at work: a heartbeat for a session connected on a transport that
    answers. *)
Lemma heartbeat_bypasses_sequencing_witness :
  dict_get "r1" (connection_metadata (self (after (connect "r1" 7 "u1") producer)))
  = Some {| user_id := "u1"; connected_at := 1000; last_heartbeat := 1001;
            reconnection_count := 0 |} /\
  (1003 - 1001 <= inactive_timeout)%Z /\
  dict_get "r1" (active_connections (self (after (connect "r1" 7 "u1") producer)))
  = Some 7%nat /\
  raised_by (next_outcome (socket_of (world (after (connect "r1" 7 "u1") producer)) 7))
  = None /\
  fst (heartbeat_session 1003 "r1" (after (connect "r1" 7 "u1") producer)) = Returned tt.
Proof.
  assert (Hmd : dict_get "r1"
            (connection_metadata (self (after (connect "r1" 7 "u1") producer)))
          = Some {| user_id := "u1"; connected_at := 1000; last_heartbeat := 1001;
                    reconnection_count := 0 |}) by by_computation.
  assert (Hfresh : (1003 - 1001 <= inactive_timeout)%Z) by (vm_compute; discriminate).
  assert (Hlive : dict_get "r1"
            (active_connections (self (after (connect "r1" 7 "u1") producer)))
          = Some 7%nat) by by_computation.
  assert (Hanswers : raised_by (next_outcome
            (socket_of (world (after (connect "r1" 7 "u1") producer)) 7)) = None)
    by by_computation.
  split; [exact Hmd|]. split; [exact Hfresh|]. split; [exact Hlive|].
  split; [exact Hanswers|].
  destruct (heartbeat_bypasses_sequencing 0 (after (connect "r1" 7 "u1") producer))
    as (_ & _ & _ & _ & _ & _ & Hbeat).
  by rewrite (Hbeat 1003%Z "r1" _ 7%nat Hmd Hfresh Hlive Hanswers).
Defined.

(** * Further properties of the manager *)

(** ** Sending on a live connection *)

Lemma raised_by_None o : raised_by o = None -> o = Succeeds.
Proof. by destruct o. Qed.

Lemma numbered_calls request_id message s :
  calls (world (numbered request_id message s)) = calls (world s).
Proof. done. Qed.

Lemma numbered_socket_of request_id message s ws :
  socket_of (world (numbered request_id message s)) ws = socket_of (world s) ws.
Proof. unfold numbered. open_state. apply socket_of_stamp. Qed.

(** X1. When the session has a registered transport and the transmission
    succeeds, [send_message] returns [True] after exactly one [send_json],
    whose frame is the message with its new sequence number; the session
    stays registered and nothing is queued: the five dictionaries apart
    from the session's counter are as they were. *)
Theorem send_message_on_live_connection (request_id : string) (message ws : nat) (s : State) :
  dict_get request_id (active_connections (self s)) = Some ws ->
  raised_by (next_outcome (socket_of (world s) ws)) = None ->
  let n := (counter s request_id + 1)%Z in
  exists s',
    send_message request_id message s = (Returned true, s') /\
    calls_since s s' =
      [ {| call_ws := ws;
           call_method := SendJson (with_message_id n (deref (world s) message));
           call_outcome := Succeeds |} ] /\
    active_connections (self s') = active_connections (self s) /\
    connection_metadata (self s') = connection_metadata (self s) /\
    message_queue (self s') = message_queue (self s) /\
    last_ack (self s') = last_ack (self s) /\
    message_counters (self s') = dict_set request_id n (message_counters (self s)).
Proof.
  intros Hws Hok n. eexists. split; [by apply (send_message_delivered _ _ _ _ Hws Hok)|].
  split; [|done].
  apply calls_since_app. open_state. cbn [record_call calls].
  rewrite numbered_calls, numbered_socket_of, numbered_message.
  by rewrite (raised_by_None _ Hok).
Qed.

Lemma send_message_on_live_connection_witness :
  dict_get "r1" (active_connections (self connected)) = Some 7%nat /\
  raised_by (next_outcome (socket_of (world connected) 7)) = None /\
  exists s',
    send_message "r1" 0 connected = (Returned true, s') /\
    map (fun c => get_message_id match call_method c with
                                 | SendJson frame => frame
                                 | _ => empty_message
                                 end) (calls_since connected s') = [2%Z] /\
    message_queue (self s') = [].
Proof.
  assert (Hws : dict_get "r1" (active_connections (self connected)) = Some 7%nat)
    by by_computation.
  assert (Hok : raised_by (next_outcome (socket_of (world connected) 7)) = None)
    by by_computation.
  split; [exact Hws|]. split; [exact Hok|].
  destruct (send_message_on_live_connection "r1" 0 7 connected Hws Hok)
    as (s' & Hs & Hcalls & _ & _ & Hq & _).
  exists s'. split; [exact Hs|]. split.
  - rewrite Hcalls. by_computation.
  - rewrite Hq. by_computation.
Defined.

(** ** Sessions do not interfere *)

(** X2. [send_message] for one session, whatever becomes of the message,
    changes nothing of another session: its transport registration, its
    metadata, its queue, its high-water mark and its counter are as they
    were, and so is every message dictionary other than the one sent. *)
Theorem send_message_touches_one_session (request_id other : string) (message : nat)
  (s : State) :
  other ≠ request_id ->
  let s' := after (send_message request_id message) s in
  dict_get other (active_connections (self s')) = dict_get other (active_connections (self s)) /\
  connection_metadata (self s') = connection_metadata (self s) /\
  dict_get other (message_queue (self s')) = dict_get other (message_queue (self s)) /\
  last_ack (self s') = last_ack (self s) /\
  dict_get other (message_counters (self s')) = dict_get other (message_counters (self s)) /\
  forall r, r ≠ message -> deref (world s') r = deref (world s) r.
Proof.
  intros Hne s'. subst s'. unfold after.
  assert (Hne' : request_id ≠ other) by congruence.
  destruct (dict_get request_id (active_connections (self s))) as [ws|] eqn:Hws;
    [destruct (raised_by (next_outcome (socket_of (world s) ws))) as [e|] eqn:Ho|].
  - rewrite (send_message_failed _ _ _ _ _ Hws Ho). cbn [snd]. open_state.
    unfold numbered. open_state. cbn.
    rewrite !dict_get_set_ne, dict_get_del_ne by done.
    repeat split; try done.
    intros r Hr. rewrite !deref_record_call. by apply deref_stamp_ne.
  - rewrite (send_message_delivered _ _ _ _ Hws Ho). cbn [snd]. open_state.
    unfold numbered. open_state. cbn.
    rewrite !dict_get_set_ne by done.
    repeat split; try done.
    intros r Hr. rewrite !deref_record_call. by apply deref_stamp_ne.
  - rewrite (send_message_idle _ _ _ Hws). cbn [snd]. open_state.
    unfold numbered. open_state. cbn.
    rewrite !dict_get_set_ne by done.
    repeat split; try done.
    intros r Hr. by apply deref_stamp_ne.
Qed.

Lemma send_message_touches_one_session_witness :
  "r2" ≠ "r1" /\
  dict_get "r2" (active_connections (self (after (send_message "r1" 0) two_sessions)))
  = Some 8%nat /\
  dict_get "r2" (message_counters (self (after (send_message "r1" 0) two_sessions)))
  = Some 1%Z.
Proof.
  assert (Hne : "r2" ≠ "r1") by done.
  split; [exact Hne|].
  destruct (send_message_touches_one_session "r1" "r2" 0 two_sessions Hne)
    as (Ha & _ & _ & _ & Hc & _).
  split.
  - rewrite Ha. by_computation.
  - rewrite Hc. by_computation.
Defined.

(** ** Progress events *)

Lemma new_ref_fresh w : heap w !! new_ref w = None.
Proof.
  destruct (heap w !! new_ref w) as [msg|] eqn:Hm; [|done].
  exfalso. apply (is_fresh (dom (heap w))). apply elem_of_dom. by exists msg.
Qed.

Lemma deref_allocate_other msg w r : r ≠ new_ref w -> deref (allocate msg w) r = deref w r.
Proof.
  intros Hr. unfold deref, message_at, allocate. cbn [heap].
  by rewrite lookup_insert_ne.
Qed.

(** [broadcast_progress] is [send_message] on a dictionary built for the
    occasion. *)
Lemma broadcast_progress_sends request_id event_type data s :
  broadcast_progress request_id event_type data s =
  send_message request_id (new_ref (world s))
    (on_world (allocate {| message_id := None;
                           fields := [("type", PStr event_type);
                                      ("timestamp", PTime (utc (world s)));
                                      ("data", PDict data)] |})
       (on_world tick s)).
Proof. reflexivity. Qed.

(** X3. [broadcast_progress] never raises and returns whether the event
    went through.  It builds a new dictionary, distinct from every
    dictionary in use, with the event type, the time of the call and the
    data; after the call that dictionary also carries the session's next
    sequence number, and every other dictionary is as it was.  When the
    session has a transport the dictionary is what is sent on it; when
    the event does not go through, the dictionary is appended to the
    session's queue; when it does, the queues are untouched. *)
Theorem broadcast_progress_builds_message (request_id event_type : string)
  (data : list (string * pyval)) (s : State) :
  let ref := new_ref (world s) in
  let n := (counter s request_id + 1)%Z in
  let msg := {| message_id := Some n;
                fields := [("type", PStr event_type);
                           ("timestamp", PTime (utc (world s)));
                           ("data", PDict data)] |} in
  exists s',
    broadcast_progress request_id event_type data s
      = (Returned (transmits s request_id), s') /\
    heap (world s) !! ref = None /\
    deref (world s') ref = msg /\
    (forall r, r ≠ ref -> deref (world s') r = deref (world s) r) /\
    counter s' request_id = n /\
    (forall ws, dict_get request_id (active_connections (self s)) = Some ws ->
       exists closing,
         calls_since s s' =
           {| call_ws := ws; call_method := SendJson msg;
              call_outcome := next_outcome (socket_of (world s) ws) |} :: closing) /\
    (transmits s request_id = false ->
       dict_get request_id (message_queue (self s')) = Some (queue_of s request_id ++ [ref])) /\
    (transmits s request_id = true -> message_queue (self s') = message_queue (self s)).
Proof.
  intros ref n msg.
  pose (m0 := {| message_id := None;
                 fields := [("type", PStr event_type);
                            ("timestamp", PTime (utc (world s)));
                            ("data", PDict data)] |}).
  pose (s0 := on_world (allocate m0) (on_world tick s)).
  assert (Hmsg : with_message_id n (deref (world s0) ref) = msg).
  { unfold s0. open_state. unfold ref.
    change (new_ref (world s)) with (new_ref (tick (world s))).
    by rewrite deref_allocate_eq. }
  assert (Hother : forall r, r ≠ ref -> deref (stamp ref n (world s0)) r = deref (world s) r).
  { intros r Hr. rewrite deref_stamp_ne by done. unfold s0. open_state.
    rewrite deref_allocate_other by done. apply deref_tick. }
  assert (Hsock : forall ws, socket_of (world s0) ws = socket_of (world s) ws).
  { intros ws. unfold s0. open_state. by rewrite socket_of_allocate, socket_of_tick. }
  rewrite broadcast_progress_sends. fold m0. fold s0. fold ref.
  unfold transmits.
  destruct (dict_get request_id (active_connections (self s))) as [ws|] eqn:Hws;
    [destruct (raised_by (next_outcome (socket_of (world s) ws))) as [e|] eqn:Ho|].
  - assert (Hws0 : dict_get request_id (active_connections (self s0)) = Some ws) by done.
    assert (Ho0 : raised_by (next_outcome (socket_of (world s0) ws)) = Some e)
      by by rewrite Hsock.
    eexists. split; [by apply (send_message_failed _ _ _ _ _ Hws0 Ho0)|].
    split; [apply new_ref_fresh|].
    open_state. rewrite !deref_record_call, !numbered_message.
    change (counter s0 request_id) with (counter s request_id). fold n.
    split; [by rewrite Hmsg|]. split.
    { intros r Hr. rewrite !deref_record_call. unfold numbered. open_state.
      change (counter s0 request_id) with (counter s request_id). fold n.
      by apply Hother. }
    split; [apply (numbered_counter request_id ref s0)|].
    split.
    { intros ws' Hws'. injection Hws' as <-. eexists. apply calls_since_app.
      open_state. cbn [record_call calls].
      rewrite numbered_calls, numbered_socket_of, Hsock, Hmsg.
      rewrite <- app_assoc. reflexivity. }
    split; [|done].
    intros _. cbn. by rewrite dict_get_set_eq.
  - assert (Hws0 : dict_get request_id (active_connections (self s0)) = Some ws) by done.
    assert (Ho0 : raised_by (next_outcome (socket_of (world s0) ws)) = None)
      by by rewrite Hsock.
    eexists. split; [by apply (send_message_delivered _ _ _ _ Hws0 Ho0)|].
    split; [apply new_ref_fresh|].
    open_state. rewrite !deref_record_call, !numbered_message.
    change (counter s0 request_id) with (counter s request_id). fold n.
    split; [by rewrite Hmsg|]. split.
    { intros r Hr. rewrite !deref_record_call. unfold numbered. open_state.
      change (counter s0 request_id) with (counter s request_id). fold n.
      by apply Hother. }
    split; [apply (numbered_counter request_id ref s0)|].
    split.
    { intros ws' Hws'. injection Hws' as <-. exists []. apply calls_since_app.
      open_state. cbn [record_call calls].
      rewrite numbered_calls, numbered_socket_of, Hsock, Hmsg.
      reflexivity. }
    split; [done|]. intros _. reflexivity.
  - assert (Hws0 : dict_get request_id (active_connections (self s0)) = None) by done.
    eexists. split; [by apply (send_message_idle _ _ _ Hws0)|].
    split; [apply new_ref_fresh|].
    open_state. rewrite !numbered_message.
    change (counter s0 request_id) with (counter s request_id). fold n.
    split; [by rewrite Hmsg|]. split.
    { intros r Hr. unfold numbered. open_state.
      change (counter s0 request_id) with (counter s request_id). fold n.
      by apply Hother. }
    split; [apply (numbered_counter request_id ref s0)|].
    split; [done|]. split; [|done].
    intros _. cbn. by rewrite dict_get_set_eq.
Qed.

(** ** Disconnecting *)

(** X4. [disconnect] never raises, even when [close] does.  For a
    registered session it calls [close] once on the session's transport
    and nothing else, and unregisters the session; for any other session
    it does nothing at all.  Either way the session's metadata, queue,
    high-water mark and counter are retained, the message dictionaries and
    the other sessions' registrations are untouched, and disconnecting
    again changes nothing. *)
Theorem disconnect_retains_session (request_id : string) (s : State) :
  let s' := after (disconnect request_id) s in
  disconnect request_id s = (Returned tt, s') /\
  dict_get request_id (active_connections (self s')) = None /\
  (forall other, other ≠ request_id ->
     dict_get other (active_connections (self s')) =
     dict_get other (active_connections (self s))) /\
  connection_metadata (self s') = connection_metadata (self s) /\
  message_queue (self s') = message_queue (self s) /\
  last_ack (self s') = last_ack (self s) /\
  message_counters (self s') = message_counters (self s) /\
  heap (world s') = heap (world s) /\
  calls_since s s' =
    match dict_get request_id (active_connections (self s)) with
    | Some ws => [ {| call_ws := ws; call_method := Close;
                      call_outcome := next_outcome (socket_of (world s) ws) |} ]
    | None => []
    end /\
  (dict_get request_id (active_connections (self s)) = None -> s' = s) /\
  disconnect request_id s' = (Returned tt, s').
Proof.
  intros s'. subst s'. unfold after.
  destruct (dict_get request_id (active_connections (self s))) as [ws|] eqn:Hws.
  - rewrite (disconnect_live _ _ _ Hws). cbn [snd].
    assert (Hgone : dict_get request_id
                      (active_connections (self (closed request_id ws s))) = None).
    { open_state. cbn. apply dict_get_del_eq. }
    split; [done|]. split; [exact Hgone|].
    split.
    { intros other Hne. open_state. cbn. apply dict_get_del_ne. congruence. }
    do 5 (split; [done|]).
    split; [by apply calls_since_app|].
    split; [done|]. by apply disconnect_idle.
  - rewrite (disconnect_idle _ _ Hws). cbn [snd].
    split; [done|]. split; [done|]. split; [done|].
    do 5 (split; [done|]).
    split; [by apply calls_since_refl|].
    split; [done|]. by apply disconnect_idle.
Qed.

(** ** Replaying twice *)

Lemma unacknowledged_nil w mark : unacknowledged w mark [] = [].
Proof. done. Qed.

(** X5. Replaying is idempotent: a replay that follows a replay of the
    same session at once (a second [reconnect] request, say) returns
    without calling a transport and without changing anything. *)
Theorem replay_again_does_nothing (request_id : string) (s : State) :
  let s' := after (_replay_queued_messages request_id) s in
  _replay_queued_messages request_id s = (Returned tt, s') /\
  _replay_queued_messages request_id s' = (Returned tt, s') /\
  calls_since s' (after (_replay_queued_messages request_id) s') = [].
Proof.
  intros s'.
  assert (Hfirst : _replay_queued_messages request_id s = (Returned tt, s')).
  { destruct (total_returns (_replay_queued_messages request_id) s
                (total__replay_queued_messages request_id)) as ([] & Hr).
    exact Hr. }
  assert (Hagain : _replay_queued_messages request_id s' = (Returned tt, s')).
  { subst s'. unfold after in *.
    destruct (dict_get request_id (message_queue (self s))) as [queued|] eqn:Hq.
    - destruct (unacknowledged (world s) (high_water_mark s request_id) queued)
        as [|message rest] eqn:Hp.
      + rewrite (_replay_queued_messages_nothing _ _ _ Hq Hp). cbn [snd].
        by apply (_replay_queued_messages_nothing _ _ _ Hq Hp).
      + assert (Hne : unacknowledged (world s) (high_water_mark s request_id) queued ≠ [])
          by by rewrite Hp.
        rewrite (_replay_queued_messages_pending _ _ _ Hq Hne). cbn [snd].
        apply (_replay_queued_messages_nothing _ []).
        * open_state. cbn. apply dict_get_set_eq.
        * apply unacknowledged_nil.
    - rewrite (_replay_queued_messages_absent _ _ Hq). cbn [snd].
      by apply _replay_queued_messages_absent. }
  split; [exact Hfirst|]. split; [exact Hagain|].
  apply calls_since_refl. unfold after. by rewrite Hagain.
Qed.

(** ** Heartbeats: eviction and failure *)

(** The ways one session's turn in [heartbeat_loop] ends, besides the
    heartbeat that goes through. *)
Lemma heartbeat_session_timed_out current_time request_id md s :
  dict_get request_id (connection_metadata (self s)) = Some md ->
  (inactive_timeout < current_time - last_heartbeat md)%Z ->
  heartbeat_session current_time request_id s = disconnect request_id s.
Proof.
  intros Hmd Hold. unfold heartbeat_session. run_step. rewrite Hmd.
  by apply Z.ltb_lt in Hold as ->.
Qed.

Lemma heartbeat_session_failed current_time request_id md ws e s :
  dict_get request_id (connection_metadata (self s)) = Some md ->
  (current_time - last_heartbeat md <= inactive_timeout)%Z ->
  dict_get request_id (active_connections (self s)) = Some ws ->
  raised_by (next_outcome (socket_of (world s) ws)) = Some e ->
  heartbeat_session current_time request_id s =
  (Returned tt,
   closed request_id ws
     (on_world (record_call ws (SendJson (heartbeat_frame current_time))) s)).
Proof.
  intros Hmd Hfresh Hws Ho. unfold heartbeat_session. run_step. rewrite Hmd.
  apply Z.ltb_ge in Hfresh as ->. run_step. rewrite Hws.
  pose (s1 := on_world (record_call ws (SendJson (heartbeat_frame current_time))) s).
  assert (Hd : disconnect request_id s1 = (Returned tt, closed request_id ws s1))
    by by apply disconnect_live.
  unfold try_except, ws_call. unfold_monad. rewrite Ho. fold s1.
  by destruct e.
Qed.

(** X6. A registered session whose last heartbeat is more than five
    minutes old is evicted by its turn in the heartbeat loop: its
    transport is closed and unregistered without a heartbeat being sent,
    and its metadata (the stale [last_heartbeat] included) is retained.
    The comparison is strict: at exactly five minutes the heartbeat is
    sent and, if it goes through, the session stays registered with
    [last_heartbeat] brought up to date. *)
Theorem heartbeat_evicts_inactive (current_time : Z) (request_id : string)
  (md : Metadata) (ws : nat) (s : State) :
  dict_get request_id (connection_metadata (self s)) = Some md ->
  dict_get request_id (active_connections (self s)) = Some ws ->
  let s' := after (heartbeat_session current_time request_id) s in
  ((inactive_timeout < current_time - last_heartbeat md)%Z ->
     heartbeat_session current_time request_id s = (Returned tt, s') /\
     calls_since s s' =
       [ {| call_ws := ws; call_method := Close;
            call_outcome := next_outcome (socket_of (world s) ws) |} ] /\
     dict_get request_id (active_connections (self s')) = None /\
     connection_metadata (self s') = connection_metadata (self s)) /\
  ((current_time - last_heartbeat md = inactive_timeout)%Z ->
   raised_by (next_outcome (socket_of (world s) ws)) = None ->
     heartbeat_session current_time request_id s = (Returned tt, s') /\
     calls_since s s' =
       [ {| call_ws := ws; call_method := SendJson (heartbeat_frame current_time);
            call_outcome := Succeeds |} ] /\
     dict_get request_id (active_connections (self s')) = Some ws /\
     dict_get request_id (connection_metadata (self s')) =
       Some (with_last_heartbeat current_time md)).
Proof.
  intros Hmd Hws s'. subst s'. unfold after. split.
  - intros Hold. rewrite (heartbeat_session_timed_out _ _ _ _ Hmd Hold).
    rewrite (disconnect_live _ _ _ Hws). cbn [snd].
    split; [done|]. split; [by apply calls_since_app|].
    split; [|done]. open_state. cbn. apply dict_get_del_eq.
  - intros Hedge Hok.
    assert (Hfresh : (current_time - last_heartbeat md <= inactive_timeout)%Z) by lia.
    rewrite (heartbeat_session_success _ _ _ _ _ Hmd Hfresh Hws Hok). cbn [snd].
    split; [done|]. split.
    { apply calls_since_app. open_state. cbn [record_call calls].
      by rewrite (raised_by_None _ Hok). }
    split; [done|]. open_state. cbn. apply dict_get_set_eq.
Qed.

Lemma heartbeat_evicts_inactive_witness :
  dict_get "r1" (connection_metadata (self connected))
  = Some {| user_id := "u1"; connected_at := 1000; last_heartbeat := 1001;
            reconnection_count := 0 |} /\
  dict_get "r1" (active_connections (self connected)) = Some 7%nat /\
  (inactive_timeout < 1001 + inactive_timeout + 1 - 1001)%Z /\
  dict_get "r1" (active_connections
    (self (after (heartbeat_session (1001 + inactive_timeout + 1) "r1") connected))) = None.
Proof.
  assert (Hmd : dict_get "r1" (connection_metadata (self connected))
                = Some {| user_id := "u1"; connected_at := 1000; last_heartbeat := 1001;
                          reconnection_count := 0 |}) by by_computation.
  assert (Hws : dict_get "r1" (active_connections (self connected)) = Some 7%nat)
    by by_computation.
  assert (Hold : (inactive_timeout < 1001 + inactive_timeout + 1 - 1001)%Z) by lia.
  split; [exact Hmd|]. split; [exact Hws|]. split; [exact Hold|].
  apply (heartbeat_evicts_inactive (1001 + inactive_timeout + 1) "r1" _ 7 connected Hmd Hws).
  exact Hold.
Defined.

(** X7. When the heartbeat of a registered, recently heard session fails
    to go out (with [WebSocketDisconnect] or any other exception), the
    session's turn still returns; the transport is closed and
    unregistered, [last_heartbeat] is not brought up to date, and nothing
    is queued or numbered. *)
Theorem heartbeat_failure_evicts (current_time : Z) (request_id : string)
  (md : Metadata) (ws : nat) (e : exn) (s : State) :
  dict_get request_id (connection_metadata (self s)) = Some md ->
  (current_time - last_heartbeat md <= inactive_timeout)%Z ->
  dict_get request_id (active_connections (self s)) = Some ws ->
  raised_by (next_outcome (socket_of (world s) ws)) = Some e ->
  let s' := after (heartbeat_session current_time request_id) s in
  heartbeat_session current_time request_id s = (Returned tt, s') /\
  calls_since s s' =
    [ {| call_ws := ws; call_method := SendJson (heartbeat_frame current_time);
         call_outcome := next_outcome (socket_of (world s) ws) |};
      {| call_ws := ws; call_method := Close;
         call_outcome := next_outcome (after_call (socket_of (world s) ws)) |} ] /\
  dict_get request_id (active_connections (self s')) = None /\
  connection_metadata (self s') = connection_metadata (self s) /\
  message_queue (self s') = message_queue (self s) /\
  message_counters (self s') = message_counters (self s).
Proof.
  intros Hmd Hfresh Hws Ho s'. subst s'. unfold after.
  rewrite (heartbeat_session_failed _ _ _ _ _ _ Hmd Hfresh Hws Ho). cbn [snd].
  split; [done|]. split.
  { apply calls_since_app. open_state. cbn [record_call calls].
    rewrite socket_of_record_call_eq. by rewrite <- app_assoc. }
  split; [|done]. open_state. cbn. apply dict_get_del_eq.
Qed.

Lemma heartbeat_failure_evicts_witness :
  dict_get "r1" (connection_metadata (self flaky))
  = Some {| user_id := "u1"; connected_at := 1000; last_heartbeat := 1001;
            reconnection_count := 0 |} /\
  (1003 - 1001 <= inactive_timeout)%Z /\
  dict_get "r1" (active_connections (self flaky)) = Some 7%nat /\
  raised_by (next_outcome (socket_of (world flaky) 7)) = Some OtherException /\
  dict_get "r1" (active_connections (self (after (heartbeat_session 1003 "r1") flaky)))
  = None.
Proof.
  assert (Hmd : dict_get "r1" (connection_metadata (self flaky))
                = Some {| user_id := "u1"; connected_at := 1000; last_heartbeat := 1001;
                          reconnection_count := 0 |}) by by_computation.
  assert (Hfresh : (1003 - 1001 <= inactive_timeout)%Z) by (unfold inactive_timeout; lia).
  assert (Hws : dict_get "r1" (active_connections (self flaky)) = Some 7%nat)
    by by_computation.
  assert (Ho : raised_by (next_outcome (socket_of (world flaky) 7)) = Some OtherException)
    by by_computation.
  split; [exact Hmd|]. split; [exact Hfresh|]. split; [exact Hws|]. split; [exact Ho|].
  apply (heartbeat_failure_evicts 1003 "r1" _ 7 _ flaky Hmd Hfresh Hws Ho).
Defined.

(** ** Heartbeats: one session's failure is not another's *)

(** Like [step_keeps], for an invariant of any kind: what each state
    change must preserve is left to prove. *)
Ltac step_through :=
  repeat
    lazymatch goal with
    | |- keeps _ (mbind _ _) => apply keeps_bind; [|intros ?]
    | |- keeps _ (try_except _ _) => apply keeps_try_except; [|intros ?]
    | |- keeps _ (ret _) => apply keeps_ret
    | |- keeps _ (raise _) => apply keeps_raise
    | |- keeps _ (sleep _) => apply keeps_ret
    | |- keeps _ (gets _) => apply keeps_gets
    | |- keeps _ (inspect _) => apply keeps_inspect
    | |- keeps _ (load _) => apply keeps_inspect
    | |- keeps _ (when _ _) => apply keeps_when
    | |- keeps _ (for_each _ _) => apply keeps_for_each; intros ?
    | |- keeps _ (ws_call _ _) => apply keeps_ws_call
    | |- keeps _ utcnow => apply keeps_utcnow
    | |- keeps _ (alloc _) => apply keeps_alloc
    | |- keeps _ (store_message_id _ _) => apply keeps_store_message_id
    | |- keeps _ (modify _) => apply keeps_modify
    | |- keeps _ (match ?x with _ => _ end) => destruct x
    end.

Lemma always_succeeds_next k : always_succeeds k -> next_outcome k = Succeeds.
Proof.
  intros [Hs Hf]. unfold next_outcome. destruct (script k) as [|o l]; [done|].
  by inversion Hs.
Qed.

Lemma always_succeeds_after_call k : always_succeeds k -> always_succeeds (after_call k).
Proof.
  intros [Hs Hf]. split; [|done]. cbn. destruct (script k) as [|o l]; [done|].
  by inversion Hs.
Qed.

Lemma always_succeeds_record_call ws ws' m w :
  always_succeeds (socket_of w ws) -> always_succeeds (socket_of (record_call ws' m w) ws).
Proof.
  intros Hk. destruct (decide (ws' = ws)) as [->|Hne].
  - rewrite socket_of_record_call_eq. by apply always_succeeds_after_call.
  - by rewrite socket_of_record_call_ne.
Qed.

Lemma dict_get_Some_keys {V} (k : string) (v : V) (d : dict string V) :
  dict_get k d = Some v -> In k (dict_keys d).
Proof.
  induction d as [|[k' v'] d IH]; [done|]. cbn.
  destruct (decide (k = k')) as [->|Hne]; [by left|]. intros Hk. right. by apply IH.
Qed.

Lemma total_heartbeat_session current_time request_id :
  total (heartbeat_session current_time request_id).
Proof. unfold heartbeat_session. step_total. Qed.

Section GoodOrder.
Variables (request_id : string) (ws : nat) (md : Metadata).

Abbreviation good := (in_good_order request_id ws md).

Lemma good_record_call ws' m s : good s -> good (on_world (record_call ws' m) s).
Proof.
  intros (Hws & Hmd & Hk). split; [done|]. split; [done|].
  by apply always_succeeds_record_call.
Qed.

Lemma keeps_good_disconnect other :
  other ≠ request_id -> keeps good (disconnect other).
Proof.
  intros Hne. unfold disconnect. step_through.
  - intros s. apply good_record_call.
  - intros s (Hws & Hmd & Hk). split; [|done]. cbn. by rewrite dict_get_del_ne.
Qed.

Lemma keeps_good_heartbeat_session current_time other :
  other ≠ request_id -> keeps good (heartbeat_session current_time other).
Proof.
  intros Hne. unfold heartbeat_session. step_through;
    try (by apply keeps_good_disconnect).
  - intros s. apply good_record_call.
  - intros s (Hws & Hmd & Hk). split; [done|]. split; [|done].
    cbn. by rewrite dict_get_set_ne.
Qed.

End GoodOrder.

(** The session's own turn, when it is in good order. *)
Lemma heartbeat_session_good current_time request_id ws md s :
  (current_time - last_heartbeat md <= inactive_timeout)%Z ->
  in_good_order request_id ws md s ->
  exists s',
    heartbeat_session current_time request_id s = (Returned tt, s') /\
    in_good_order request_id ws (with_last_heartbeat current_time md) s'.
Proof.
  intros Hfresh (Hws & Hmd & Hk).
  assert (Hok : raised_by (next_outcome (socket_of (world s) ws)) = None)
    by by rewrite (always_succeeds_next _ Hk).
  eexists. split; [by apply (heartbeat_session_success _ _ _ _ _ Hmd Hfresh Hws Hok)|].
  split; [done|]. split.
  - cbn. apply dict_get_set_eq.
  - open_state. by apply always_succeeds_record_call.
Qed.

Lemma heartbeat_round current_time request_id ws (request_ids : list string) :
  forall md s,
    (current_time - last_heartbeat md <= inactive_timeout)%Z ->
    in_good_order request_id ws md s ->
    exists s',
      for_each request_ids (heartbeat_session current_time) s = (Returned tt, s') /\
      (in_good_order request_id ws (with_last_heartbeat current_time md) s' \/
       ~ In request_id request_ids /\ in_good_order request_id ws md s').
Proof.
  induction request_ids as [|r rest IH]; intros md s Hfresh Hgood.
  - exists s. split; [done|]. right. by split; [intros []|].
  - cbn [for_each]. destruct (decide (r = request_id)) as [->|Hne].
    + destruct (heartbeat_session_good _ _ _ _ _ Hfresh Hgood) as (s1 & Hs1 & Hgood1).
      assert (Hfresh1 : (current_time - last_heartbeat (with_last_heartbeat current_time md)
                         <= inactive_timeout)%Z).
      { cbn. unfold inactive_timeout. lia. }
      destruct (IH _ s1 Hfresh1 Hgood1) as (s' & Hs' & Hend).
      exists s'. split.
      * rewrite (bind_returned _ _ _ _ _ Hs1). exact Hs'.
      * left. by destruct Hend as [Hend|[_ Hend]].
    + destruct (total_returns _ s (total_heartbeat_session current_time r)) as ([] & Hs1).
      assert (Hgood1 : in_good_order request_id ws md
                         (after (heartbeat_session current_time r) s)).
      { by apply keeps_good_heartbeat_session. }
      destruct (IH _ _ Hfresh Hgood1) as (s' & Hs' & Hend).
      exists s'. split.
      * rewrite (bind_returned _ _ _ _ _ Hs1). exact Hs'.
      * destruct Hend as [Hend|[Hnot Hend]]; [by left|].
        right. split; [|done]. intros [Heq|Hin]; [congruence|done].
Qed.

Lemma heartbeat_cycle_round s s' :
  for_each (dict_keys (active_connections (self s))) (heartbeat_session (utc (world s)))
    (on_world tick s) = (Returned tt, s') ->
  heartbeat_cycle s = (Returned tt, s').
Proof.
  intros Hround. unfold heartbeat_cycle, try_except, utcnow. unfold_monad.
  unfold ret. cbn beta iota. cbn [self on_world]. by rewrite Hround.
Qed.

(** X8. A turn of the heartbeat loop serves a healthy session whatever
    happens to the others: if a session is registered on a transport that
    does not fail and was heard from within the last five minutes, then
    the turn returns, the session is still registered on that transport,
    and its [last_heartbeat] is the time of the turn; evictions and
    transport failures of other sessions served in the same turn do not
    matter. *)
Theorem heartbeat_cycle_serves_healthy_session (request_id : string) (md : Metadata)
  (ws : nat) (s : State) :
  dict_get request_id (connection_metadata (self s)) = Some md ->
  dict_get request_id (active_connections (self s)) = Some ws ->
  always_succeeds (socket_of (world s) ws) ->
  (utc (world s) - last_heartbeat md <= inactive_timeout)%Z ->
  let s' := after heartbeat_cycle s in
  heartbeat_cycle s = (Returned tt, s') /\
  dict_get request_id (active_connections (self s')) = Some ws /\
  dict_get request_id (connection_metadata (self s')) =
    Some (with_last_heartbeat (utc (world s)) md) /\
  always_succeeds (socket_of (world s') ws).
Proof.
  intros Hmd Hws Hk Hfresh s'.
  assert (Hgood : in_good_order request_id ws md (on_world tick s)).
  { split; [done|]. split; [done|]. open_state. by rewrite socket_of_tick. }
  destruct (heartbeat_round (utc (world s)) request_id ws
              (dict_keys (active_connections (self s))) md _ Hfresh Hgood)
    as (s1 & Hs1 & Hend).
  assert (Hcycle : heartbeat_cycle s = (Returned tt, s1)) by by apply heartbeat_cycle_round.
  subst s'. unfold after. rewrite Hcycle. cbn [snd]. split; [done|].
  destruct Hend as [(Hws1 & Hmd1 & Hk1)|[Hnot _]]; [done|].
  exfalso. apply Hnot. by apply (dict_get_Some_keys _ ws).
Qed.

Lemma heartbeat_cycle_serves_healthy_session_witness :
  dict_get "r3" (connection_metadata (self three_sessions))
  = Some {| user_id := "u3"; connected_at := 1006; last_heartbeat := 1007;
            reconnection_count := 0 |} /\
  dict_get "r3" (active_connections (self three_sessions)) = Some 9%nat /\
  always_succeeds (socket_of (world three_sessions) 9) /\
  (utc (world three_sessions) - 1007 <= inactive_timeout)%Z /\
  dict_keys (active_connections (self three_sessions)) = ["r1"; "r2"; "r3"] /\
  dict_keys (active_connections (self (after heartbeat_cycle three_sessions))) = ["r3"] /\
  dict_get "r3" (connection_metadata (self (after heartbeat_cycle three_sessions)))
  = Some {| user_id := "u3"; connected_at := 1006; last_heartbeat := 1009;
            reconnection_count := 0 |}.
Proof.
  assert (Hmd : dict_get "r3" (connection_metadata (self three_sessions))
                = Some {| user_id := "u3"; connected_at := 1006; last_heartbeat := 1007;
                          reconnection_count := 0 |}) by by_computation.
  assert (Hws : dict_get "r3" (active_connections (self three_sessions)) = Some 9%nat)
    by by_computation.
  assert (Hsock : socket_of (world three_sessions) 9 = reliable) by by_computation.
  assert (Hk : always_succeeds (socket_of (world three_sessions) 9)).
  { rewrite Hsock. by split. }
  assert (Hnow : utc (world three_sessions) = 1009%Z) by by_computation.
  assert (Hfresh : (utc (world three_sessions) - 1007 <= inactive_timeout)%Z).
  { rewrite Hnow. unfold inactive_timeout. lia. }
  split; [exact Hmd|]. split; [exact Hws|]. split; [exact Hk|]. split; [exact Hfresh|].
  split; [by_computation|]. split; [by_computation|].
  destruct (heartbeat_cycle_serves_healthy_session "r3" _ 9 three_sessions Hmd Hws Hk Hfresh)
    as (_ & _ & Hmd' & _).
  rewrite Hmd'. by rewrite Hnow.
Defined.

(** ** The registry stays consistent *)

Section PyDictKeys.
Context {K V : Type} `{EqDecision K}.
Implicit Types (k : K) (v : V) (d : dict K V).

Lemma dict_contains_keys k d : dict_contains k d = true <-> In k (dict_keys d).
Proof.
  unfold dict_contains. induction d as [|[k' v'] d IH]; cbn.
  - split; [done | intros []].
  - destruct (decide (k = k')) as [->|Hne].
    + split; [by left | done].
    + rewrite IH. split; [by right|]. intros [Heq|Hin]; [congruence | done].
Qed.

Lemma dict_contains_set k k' v d :
  dict_contains k' (dict_set k v d) = if decide (k' = k) then true else dict_contains k' d.
Proof.
  unfold dict_contains. destruct (decide (k' = k)) as [->|Hne].
  - by rewrite dict_get_set_eq.
  - rewrite dict_get_set_ne; [done | congruence].
Qed.

Lemma dict_contains_del k k' d :
  dict_contains k' (dict_del k d) = if decide (k' = k) then false else dict_contains k' d.
Proof.
  unfold dict_contains. destruct (decide (k' = k)) as [->|Hne].
  - by rewrite dict_get_del_eq.
  - rewrite dict_get_del_ne; [done | congruence].
Qed.

Lemma dict_keys_del k d : dict_keys (dict_del k d) = List.filter (fun k' => negb (bool_decide (k = k'))) (dict_keys d).
Proof.
  unfold dict_keys. induction d as [|[k' v'] d IH]; [done|]. cbn.
  destruct (decide (k = k')) as [->|Hne].
  - by rewrite bool_decide_eq_true_2.
  - rewrite bool_decide_eq_false_2 by done. cbn. by rewrite IH.
Qed.

Lemma NoDup_dict_del k d : NoDup (dict_keys d) -> NoDup (dict_keys (dict_del k d)).
Proof.
  intros Hd. rewrite dict_keys_del. apply (sublist_NoDup _ _ Hd). apply filter_sublist.
Qed.

Lemma dict_keys_set k v d :
  dict_keys (dict_set k v d) =
  if dict_contains k d then dict_keys d else dict_keys d ++ [k].
Proof.
  unfold dict_contains, dict_keys. induction d as [|[k' v'] d IH]; [done|]. cbn.
  destruct (decide (k = k')) as [->|Hne]; [done|]. cbn. rewrite IH.
  by destruct (dict_get k d).
Qed.

Lemma NoDup_dict_set k v d : NoDup (dict_keys d) -> NoDup (dict_keys (dict_set k v d)).
Proof.
  intros Hd. rewrite dict_keys_set. destruct (dict_contains k d) eqn:Hk; [done|].
  apply NoDup_app. split; [done|]. split; [|apply NoDup_singleton].
  intros k' Hin Hk'. apply list_elem_of_singleton in Hk' as ->.
  apply list_elem_of_In, dict_contains_keys in Hin. congruence.
Qed.

Lemma length_dict_set k v d :
  length (dict_set k v d) = if dict_contains k d then length d else S (length d).
Proof.
  unfold dict_contains. induction d as [|[k' v'] d IH]; [done|]. cbn.
  destruct (decide (k = k')) as [->|Hne]; [done|]. cbn. rewrite IH.
  by destruct (dict_get k d).
Qed.

Lemma length_dict_del k d :
  NoDup (dict_keys d) ->
  length d = if dict_contains k d then S (length (dict_del k d)) else length (dict_del k d).
Proof.
  unfold dict_contains. induction d as [|[k' v'] d IH]; [done|]. cbn. intros Hd.
  apply NoDup_cons in Hd as [Hk' Hd].
  destruct (decide (k = k')) as [->|Hne].
  - rewrite dict_del_absent; [done|].
    destruct (dict_get k' d) eqn:Hg; [|done].
    exfalso. apply Hk'. apply list_elem_of_In.
    apply dict_contains_keys. unfold dict_contains. by rewrite Hg.
  - cbn. rewrite (IH Hd). by destruct (dict_get k d).
Qed.

Lemma dict_get_In k v d : NoDup (dict_keys d) -> In (k, v) d -> dict_get k d = Some v.
Proof.
  induction d as [|[k' v'] d IH]; [intros _ []|]. cbn. intros Hd Hin.
  apply NoDup_cons in Hd as [Hk' Hd].
  destruct (decide (k = k')) as [->|Hne].
  - destruct Hin as [Heq|Hin]; [congruence|].
    exfalso. apply Hk'. apply list_elem_of_In. by apply (in_map fst) in Hin.
  - destruct Hin as [Heq|Hin]; [congruence|]. by apply IH.
Qed.

Lemma dict_get_del_all_other k (l : list K) d :
  ~ In k l -> dict_get k (fold_left (fun d r => dict_del r d) l d) = dict_get k d.
Proof.
  revert d. induction l as [|r l IH]; intros d Hk; [done|]. cbn.
  rewrite IH; [|intros Hin; apply Hk; by right].
  apply dict_get_del_ne. intros ->. apply Hk. by left.
Qed.

Lemma NoDup_dict_del_all (l : list K) d :
  NoDup (dict_keys d) -> NoDup (dict_keys (fold_left (fun d r => dict_del r d) l d)).
Proof.
  revert d. induction l as [|r l IH]; intros d Hd; [done|]. cbn.
  apply IH. by apply NoDup_dict_del.
Qed.

End PyDictKeys.

Lemma sound_on_world g s : sound s -> sound (on_world g s).
Proof. done. Qed.

Lemma sound_set_queue f s : sound s -> sound (on_self (set_queue f) s).
Proof. done. Qed.

Lemma sound_set_last_ack f s : sound s -> sound (on_self (set_last_ack f) s).
Proof. done. Qed.

Lemma sound_set_counters f s : sound s -> sound (on_self (set_counters f) s).
Proof. done. Qed.

Lemma sound_unregister request_id s :
  sound s -> sound (on_self (set_active (dict_del request_id)) s).
Proof.
  intros (Ha & Hm & Hcov). split; [by apply NoDup_dict_del|]. split; [done|].
  intros r. cbn. rewrite dict_contains_del. destruct (decide (r = request_id)); [done|].
  apply Hcov.
Qed.

Lemma sound_set_metadata request_id md s :
  sound s -> sound (on_self (set_metadata (dict_set request_id md)) s).
Proof.
  intros (Ha & Hm & Hcov). split; [done|]. split; [by apply NoDup_dict_set|].
  intros r Hr. cbn. rewrite dict_contains_set. destruct (decide (r = request_id)); [done|].
  by apply Hcov.
Qed.

Lemma sound_refresh_heartbeat request_id now s :
  sound s -> sound (on_self (set_metadata (refresh_heartbeat request_id now)) s).
Proof.
  intros Hs. unfold sound, on_self, set_metadata, refresh_heartbeat. cbn [self].
  destruct (dict_get request_id (connection_metadata (self s))) as [md|] eqn:Hmd.
  - apply (sound_set_metadata request_id (with_last_heartbeat now md) s Hs).
  - by destruct s as [[] ?].
Qed.

Lemma sound_registered request_id websocket user s :
  sound s -> sound (registered request_id websocket user s).
Proof.
  intros (Ha & Hm & Hcov). unfold sound, consistent.
  rewrite registered_active, registered_metadata.
  split; [by apply NoDup_dict_set|]. split; [by apply NoDup_dict_set|].
  intros r. rewrite !dict_contains_set. destruct (decide (r = request_id)); [done|].
  apply Hcov.
Qed.

Create HintDb sound.
#[export] Hint Resolve sound_on_world sound_set_queue sound_set_last_ack sound_set_counters
  sound_unregister sound_set_metadata sound_refresh_heartbeat : sound.

Ltac step_sound := step_through; try solve [intros; auto with sound].

Lemma keeps_sound_disconnect request_id : keeps sound (disconnect request_id).
Proof. unfold disconnect. step_sound. Qed.

Lemma keeps_sound__queue_message request_id message :
  keeps sound (_queue_message request_id message).
Proof. unfold _queue_message. step_sound. Qed.

Lemma keeps_sound_send_message request_id message :
  keeps sound (send_message request_id message).
Proof.
  unfold send_message. step_sound;
    first [apply keeps_sound_disconnect | apply keeps_sound__queue_message].
Qed.

Lemma keeps_sound_replay_loop request_id messages_to_replay :
  keeps sound (replay_loop request_id messages_to_replay).
Proof.
  induction messages_to_replay as [|message rest IH]; cbn [replay_loop]; step_sound;
    apply IH.
Qed.

Lemma keeps_sound__replay_queued_messages request_id :
  keeps sound (_replay_queued_messages request_id).
Proof.
  unfold _replay_queued_messages. step_sound. apply keeps_sound_replay_loop.
Qed.

Lemma keeps_sound_confirm_and_replay request_id :
  keeps sound (confirm_and_replay request_id).
Proof.
  unfold confirm_and_replay. step_sound;
    first [apply keeps_sound_send_message | apply keeps_sound__replay_queued_messages].
Qed.

Lemma keeps_sound_connect request_id websocket user :
  keeps sound (connect request_id websocket user).
Proof.
  intros s Hs. unfold after.
  destruct (raised_by (next_outcome (socket_of (world s) websocket))) as [e|] eqn:Ho.
  - by rewrite (connect_rejected _ _ _ _ _ Ho).
  - rewrite (connect_accepted _ _ _ _ Ho).
    apply keeps_sound_confirm_and_replay. by apply sound_registered.
Qed.

Lemma keeps_sound_broadcast_progress request_id event_type data :
  keeps sound (broadcast_progress request_id event_type data).
Proof. unfold broadcast_progress. step_sound. apply keeps_sound_send_message. Qed.

Lemma keeps_sound_acknowledge_message request_id acked :
  keeps sound (acknowledge_message request_id acked).
Proof. unfold acknowledge_message. step_sound. Qed.

Lemma keeps_sound_heartbeat_session current_time request_id :
  keeps sound (heartbeat_session current_time request_id).
Proof. unfold heartbeat_session. step_sound; apply keeps_sound_disconnect. Qed.

Lemma keeps_sound_heartbeat_cycle : keeps sound heartbeat_cycle.
Proof. unfold heartbeat_cycle. step_sound. apply keeps_sound_heartbeat_session. Qed.

Lemma keeps_sound_exec o : keeps sound (exec o).
Proof.
  destruct o; cbn [exec].
  - apply keeps_sound_connect.
  - apply keeps_sound_disconnect.
  - step_sound. apply keeps_sound_send_message.
  - step_sound. apply keeps_sound_broadcast_progress.
  - apply keeps_sound__replay_queued_messages.
  - apply keeps_sound_acknowledge_message.
  - apply keeps_sound_heartbeat_cycle.
Qed.

(** What the first loop of [cleanup_old_data] selects. *)
Lemma request_ids_to_remove_inactive request_id m current_time max_age :
  In request_id (request_ids_to_remove m current_time max_age) ->
  dict_contains request_id (active_connections m) = false.
Proof.
  unfold request_ids_to_remove. intros Hin.
  apply in_map_iff in Hin as ([r md] & <- & Hin).
  apply filter_In in Hin as [_ Hf]. cbn in Hf.
  apply andb_prop in Hf as [Hf _]. by apply negb_true_iff in Hf.
Qed.

Lemma request_ids_to_remove_aged request_id md m current_time max_age :
  NoDup (dict_keys (connection_metadata m)) ->
  dict_get request_id (connection_metadata m) = Some md ->
  In request_id (request_ids_to_remove m current_time max_age) ->
  (max_age < current_time - connected_at md)%Z.
Proof.
  unfold request_ids_to_remove. intros Hd Hmd Hin.
  apply in_map_iff in Hin as ([r md'] & Hr & Hin). cbn in Hr. subst r.
  apply filter_In in Hin as [Hin Hf]. cbn in Hf.
  apply andb_prop in Hf as [_ Hf]. apply Z.ltb_lt in Hf.
  rewrite (dict_get_In _ _ _ Hd Hin) in Hmd. by injection Hmd as <-.
Qed.

Lemma request_ids_to_remove_known request_id m current_time max_age :
  In request_id (request_ids_to_remove m current_time max_age) ->
  dict_contains request_id (connection_metadata m) = true.
Proof.
  unfold request_ids_to_remove. intros Hin.
  apply in_map_iff in Hin as ([r md] & <- & Hin).
  apply filter_In in Hin as [Hin _].
  apply dict_contains_keys. by apply (in_map fst) in Hin.
Qed.

Lemma keeps_sound_cleanup_old_data max_age_hours : keeps sound (cleanup_old_data max_age_hours).
Proof.
  intros s (Ha & Hm & Hcov). unfold after.
  destruct (representable_hours max_age_hours) eqn:Hrange;
    [|by rewrite (cleanup_old_data_overflow _ _ Hrange)].
  destruct (cleanup_old_data_deletes max_age_hours s Hrange)
    as (s' & -> & _ & Hact & Hmeta & _). cbn [snd].
  unfold sound, consistent. rewrite Hact, Hmeta.
  split; [done|]. split; [by apply NoDup_dict_del_all|].
  intros r Hr. unfold dict_contains, without. rewrite dict_get_del_all_other.
  - by apply Hcov.
  - intros Hin. apply request_ids_to_remove_inactive in Hin. congruence.
Qed.

Lemma keeps_sound_handle_frame request_id data : keeps sound (handle_frame request_id data).
Proof.
  unfold handle_frame.
  destruct (has_type "ack" data).
  { destruct (message_id data) as [acked|]; [|apply keeps_ret].
    destruct (acked =? 0)%Z; [apply keeps_ret | apply keeps_sound_acknowledge_message]. }
  destruct (has_type "heartbeat_response" data); [step_sound|].
  destruct (has_type "reconnect" data); [|apply keeps_ret].
  apply keeps_sound__replay_queued_messages.
Qed.

Lemma keeps_sound_receive_loop request_id incoming :
  keeps sound (receive_loop request_id incoming).
Proof.
  induction incoming as [|[data| |] rest IH]; cbn [receive_loop]; step_through;
    [apply keeps_sound_handle_frame | apply IH].
Qed.

Lemma keeps_sound_websocket_endpoint verify_token websocket request_id token incoming :
  keeps sound (websocket_endpoint verify_token websocket request_id token incoming).
Proof.
  unfold websocket_endpoint.
  destruct (verify_token token) as [[user|]|]; try apply keeps_raise.
  destruct (bool_decide (user = "")); [apply keeps_raise|].
  step_sound.
  - apply keeps_sound_connect.
  - apply keeps_sound_receive_loop.
  - apply keeps_sound_disconnect.
Qed.

Lemma keeps_sound_perform a : keeps sound (perform a).
Proof.
  destruct a; cbn [perform].
  - apply keeps_sound_exec.
  - apply keeps_sound_cleanup_old_data.
  - apply keeps_sound_websocket_endpoint.
Qed.

Lemma sound_history actions : forall s, sound s -> sound (history actions s).
Proof.
  induction actions as [|a rest IH]; intros s Hs; [done|].
  cbn. apply IH. by apply keeps_sound_perform.
Qed.

Lemma sound_init w : sound {| self := init; world := w |}.
Proof. split; [constructor|]. split; [constructor|]. done. Qed.

(** X9. Whatever the deployment has done since the manager was created
    (operations, heartbeat turns, cleanups, whole client sessions served
    by the endpoint, in any order and with any transport failures), a
    registered session has metadata: [connect] writes both entries, and
    [cleanup_old_data] only forgets sessions that are not registered.  So
    the heartbeat loop never skips a registered session for want of
    metadata. *)
Theorem registered_sessions_have_metadata (actions : list action) (w : World)
  (request_id : string) :
  let s := history actions {| self := init; world := w |} in
  fst (is_connected request_id s) = Returned true ->
  exists md, fst (get_connection_metadata request_id s) = Returned (Some md).
Proof.
  intros s Hlive.
  destruct (sound_history actions _ (sound_init w)) as (_ & _ & Hcov). fold s in Hcov.
  unfold is_connected, get_connection_metadata, gets in *. cbn [fst] in *.
  injection Hlive as Hlive. apply Hcov in Hlive. unfold dict_contains in Hlive.
  destruct (dict_get request_id (connection_metadata (self s))) as [md|]; [|done].
  by exists md.
Qed.

Lemma registered_sessions_have_metadata_witness :
  exists md,
    fst (get_connection_metadata "r3"
           (history [Operation (Connect "r1" 7 "u1"); Operation (Connect "r3" 9 "u3");
                     CleanupOldData 0; Operation HeartbeatCycle]
              {| self := init; world := world producer |}))
    = Returned (Some md).
Proof.
  apply (registered_sessions_have_metadata
           [Operation (Connect "r1" 7 "u1"); Operation (Connect "r3" 9 "u3");
            CleanupOldData 0; Operation HeartbeatCycle] (world producer) "r3").
  by_computation.
Defined.

(** ** Cleanup spares what is live or recent *)

(** X10. [cleanup_old_data] never calls a transport and never touches
    a message dictionary or the registry of transports.  It returns when
    [max_age_hours] is a number of hours that a [timedelta] can hold, and
    raises otherwise, the manager being then as it was.  Either way it
    spares every session that is registered, or has no metadata, or whose
    [connected_at] is not more than [max_age_hours] old (a session aged
    exactly [max_age_hours] is spared): the metadata, queue, high-water
    mark and counter of such a session are as they were. *)
Theorem cleanup_old_data_spares (request_id : string) (max_age_hours : Z) (s : State) :
  consistent (self s) ->
  (dict_contains request_id (active_connections (self s)) = true \/
   match dict_get request_id (connection_metadata (self s)) with
   | Some md => (utc (world s) - connected_at md <= hours max_age_hours)%Z
   | None => True
   end) ->
  let s' := after (cleanup_old_data max_age_hours) s in
  cleanup_old_data max_age_hours s =
    (if representable_hours max_age_hours then Returned tt else Raised OtherException, s') /\
  (representable_hours max_age_hours = false -> self s' = self s) /\
  active_connections (self s') = active_connections (self s) /\
  calls (world s') = calls (world s) /\
  heap (world s') = heap (world s) /\
  dict_get request_id (connection_metadata (self s')) =
    dict_get request_id (connection_metadata (self s)) /\
  dict_get request_id (message_queue (self s')) =
    dict_get request_id (message_queue (self s)) /\
  dict_get request_id (last_ack (self s')) = dict_get request_id (last_ack (self s)) /\
  dict_get request_id (message_counters (self s')) =
    dict_get request_id (message_counters (self s)).
Proof.
  intros (_ & Hm & _) Hspared s'. subst s'. unfold after.
  destruct (representable_hours max_age_hours) eqn:Hrange;
    [|by rewrite (cleanup_old_data_overflow _ _ Hrange)].
  destruct (cleanup_old_data_deletes max_age_hours s Hrange)
    as (s' & -> & Hw & Hact & Hmeta & Hq & Hack & Hc). cbn [snd].
  assert (Hnot : ~ In request_id
                   (request_ids_to_remove (self s) (utc (world s)) (hours max_age_hours))).
  { intros Hin. destruct Hspared as [Hlive|Hyoung].
    - apply request_ids_to_remove_inactive in Hin. congruence.
    - destruct (dict_get request_id (connection_metadata (self s))) as [md|] eqn:Hmd.
      + pose proof (request_ids_to_remove_aged _ _ _ _ _ Hm Hmd Hin). lia.
      + apply request_ids_to_remove_known in Hin. unfold dict_contains in Hin.
        by rewrite Hmd in Hin. }
  split; [done|]. split; [done|]. split; [done|]. rewrite Hw, Hmeta, Hq, Hack, Hc.
  split; [done|]. split; [done|]. unfold without.
  by rewrite !dict_get_del_all_other.
Qed.

Lemma sound_connected : sound connected.
Proof. apply keeps_sound_connect. apply (sound_init (world producer)). Qed.

Lemma cleanup_old_data_spares_witness :
  consistent (self connected) /\
  dict_contains "r1" (active_connections (self connected)) = true /\
  dict_get "r1" (connection_metadata (self (after (cleanup_old_data 0) connected)))
  = Some {| user_id := "u1"; connected_at := 1000; last_heartbeat := 1001;
            reconnection_count := 0 |}.
Proof.
  assert (Hlive : dict_contains "r1" (active_connections (self connected)) = true)
    by by_computation.
  split; [exact sound_connected|]. split; [exact Hlive|].
  destruct (cleanup_old_data_spares "r1" 0 connected sound_connected (or_introl Hlive))
    as (_ & _ & _ & _ & _ & Hmd & _).
  rewrite Hmd. by_computation.
Defined.

(** ** Counting connections *)

(** What a replay leaves alone. *)
Lemma _replay_queued_messages_effect request_id s :
  let s' := after (_replay_queued_messages request_id) s in
  active_connections (self s') = active_connections (self s) /\
  connection_metadata (self s') = connection_metadata (self s) /\
  last_ack (self s') = last_ack (self s) /\
  message_counters (self s') = message_counters (self s) /\
  heap (world s') = heap (world s).
Proof.
  intros s'. subst s'. unfold after.
  destruct (dict_get request_id (message_queue (self s))) as [queued|] eqn:Hq.
  - destruct (decide (unacknowledged (world s) (high_water_mark s request_id) queued = []))
      as [Hp|Hp].
    + by rewrite (_replay_queued_messages_nothing _ _ _ Hq Hp).
    + rewrite (_replay_queued_messages_pending _ _ _ Hq Hp). cbn [snd]. open_state.
      unfold after.
      destruct (dict_get request_id (active_connections (self s))) as [ws|] eqn:Hws.
      * destruct (replay_loop_live _ _
                    (unacknowledged (world s) (high_water_mark s request_id) queued) s Hws)
          as (s1 & -> & Hself & Hheap & _).
        cbn [snd]. cbn. by rewrite Hself, Hheap.
      * by rewrite (replay_loop_idle _ _ _ Hws).
  - by rewrite (_replay_queued_messages_absent _ _ Hq).
Qed.

(** The registry after a [connect] whose confirmation goes through. *)
Lemma connect_registers request_id websocket user s :
  raised_by (next_outcome (socket_of (world s) websocket)) = None ->
  raised_by (next_outcome (after_call (socket_of (world s) websocket))) = None ->
  active_connections (self (after (connect request_id websocket user) s)) =
  dict_set request_id websocket (active_connections (self s)).
Proof.
  intros Haccept Hsend. unfold after. rewrite (connect_accepted _ _ _ _ Haccept).
  pose (s0 := registered request_id websocket user s).
  assert (Hws : dict_get request_id (active_connections (self s0)) = Some websocket).
  { unfold s0. rewrite registered_active. apply dict_get_set_eq. }
  fold s0. rewrite confirm_and_replay_split.
  change (snd (_replay_queued_messages request_id (after (confirm request_id) s0)))
    with (after (_replay_queued_messages request_id) (after (confirm request_id) s0)).
  destruct (_replay_queued_messages_effect request_id (after (confirm request_id) s0))
    as (-> & _).
  unfold after, confirm. do 2 run_step.
  rewrite (send_message_delivered request_id _ websocket).
  - cbn [snd]. open_state. cbn. unfold s0. by rewrite registered_active.
  - done.
  - open_state. rewrite socket_of_allocate, socket_of_tick. unfold s0.
    rewrite registered_world, !socket_of_tick, socket_of_record_call_eq. exact Hsend.
Qed.

(** X11. In a consistent registry, the number that
    [get_active_connection_count] reports goes down by one when a
    registered session is disconnected and is unchanged by disconnecting
    any other; when a transport accepts and takes the confirmation,
    [connect] raises it by one for a session that was not registered and
    leaves it unchanged for one that was (the transport is replaced).
    [is_connected] is false after [disconnect] and true after such a
    [connect]. *)
Theorem connection_count_tracks_sessions (request_id : string) (n : nat) (s : State) :
  consistent (self s) ->
  fst (get_active_connection_count s) = Returned n ->
  let was_connected := dict_contains request_id (active_connections (self s)) in
  (fst (get_active_connection_count (after (disconnect request_id) s)) =
     Returned (if was_connected then Nat.pred n else n) /\
   fst (is_connected request_id (after (disconnect request_id) s)) = Returned false) /\
  forall websocket user,
    raised_by (next_outcome (socket_of (world s) websocket)) = None ->
    raised_by (next_outcome (after_call (socket_of (world s) websocket))) = None ->
    fst (get_active_connection_count (after (connect request_id websocket user) s)) =
      Returned (if was_connected then n else S n) /\
    fst (is_connected request_id (after (connect request_id websocket user) s)) =
      Returned true.
Proof.
  intros (Ha & _ & _) Hn was_connected. subst was_connected.
  unfold get_active_connection_count, is_connected, gets in *. cbn [fst] in *.
  injection Hn as <-. split.
  - unfold after, dict_contains.
    destruct (dict_get request_id (active_connections (self s))) as [ws|] eqn:Hws.
    + rewrite (disconnect_live _ _ _ Hws). cbn [snd]. open_state. cbn.
      rewrite dict_get_del_eq. split; [|done]. f_equal.
      rewrite (length_dict_del request_id _ Ha). unfold dict_contains. by rewrite Hws.
    + rewrite (disconnect_idle _ _ Hws). cbn [snd]. by rewrite Hws.
  - intros websocket user Haccept Hsend.
    rewrite (connect_registers _ _ _ _ Haccept Hsend).
    unfold dict_contains at 2. rewrite dict_get_set_eq. split; [|done].
    by rewrite length_dict_set.
Qed.

Lemma sound_two_sessions : sound two_sessions.
Proof.
  unfold two_sessions, run. cbn [fold_left exec].
  do 2 apply keeps_sound_connect. apply (sound_init (world producer)).
Qed.

Lemma connection_count_tracks_sessions_witness :
  consistent (self two_sessions) /\
  fst (get_active_connection_count two_sessions) = Returned 2%nat /\
  fst (get_active_connection_count (after (disconnect "r1") two_sessions)) = Returned 1%nat.
Proof.
  assert (Hn : fst (get_active_connection_count two_sessions) = Returned 2%nat)
    by by_computation.
  split; [exact sound_two_sessions|]. split; [exact Hn|].
  destruct (connection_count_tracks_sessions "r1" 2 two_sessions sound_two_sessions Hn)
    as ((Hcount & _) & _).
  rewrite Hcount. by_computation.
Defined.

(** ** A connection delivers what was queued *)

Lemma registered_queue request_id websocket user s :
  message_queue (self (registered request_id websocket user s)) = message_queue (self s).
Proof.
  unfold registered.
  destruct (dict_contains request_id (message_counters (self s)));
    by destruct (dict_contains request_id (last_ack (self s))).
Qed.

Lemma registered_mark request_id websocket user s :
  high_water_mark (registered request_id websocket user s) request_id =
  high_water_mark s request_id.
Proof.
  unfold registered, high_water_mark, dict_contains, dict_get_or.
  destruct (dict_get request_id (message_counters (self s)));
    destruct (dict_get request_id (last_ack (self s))) eqn:Hack; cbn;
    by rewrite ?dict_get_set_eq, ?Hack.
Qed.

Lemma registered_counter request_id websocket user s :
  counter (registered request_id websocket user s) request_id = counter s request_id.
Proof.
  unfold registered, counter, dict_contains, dict_get_or.
  destruct (dict_get request_id (message_counters (self s))) eqn:Hc;
    destruct (dict_get request_id (last_ack (self s))); cbn;
    by rewrite ?dict_get_set_eq, ?Hc.
Qed.

(** On a transport that never fails, every frame of a replay goes out. *)
Lemma attempts_always_succeeds ws frames : forall k,
  always_succeeds k ->
  attempts ws k frames =
  map (fun frame => {| call_ws := ws; call_method := SendJson frame;
                       call_outcome := Succeeds |}) frames.
Proof.
  induction frames as [|frame rest IH]; intros k Hk; [done|]. cbn [attempts map].
  rewrite (always_succeeds_next _ Hk). f_equal.
  apply IH. by apply always_succeeds_after_call.
Qed.

Lemma frames_of_sent ws frames :
  frames_of (map (fun frame => {| call_ws := ws; call_method := SendJson frame;
                                  call_outcome := Succeeds |}) frames) = frames.
Proof. induction frames as [|frame rest IH]; [done|]. cbn. by rewrite IH. Qed.

(** The pending messages of a queue depend on the queued dictionaries only. *)
Lemma unacknowledged_ext w w' mark queued :
  Forall (fun r => deref w' r = deref w r) queued ->
  unacknowledged w' mark queued = unacknowledged w mark queued /\
  map (deref w') (unacknowledged w mark queued) =
  map (deref w) (unacknowledged w mark queued).
Proof.
  unfold unacknowledged. induction 1 as [|r rest Hr Hrest [IH1 IH2]]; [done|]. cbn.
  rewrite Hr, IH1. split; [done|].
  destruct (mark <? get_message_id (deref w r))%Z; cbn; by rewrite ?Hr, IH2.
Qed.

(** The confirmation that [connect] sends, when it goes through. *)
Lemma confirm_delivered request_id ws s :
  dict_get request_id (active_connections (self s)) = Some ws ->
  raised_by (next_outcome (socket_of (world s) ws)) = None ->
  let frame := with_message_id (counter s request_id + 1)
                 (connection_established request_id (utc (world s))) in
  exists s1,
    confirm request_id s = (Returned true, s1) /\
    active_connections (self s1) = active_connections (self s) /\
    message_queue (self s1) = message_queue (self s) /\
    last_ack (self s1) = last_ack (self s) /\
    calls (world s1) =
      calls (world s) ++ [ {| call_ws := ws; call_method := SendJson frame;
                              call_outcome := Succeeds |} ] /\
    (forall ws', always_succeeds (socket_of (world s) ws') ->
                 always_succeeds (socket_of (world s1) ws')) /\
    (forall r, is_Some (heap (world s) !! r) -> deref (world s1) r = deref (world s) r).
Proof.
  intros Hws Hok frame.
  pose (s0 := on_world (allocate (connection_established request_id (utc (world s))))
                (on_world tick s)).
  assert (Hsock : forall ws', socket_of (world s0) ws' = socket_of (world s) ws').
  { intros ws'. unfold s0. open_state. by rewrite socket_of_allocate, socket_of_tick. }
  assert (Hws0 : dict_get request_id (active_connections (self s0)) = Some ws) by done.
  assert (Hok0 : raised_by (next_outcome (socket_of (world s0) ws)) = None)
    by by rewrite Hsock.
  assert (Hframe : deref (world (numbered request_id (new_ref (world s)) s0))
                     (new_ref (world s)) = frame).
  { rewrite numbered_message. unfold s0. open_state.
    change (new_ref (world s)) with (new_ref (tick (world s))).
    by rewrite deref_allocate_eq. }
  eexists. split.
  { unfold confirm. do 2 run_step. open_state.
    change (new_ref (tick (world s))) with (new_ref (world s)). fold s0.
    apply (send_message_delivered _ _ _ _ Hws0 Hok0). }
  cbn zeta. rewrite Hframe.
  split; [done|]. split; [done|]. split; [done|]. split.
  { open_state. cbn [record_call calls]. rewrite numbered_calls, numbered_socket_of, Hsock.
    by rewrite (raised_by_None _ Hok). }
  split.
  { intros ws' Hk. open_state. apply always_succeeds_record_call.
    by rewrite numbered_socket_of, Hsock. }
  intros r Hr. open_state. rewrite deref_record_call. unfold numbered. open_state.
  assert (Hne : new_ref (world s) ≠ r).
  { intros <-. rewrite new_ref_fresh in Hr. by destruct Hr. }
  rewrite deref_stamp_ne by done. unfold s0. open_state.
  rewrite deref_allocate_ne by done. apply deref_tick.
Qed.

Lemma registered_deref request_id websocket user s r :
  deref (world (registered request_id websocket user s)) r = deref (world s) r.
Proof. rewrite registered_world. by rewrite !deref_tick, deref_record_call. Qed.

Lemma registered_heap request_id websocket user s :
  heap (world (registered request_id websocket user s)) = heap (world s).
Proof. by rewrite registered_world. Qed.

Lemma registered_calls request_id websocket user s :
  calls (world (registered request_id websocket user s)) =
  calls (world s) ++ [ {| call_ws := websocket; call_method := Accept;
                          call_outcome := next_outcome (socket_of (world s) websocket) |} ].
Proof. by rewrite registered_world. Qed.

Lemma registered_socket_of request_id websocket user s :
  socket_of (world (registered request_id websocket user s)) websocket =
  after_call (socket_of (world s) websocket).
Proof. rewrite registered_world. by rewrite !socket_of_tick, socket_of_record_call_eq. Qed.

Lemma registered_utc request_id websocket user s :
  utc (world (registered request_id websocket user s)) = utc (tick (tick (world s))).
Proof. by rewrite registered_world. Qed.

(** X12. Messages queued while a session was away reach it when it
    connects.  If the queues are in order and the transport never fails,
    [connect] returns with the session registered on the transport, after
    sending on it, in this order: the confirmation, which takes the
    session's next sequence number, and then the queued messages above the
    high-water mark, in queue order, which is ascending sequence order,
    each as it was queued.  Every call is on the new transport and
    succeeds.  The queue is then empty if anything was replayed, and
    unchanged otherwise. *)
Theorem connect_delivers_queued_messages (request_id : string) (websocket : nat)
  (user : string) (s : State) :
  inv orderly s ->
  always_succeeds (socket_of (world s) websocket) ->
  let pending := unacknowledged (world s) (high_water_mark s request_id)
                   (queue_of s request_id) in
  let confirmation := with_message_id (counter s request_id + 1)
                        (connection_established request_id (utc (tick (tick (world s))))) in
  let s' := after (connect request_id websocket user) s in
  connect request_id websocket user s = (Returned tt, s') /\
  frames_of (calls_since s s') = confirmation :: map (deref (world s)) pending /\
  Forall (fun c => call_ws c = websocket /\ call_outcome c = Succeeds) (calls_since s s') /\
  dict_get request_id (active_connections (self s')) = Some websocket /\
  ascending (map get_message_id (map (deref (world s)) pending)) /\
  (pending = [] -> message_queue (self s') = message_queue (self s)) /\
  (pending ≠ [] -> dict_get request_id (message_queue (self s')) = Some []).
Proof.
  intros Hs Hk pending confirmation s'.
  destruct (Hs request_id) as (Hasc & _ & Hheap). cbn zeta in Hasc, Hheap.
  fold (queue_of s request_id) in Hasc, Hheap.
  assert (Haccept : raised_by (next_outcome (socket_of (world s) websocket)) = None)
    by by rewrite (always_succeeds_next _ Hk).
  pose (s0 := registered request_id websocket user s).
  assert (Hws0 : dict_get request_id (active_connections (self s0)) = Some websocket).
  { unfold s0. rewrite registered_active. apply dict_get_set_eq. }
  assert (Hk0 : always_succeeds (socket_of (world s0) websocket)).
  { unfold s0. rewrite registered_socket_of. by apply always_succeeds_after_call. }
  assert (Hok0 : raised_by (next_outcome (socket_of (world s0) websocket)) = None)
    by by rewrite (always_succeeds_next _ Hk0).
  destruct (confirm_delivered request_id websocket s0 Hws0 Hok0)
    as (s1 & Hconfirm & Hact1 & Hq1 & Hack1 & Hcalls1 & Hk1 & Hderef1).
  unfold s0 in Hcalls1. rewrite registered_counter, registered_utc in Hcalls1.
  fold confirmation in Hcalls1. rewrite registered_calls in Hcalls1.
  rewrite (always_succeeds_next _ Hk) in Hcalls1. fold s0 in Hcalls1.
  assert (Hrun : connect request_id websocket user s =
                 _replay_queued_messages request_id s1).
  { rewrite (connect_accepted _ _ _ _ Haccept). fold s0.
    rewrite confirm_and_replay_split. unfold after. by rewrite Hconfirm. }
  assert (Hmark : high_water_mark s1 request_id = high_water_mark s request_id).
  { unfold high_water_mark at 1. rewrite Hack1. apply registered_mark. }
  assert (Hsame : Forall (fun r => deref (world s1) r = deref (world s) r)
                    (queue_of s request_id)).
  { eapply Forall_impl; [exact Hheap|]. intros r Hr. cbn beta in Hr.
    rewrite Hderef1; [apply registered_deref|]. unfold s0. by rewrite registered_heap. }
  destruct (unacknowledged_ext (world s) (world s1) (high_water_mark s request_id)
              (queue_of s request_id) Hsame) as [Hpending Hframes].
  fold pending in Hpending, Hframes.
  assert (Hqueue : dict_get request_id (message_queue (self s1)) =
                   dict_get request_id (message_queue (self s))).
  { rewrite Hq1. unfold s0. by rewrite registered_queue. }
  assert (Hsorted : ascending (map get_message_id (map (deref (world s)) pending))).
  { unfold pending, unacknowledged.
    rewrite (map_filter_comm (deref (world s))
               (fun msg => (high_water_mark s request_id <? get_message_id msg)%Z)).
    rewrite (map_filter_comm get_message_id
               (fun n => (high_water_mark s request_id <? n)%Z)).
    apply ascending_filter. by rewrite map_map. }
  destruct (_replay_queued_messages_effect request_id s1) as (Hact' & _).
  assert (Hlive : dict_get request_id
                    (active_connections (self (after (_replay_queued_messages request_id) s1)))
                  = Some websocket).
  { rewrite Hact', Hact1. exact Hws0. }
  subst s'. unfold after in *. rewrite Hrun.
  destruct (dict_get request_id (message_queue (self s))) as [queued|] eqn:Hq.
  - assert (Hqs : queue_of s request_id = queued).
    { unfold queue_of, dict_get_or. by rewrite Hq. }
    rewrite Hqs in *.
    destruct (_replay_queued_messages_calls request_id queued s1 Hqueue)
      as (Hreturn & Hlog).
    cbn zeta in Hreturn, Hlog. unfold after in Hreturn, Hlog.
    rewrite Hmark, Hpending, Hframes in Hlog.
    rewrite Hact1, Hws0 in Hlog.
    rewrite (attempts_always_succeeds _ _ _ (Hk1 _ Hk0)) in Hlog.
    rewrite Hcalls1, <- !app_assoc in Hlog.
    split; [exact Hreturn|].
    rewrite (calls_since_app _ _ _ Hlog).
    split; [cbn; by rewrite frames_of_sent|].
    split.
    { apply Forall_cons; split; [done|]. apply Forall_cons; split; [done|].
      apply Forall_forall. intros c Hc. apply list_elem_of_In, in_map_iff in Hc.
      by destruct Hc as (frame & <- & _). }
    split; [exact Hlive|]. split; [exact Hsorted|].
    split.
    + intros Hnone.
      rewrite (_replay_queued_messages_nothing _ _ _ Hqueue); [|by rewrite Hmark, Hpending].
      cbn [snd]. rewrite Hq1. unfold s0. by rewrite registered_queue.
    + intros Hsome.
      rewrite (_replay_queued_messages_pending _ _ _ Hqueue); [|by rewrite Hmark, Hpending].
      cbn [snd]. open_state. cbn. apply dict_get_set_eq.
  - assert (Hnone : pending = []).
    { unfold pending, queue_of, dict_get_or. by rewrite Hq. }
    rewrite (_replay_queued_messages_absent _ _ Hqueue) in *. cbn [snd] in *.
    rewrite <- app_assoc in Hcalls1.
    split; [done|]. rewrite (calls_since_app _ _ _ Hcalls1), Hnone.
    split; [done|].
    split; [by repeat constructor|].
    split; [by rewrite Hact1|]. split; [done|].
    split; [|done]. intros _. rewrite Hq1. unfold s0. by rewrite registered_queue.
Qed.

Lemma orderly_backlog : inv orderly backlog.
Proof.
  unfold backlog. change producer with {| self := init; world := world producer |}.
  apply orderly_run; [apply orderly_init|]. cbn [careful]. done.
Qed.

Lemma connect_delivers_queued_messages_witness :
  inv orderly backlog /\
  always_succeeds (socket_of (world backlog) 7) /\
  queued_ids backlog "r1" = [1; 2]%Z /\
  high_water_mark backlog "r1" = 1%Z /\
  map get_message_id
    (frames_of (calls_since backlog (after (connect "r1" 7 "u1") backlog))) = [3; 2]%Z /\
  dict_get "r1" (message_queue (self (after (connect "r1" 7 "u1") backlog))) = Some [].
Proof.
  assert (Hsock : socket_of (world backlog) 7 = reliable) by by_computation.
  assert (Hk : always_succeeds (socket_of (world backlog) 7)).
  { rewrite Hsock. by split. }
  split; [exact orderly_backlog|]. split; [exact Hk|].
  split; [by_computation|]. split; [by_computation|].
  destruct (connect_delivers_queued_messages "r1" 7 "u1" backlog orderly_backlog Hk)
    as (_ & Hframes & _ & _ & _ & _ & Hcleared).
  split.
  - rewrite Hframes. by_computation.
  - apply Hcleared. vm_compute. discriminate.
Defined.

(** * Properties of the endpoint *)

(** ** What serving a client preserves *)

Section SessionInvariants.
Variable I : State -> Prop.
Hypothesis I_world : forall g s, I s -> I (on_world g s).
Hypothesis I_queue : forall f s, I s -> I (on_self (set_queue f) s).
Hypothesis I_acknowledge :
  forall r acked s,
    I s -> I (on_self (set_last_ack (fun a =>
                dict_set r (Z.max (dict_get_or r 0%Z a) acked) a)) s).
Hypothesis I_number :
  forall r s,
    I s -> I (on_self (set_counters (fun c =>
                dict_set r (dict_get_or r 0%Z c + 1)%Z c)) s).
Hypothesis I_registered :
  forall r websocket user s, I s -> I (registered r websocket user s).
Hypothesis I_unregister : forall r s, I s -> I (on_self (set_active (dict_del r)) s).
Hypothesis I_refresh :
  forall r now s, I s -> I (on_self (set_metadata (refresh_heartbeat r now)) s).

Ltac step_session := step_through; try solve [intros; auto].

Lemma keeps_session_disconnect request_id : keeps I (disconnect request_id).
Proof. unfold disconnect. step_session. Qed.

Lemma keeps_session__queue_message request_id message :
  keeps I (_queue_message request_id message).
Proof. unfold _queue_message. step_session. Qed.

Lemma keeps_session_send_message request_id message :
  keeps I (send_message request_id message).
Proof.
  unfold send_message. step_session;
    first [apply keeps_session_disconnect | apply keeps_session__queue_message].
Qed.

Lemma keeps_session_replay_loop request_id messages_to_replay :
  keeps I (replay_loop request_id messages_to_replay).
Proof.
  induction messages_to_replay as [|message rest IH]; cbn [replay_loop]; step_session.
Qed.

Lemma keeps_session__replay_queued_messages request_id :
  keeps I (_replay_queued_messages request_id).
Proof.
  unfold _replay_queued_messages. step_session. apply keeps_session_replay_loop.
Qed.

Lemma keeps_session_confirm_and_replay request_id :
  keeps I (confirm_and_replay request_id).
Proof.
  unfold confirm_and_replay. step_session;
    first [apply keeps_session_send_message | apply keeps_session__replay_queued_messages].
Qed.

Lemma keeps_session_acknowledge_message request_id acked :
  keeps I (acknowledge_message request_id acked).
Proof. unfold acknowledge_message. step_session. Qed.

Lemma keeps_session_connect request_id websocket user :
  keeps I (connect request_id websocket user).
Proof.
  intros s Hs. unfold after.
  destruct (raised_by (next_outcome (socket_of (world s) websocket))) as [e|] eqn:Ho.
  - rewrite (connect_rejected _ _ _ _ _ Ho). by apply I_world.
  - rewrite (connect_accepted _ _ _ _ Ho).
    apply keeps_session_confirm_and_replay. by apply I_registered.
Qed.

Lemma keeps_session_broadcast_progress request_id event_type data :
  keeps I (broadcast_progress request_id event_type data).
Proof. unfold broadcast_progress. step_session. apply keeps_session_send_message. Qed.

Lemma keeps_session_handle_frame request_id data : keeps I (handle_frame request_id data).
Proof.
  unfold handle_frame.
  destruct (has_type "ack" data).
  { destruct (message_id data) as [acked|]; [|apply keeps_ret].
    destruct (acked =? 0)%Z; [apply keeps_ret | apply keeps_session_acknowledge_message]. }
  destruct (has_type "heartbeat_response" data); [step_session|].
  destruct (has_type "reconnect" data); [|apply keeps_ret].
  apply keeps_session__replay_queued_messages.
Qed.

Lemma keeps_session_receive_loop request_id incoming :
  keeps I (receive_loop request_id incoming).
Proof.
  induction incoming as [|[data| |] rest IH]; cbn [receive_loop]; step_through;
    [apply keeps_session_handle_frame | apply IH].
Qed.

Lemma keeps_session_websocket_endpoint verify_token websocket request_id token incoming :
  keeps I (websocket_endpoint verify_token websocket request_id token incoming).
Proof.
  unfold websocket_endpoint.
  destruct (verify_token token) as [[user|]|]; try apply keeps_raise.
  destruct (bool_decide (user = "")); [apply keeps_raise|].
  step_through.
  - apply keeps_session_connect.
  - apply keeps_session_receive_loop.
  - apply keeps_session_disconnect.
Qed.

End SessionInvariants.

(** ** How the endpoint ends *)

Lemma total_handle_frame request_id data : total (handle_frame request_id data).
Proof.
  unfold handle_frame.
  destruct (has_type "ack" data).
  { destruct (message_id data) as [acked|]; [|apply total_ret].
    destruct (acked =? 0)%Z; [apply total_ret|].
    unfold acknowledge_message. step_total. }
  destruct (has_type "heartbeat_response" data); [step_total|].
  destruct (has_type "reconnect" data); [|apply total_ret].
  apply total__replay_queued_messages.
Qed.

(** The receive loop only ends by an exception. *)
Lemma receive_loop_raises request_id incoming : forall s,
  exists e, receive_loop request_id incoming s
            = (Raised e, after (receive_loop request_id incoming) s).
Proof.
  induction incoming as [|[data| |] rest IH]; intros s; cbn [receive_loop].
  - by exists WebSocketDisconnect.
  - destruct (total_returns _ s (total_handle_frame request_id data)) as ([] & Hrun).
    destruct (IH (after (handle_frame request_id data) s)) as (e & He).
    exists e. unfold after at 1. rewrite !(bind_returned _ _ _ _ _ Hrun).
    rewrite He. reflexivity.
  - by exists WebSocketDisconnect.
  - by exists OtherException.
Qed.

Lemma connect_returns request_id websocket user s :
  raised_by (next_outcome (socket_of (world s) websocket)) = None ->
  connect request_id websocket user s =
  (Returned tt, after (connect request_id websocket user) s).
Proof.
  intros Ho. unfold after. rewrite (connect_accepted _ _ _ _ Ho).
  destruct (total_returns _ (registered request_id websocket user s)
              (total_confirm_and_replay request_id)) as ([] & Hrun).
  by rewrite Hrun.
Qed.

Lemma authenticated_Some verify_token token user :
  authenticated verify_token token = Some user ->
  verify_token token = Some (Some user) /\ bool_decide (user = "") = false.
Proof.
  unfold authenticated. destruct (verify_token token) as [[u|]|]; try done.
  destruct (bool_decide (u = "")) eqn:Hu; [done|]. by intros [= ->].
Qed.

(** The three ways the endpoint ends. *)
Lemma websocket_endpoint_unauthenticated verify_token websocket request_id token incoming s :
  authenticated verify_token token = None ->
  websocket_endpoint verify_token websocket request_id token incoming s
  = (Raised OtherException, s).
Proof.
  unfold authenticated, websocket_endpoint.
  destruct (verify_token token) as [[u|]|]; try done.
  by destruct (bool_decide (u = "")).
Qed.

Lemma websocket_endpoint_refused verify_token websocket request_id token incoming user e s :
  authenticated verify_token token = Some user ->
  raised_by (next_outcome (socket_of (world s) websocket)) = Some e ->
  websocket_endpoint verify_token websocket request_id token incoming s
  = (Raised e, on_world (record_call websocket Accept) s).
Proof.
  intros [Htoken Huser]%authenticated_Some Ho. unfold websocket_endpoint.
  rewrite Htoken, Huser. rewrite try_except_raise.
  unfold mbind, M_bind, bind. by rewrite (connect_rejected _ _ _ _ _ Ho).
Qed.

Lemma websocket_endpoint_served verify_token websocket request_id token incoming user s :
  authenticated verify_token token = Some user ->
  raised_by (next_outcome (socket_of (world s) websocket)) = None ->
  websocket_endpoint verify_token websocket request_id token incoming s
  = (Returned tt,
     after (disconnect request_id)
       (after (receive_loop request_id incoming)
          (after (connect request_id websocket user) s))).
Proof.
  intros [Htoken Huser]%authenticated_Some Ho. unfold websocket_endpoint.
  rewrite Htoken, Huser. rewrite try_except_raise.
  rewrite (bind_returned _ _ _ _ _ (connect_returns _ _ _ _ Ho)).
  destruct (receive_loop_raises request_id incoming
              (after (connect request_id websocket user) s)) as (e & He).
  assert (Hcaught :
    try_except (receive_loop request_id incoming)
      (fun e => match e with
                | WebSocketDisconnect => ret tt
                | OtherException => ret tt
                end) (after (connect request_id websocket user) s)
    = (Returned tt, after (receive_loop request_id incoming)
                      (after (connect request_id websocket user) s))).
  { unfold try_except. rewrite He. by destruct e. }
  rewrite (bind_returned _ _ _ _ _ Hcaught).
  destruct (total_returns _ (after (receive_loop request_id incoming)
                               (after (connect request_id websocket user) s))
              (total_disconnect request_id)) as ([] & Hrun).
  exact Hrun.
Qed.

Lemma known_as_refresh request_id user t r now s :
  known_as request_id user t s ->
  known_as request_id user t (on_self (set_metadata (refresh_heartbeat r now)) s).
Proof.
  intros (md & Hmd & Hu & Ht). unfold known_as, refresh_heartbeat. cbn.
  destruct (dict_get r (connection_metadata (self s))) as [md'|] eqn:Hr; [|by exists md].
  destruct (decide (r = request_id)) as [->|Hne].
  - rewrite dict_get_set_eq. exists (with_last_heartbeat now md').
    rewrite Hmd in Hr. injection Hr as <-. by split.
  - rewrite dict_get_set_ne by done. by exists md.
Qed.

Lemma known_as_after_connect request_id websocket user s :
  raised_by (next_outcome (socket_of (world s) websocket)) = None ->
  known_as request_id user (utc (world s)) (after (connect request_id websocket user) s).
Proof.
  intros Ho. unfold after. rewrite (connect_accepted _ _ _ _ Ho).
  apply (keeps_session_confirm_and_replay (known_as request_id user (utc (world s))));
    try done.
  eexists. rewrite registered_metadata, dict_get_set_eq. by split.
Qed.

(** X13. The endpoint raises in two cases only.  When the token is
    rejected, or its payload names no user, it raises before anything is
    done: no transport call, no change to the manager.  When the
    transport refuses the connection, the exception of [accept] is
    raised, nothing is registered, and [accept] is the only call made.
    Otherwise the endpoint returns, whatever frames arrive and however
    the client leaves (the peer disconnecting, a failing receive), and it
    leaves the session unregistered, with its metadata kept under the
    authenticated user for a later reconnection. *)
Theorem websocket_endpoint_outcome (verify_token : string -> option (option string))
  (websocket : nat) (request_id token : string) (incoming : list inbound) (s : State) :
  let serve := websocket_endpoint verify_token websocket request_id token incoming in
  let s' := after serve s in
  match authenticated verify_token token with
  | None => serve s = (Raised OtherException, s)
  | Some user =>
      match raised_by (next_outcome (socket_of (world s) websocket)) with
      | Some e =>
          serve s = (Raised e, s') /\
          self s' = self s /\
          calls_since s s' =
            [ {| call_ws := websocket; call_method := Accept;
                 call_outcome := next_outcome (socket_of (world s) websocket) |} ]
      | None =>
          serve s = (Returned tt, s') /\
          dict_get request_id (active_connections (self s')) = None /\
          known_as request_id user (utc (world s)) s'
      end
  end.
Proof.
  intros serve s'. subst s' serve. unfold after.
  destruct (authenticated verify_token token) as [user|] eqn:Hauth.
  - destruct (raised_by (next_outcome (socket_of (world s) websocket))) as [e|] eqn:Ho.
    + rewrite (websocket_endpoint_refused _ _ _ _ _ _ _ _ Hauth Ho). cbn [snd].
      split; [done|]. split; [done|]. by apply calls_since_app.
    + rewrite (websocket_endpoint_served _ _ _ _ _ _ _ Hauth Ho). cbn [snd].
      split; [done|]. split.
      * destruct (disconnect_after request_id
                    (after (receive_loop request_id incoming)
                       (after (connect request_id websocket user) s))) as (Hgone & _).
        exact Hgone.
      * apply (keeps_session_disconnect (known_as request_id user (utc (world s))));
          try done.
        apply (keeps_session_receive_loop (known_as request_id user (utc (world s))));
          try done.
        { intros r now s0. apply known_as_refresh. }
        by apply known_as_after_connect.
  - by apply websocket_endpoint_unauthenticated.
Qed.

(** ** The life of a client's transport *)

Section Lifecycle.
Variables (request_id : string) (ws : nat) (s0 : State).

Abbreviation alive := (lifecycle request_id ws s0).

Lemma lifecycle_quiet s s' :
  active_connections (self s') = active_connections (self s) ->
  calls (world s') = calls (world s) ->
  alive s -> alive s'.
Proof.
  intros Ha Hc (sends & Hall & Hcase). exists sends. split; [done|].
  by rewrite Ha, Hc.
Qed.

Lemma lifecycle_sends s s' more :
  active_connections (self s') = active_connections (self s) ->
  dict_get request_id (active_connections (self s)) = Some ws ->
  calls (world s') = calls (world s) ++ more ->
  Forall (is_send ws) more ->
  alive s -> alive s'.
Proof.
  intros Ha Hws Hc Hmore (sends & Hall & [[_ Hcalls]|[Hnone _]]); [|congruence].
  exists (sends ++ more). split; [by apply Forall_app|]. left.
  rewrite Ha. split; [done|]. by rewrite Hc, Hcalls, <- app_assoc.
Qed.

Lemma lifecycle_closes s s' more o :
  dict_get request_id (active_connections (self s)) = Some ws ->
  dict_get request_id (active_connections (self s')) = None ->
  calls (world s') =
    calls (world s) ++ more ++ [ {| call_ws := ws; call_method := Close; call_outcome := o |} ] ->
  Forall (is_send ws) more ->
  alive s -> alive s'.
Proof.
  intros Hws Hgone Hc Hmore (sends & Hall & [[_ Hcalls]|[Hnone _]]); [|congruence].
  exists (sends ++ more). split; [by apply Forall_app|]. right.
  split; [done|]. exists o. by rewrite Hc, Hcalls, <- !app_assoc.
Qed.

Lemma keeps_lifecycle_disconnect : keeps alive (disconnect request_id).
Proof.
  intros s Hs. unfold after.
  destruct (dict_get request_id (active_connections (self s))) as [ws'|] eqn:Hws.
  - assert (ws' = ws) as ->.
    { destruct Hs as (sends & _ & [[Ha _]|[Ha _]]); congruence. }
    rewrite (disconnect_live _ _ _ Hws). cbn [snd].
    apply (lifecycle_closes s _ [] (next_outcome (socket_of (world s) ws))); try done.
    open_state. cbn. apply dict_get_del_eq.
  - by rewrite (disconnect_idle _ _ Hws).
Qed.

Lemma keeps_lifecycle_send_message message : keeps alive (send_message request_id message).
Proof.
  intros s Hs. unfold after.
  destruct (dict_get request_id (active_connections (self s))) as [ws'|] eqn:Hws.
  - assert (ws' = ws) as ->.
    { destruct Hs as (sends & _ & [[Ha _]|[Ha _]]); congruence. }
    destruct (raised_by (next_outcome (socket_of (world s) ws))) as [e|] eqn:Ho.
    + rewrite (send_message_failed _ _ _ _ _ Hws Ho). cbn [snd].
      eapply (lifecycle_closes s _ [_]); try done.
      * open_state. cbn. apply dict_get_del_eq.
      * open_state. cbn [record_call calls]. rewrite numbered_calls.
        rewrite <- app_assoc. reflexivity.
      * apply Forall_singleton. split; [done|]. by eexists.
    + rewrite (send_message_delivered _ _ _ _ Hws Ho). cbn [snd].
      eapply (lifecycle_sends s _ [_]); [done | done | reflexivity | | done].
      apply Forall_singleton. split; [done|]. by eexists.
  - rewrite (send_message_idle _ _ _ Hws). cbn [snd]. by apply (lifecycle_quiet s).
Qed.

Lemma attempts_are_sends frames : forall k, Forall (is_send ws) (attempts ws k frames).
Proof.
  induction frames as [|frame rest IH]; intros k; [done|].
  cbn [attempts]. apply Forall_cons. split; [split; [done | by eexists]|].
  destruct (next_outcome k); [apply IH | done | done].
Qed.

Lemma keeps_lifecycle__replay_queued_messages :
  keeps alive (_replay_queued_messages request_id).
Proof.
  intros s Hs.
  destruct (_replay_queued_messages_effect request_id s) as (Ha & _).
  destruct (dict_get request_id (message_queue (self s))) as [queued|] eqn:Hq.
  - destruct (_replay_queued_messages_calls request_id queued s Hq) as (_ & Hlog).
    cbn zeta in Hlog.
    destruct (dict_get request_id (active_connections (self s))) as [ws'|] eqn:Hws.
    + assert (ws' = ws) as ->.
      { destruct Hs as (sends & _ & [[Hw _]|[Hw _]]); congruence. }
      eapply (lifecycle_sends s); try done.
      apply attempts_are_sends.
    + rewrite app_nil_r in Hlog. by apply (lifecycle_quiet s).
  - unfold after. by rewrite (_replay_queued_messages_absent _ _ Hq).
Qed.

Lemma keeps_lifecycle_confirm_and_replay : keeps alive (confirm_and_replay request_id).
Proof.
  unfold confirm_and_replay. step_through.
  - intros s. by apply lifecycle_quiet.
  - intros s. by apply lifecycle_quiet.
  - apply keeps_lifecycle_send_message.
  - apply keeps_lifecycle__replay_queued_messages.
Qed.

Lemma keeps_lifecycle_handle_frame data : keeps alive (handle_frame request_id data).
Proof.
  unfold handle_frame.
  destruct (has_type "ack" data).
  { destruct (message_id data) as [acked|]; [|apply keeps_ret].
    destruct (acked =? 0)%Z; [apply keeps_ret|].
    unfold acknowledge_message. step_through. intros s. by apply lifecycle_quiet. }
  destruct (has_type "heartbeat_response" data).
  { step_through; intros s; by apply lifecycle_quiet. }
  destruct (has_type "reconnect" data); [|apply keeps_ret].
  apply keeps_lifecycle__replay_queued_messages.
Qed.

Lemma keeps_lifecycle_receive_loop incoming : keeps alive (receive_loop request_id incoming).
Proof.
  induction incoming as [|[data| |] rest IH]; cbn [receive_loop]; step_through;
    [apply keeps_lifecycle_handle_frame | apply IH].
Qed.

End Lifecycle.

(** X14. When the endpoint serves a client, it calls no transport but
    the client's, and calls it in this order: [accept] once, then the
    frames it sends (the confirmation, replayed messages), then [close]
    once, after which the transport is not called again.  This holds
    whatever frames arrive, whether or not a send fails on the way, and
    however the client leaves. *)
Theorem websocket_endpoint_transport_lifecycle
  (verify_token : string -> option (option string)) (websocket : nat)
  (request_id token user : string) (incoming : list inbound) (s : State) :
  authenticated verify_token token = Some user ->
  raised_by (next_outcome (socket_of (world s) websocket)) = None ->
  let s' := after (websocket_endpoint verify_token websocket request_id token incoming) s in
  exists sends o,
    calls_since s s' =
      {| call_ws := websocket; call_method := Accept; call_outcome := Succeeds |}
      :: sends ++
         [ {| call_ws := websocket; call_method := Close; call_outcome := o |} ] /\
    Forall (is_send websocket) sends.
Proof.
  intros Hauth Ho s'. subst s'. unfold after.
  rewrite (websocket_endpoint_served _ _ _ _ _ _ _ Hauth Ho). cbn [snd].
  pose (sr := registered request_id websocket user s).
  assert (Hstart : lifecycle request_id websocket sr sr).
  { exists []. split; [done|]. left. split; [|by rewrite app_nil_r].
    unfold sr. rewrite registered_active. apply dict_get_set_eq. }
  assert (Hconnected : lifecycle request_id websocket sr
                         (after (connect request_id websocket user) s)).
  { unfold after. rewrite (connect_accepted _ _ _ _ Ho).
    by apply keeps_lifecycle_confirm_and_replay. }
  apply (keeps_lifecycle_receive_loop _ _ _ incoming) in Hconnected.
  apply keeps_lifecycle_disconnect in Hconnected.
  destruct (disconnect_after request_id
              (after (receive_loop request_id incoming)
                 (after (connect request_id websocket user) s))) as (Hgone & _).
  destruct Hconnected as (sends & Hsends & [[Hlive _]|[_ (o & Hcalls)]]); [congruence|].
  exists sends, o. split; [|done].
  apply calls_since_app. rewrite Hcalls. unfold sr. rewrite registered_calls.
  rewrite (raised_by_None _ Ho). by rewrite <- app_assoc.
Qed.

Lemma websocket_endpoint_transport_lifecycle_witness :
  authenticated verify_token_example "good" = Some "u1" /\
  raised_by (next_outcome (socket_of (world backlog) 7)) = None /\
  map (fun c => (call_ws c, method_name (call_method c)))
    (calls_since backlog
       (after (websocket_endpoint verify_token_example 7 "r1" "good"
                 [Arrives (ack_frame 2); Arrives (control_frame "reconnect"); PeerLeaves])
          backlog))
  = [(7%nat, "accept"); (7%nat, "send_json"); (7%nat, "send_json"); (7%nat, "close")] /\
  exists sends o,
    calls_since backlog
      (after (websocket_endpoint verify_token_example 7 "r1" "good"
                [Arrives (ack_frame 2); Arrives (control_frame "reconnect"); PeerLeaves])
         backlog)
    = {| call_ws := 7; call_method := Accept; call_outcome := Succeeds |}
      :: sends ++ [ {| call_ws := 7; call_method := Close; call_outcome := o |} ].
Proof.
  assert (Hauth : authenticated verify_token_example "good" = Some "u1") by by_computation.
  assert (Ho : raised_by (next_outcome (socket_of (world backlog) 7)) = None)
    by by_computation.
  split; [exact Hauth|]. split; [exact Ho|]. split; [by_computation|].
  destruct (websocket_endpoint_transport_lifecycle verify_token_example 7 "r1" "good" "u1"
              [Arrives (ack_frame 2); Arrives (control_frame "reconnect"); PeerLeaves]
              backlog Hauth Ho) as (sends & o & Hcalls & _).
  by exists sends, o.
Defined.

(** ** Acknowledgments received by the endpoint *)

Lemma registered_mark_of request_id websocket user s r :
  high_water_mark (registered request_id websocket user s) r = high_water_mark s r.
Proof.
  destruct (decide (request_id = r)) as [<-|Hne]; [apply registered_mark|].
  unfold registered, high_water_mark.
  destruct (dict_contains request_id (message_counters (self s)));
    destruct (dict_contains request_id (last_ack (self s))); cbn;
    by rewrite ?dict_get_or_set_ne.
Qed.

Lemma registered_counter_of request_id websocket user s r :
  counter (registered request_id websocket user s) r = counter s r.
Proof.
  destruct (decide (request_id = r)) as [<-|Hne]; [apply registered_counter|].
  unfold registered, counter.
  destruct (dict_contains request_id (message_counters (self s)));
    destruct (dict_contains request_id (last_ack (self s))); cbn;
    by rewrite ?dict_get_or_set_ne.
Qed.

Lemma handle_frame_mark request_id data s :
  high_water_mark (after (handle_frame request_id data) s) request_id =
  match acknowledgment data with
  | Some acked => Z.max (high_water_mark s request_id) acked
  | None => high_water_mark s request_id
  end.
Proof.
  unfold handle_frame, acknowledgment.
  destruct (has_type "ack" data).
  { destruct (message_id data) as [acked|]; [|done].
    destruct (acked =? 0)%Z; [done|].
    rewrite acknowledge_message_after. unfold high_water_mark. cbn.
    apply dict_get_or_set_eq. }
  destruct (has_type "heartbeat_response" data).
  { assert (Hk : keeps (fun s' => high_water_mark s' request_id = high_water_mark s request_id)
              (all_metadata ← gets connection_metadata;
               if dict_contains request_id all_metadata
               then now ← utcnow; modify (set_metadata (refresh_heartbeat request_id now))
               else ret tt)).
    { step_through; by intros s'. }
    by apply Hk. }
  destruct (has_type "reconnect" data); [|done].
  by apply (keeps_session__replay_queued_messages
              (fun s' => high_water_mark s' request_id = high_water_mark s request_id)).
Qed.

Lemma receive_loop_mark request_id incoming : forall s,
  high_water_mark (after (receive_loop request_id incoming) s) request_id =
  fold_left Z.max (acknowledgments incoming) (high_water_mark s request_id).
Proof.
  induction incoming as [|[data| |] rest IH]; intros s; try done.
  cbn [receive_loop acknowledgments].
  destruct (total_returns _ s (total_handle_frame request_id data)) as ([] & Hrun).
  unfold after at 1. rewrite (bind_returned _ _ _ _ _ Hrun).
  change (snd (receive_loop request_id rest (after (handle_frame request_id data) s)))
    with (after (receive_loop request_id rest) (after (handle_frame request_id data) s)).
  rewrite IH, handle_frame_mark. by destruct (acknowledgment data).
Qed.

Lemma fold_left_max_ge (l : list Z) : forall x, (x <= fold_left Z.max l x)%Z.
Proof.
  induction l as [|y l IH]; intros x; cbn; [lia|].
  specialize (IH (Z.max x y)). lia.
Qed.

(** X15. While it serves a client, the endpoint raises the session's
    high-water mark by the acknowledgments it receives, and by nothing
    else: when it returns, the mark is the greatest of the mark it found
    and the sequence numbers acknowledged before the client left.  An
    [ack] frame without a [message_id], or with [message_id] 0, counts
    for nothing, and so does any frame that arrives after the client has
    left.  The mark never goes down. *)
Theorem websocket_endpoint_acknowledgments
  (verify_token : string -> option (option string)) (websocket : nat)
  (request_id token user : string) (incoming : list inbound) (s : State) :
  authenticated verify_token token = Some user ->
  raised_by (next_outcome (socket_of (world s) websocket)) = None ->
  let s' := after (websocket_endpoint verify_token websocket request_id token incoming) s in
  high_water_mark s' request_id =
    fold_left Z.max (acknowledgments incoming) (high_water_mark s request_id) /\
  (high_water_mark s request_id <= high_water_mark s' request_id)%Z.
Proof.
  intros Hauth Ho s'.
  assert (Hmark : high_water_mark s' request_id =
                  fold_left Z.max (acknowledgments incoming) (high_water_mark s request_id)).
  { subst s'. unfold after at 1.
    rewrite (websocket_endpoint_served _ _ _ _ _ _ _ Hauth Ho). cbn [snd].
    transitivity (high_water_mark
                    (after (receive_loop request_id incoming)
                       (after (connect request_id websocket user) s)) request_id).
    { by apply (keeps_session_disconnect
                  (fun s1 => high_water_mark s1 request_id =
                             high_water_mark
                               (after (receive_loop request_id incoming)
                                  (after (connect request_id websocket user) s))
                               request_id)). }
    rewrite receive_loop_mark. f_equal.
    apply (keeps_session_connect
             (fun s' => high_water_mark s' request_id = high_water_mark s request_id));
      try done.
    intros r ws' u s1 <-. apply registered_mark_of. }
  split; [exact Hmark|]. rewrite Hmark. apply fold_left_max_ge.
Qed.

Lemma websocket_endpoint_acknowledgments_witness :
  authenticated verify_token_example "good" = Some "u1" /\
  raised_by (next_outcome (socket_of (world backlog) 7)) = None /\
  high_water_mark backlog "r1" = 1%Z /\
  high_water_mark
    (after (websocket_endpoint verify_token_example 7 "r1" "good"
              [Arrives (ack_frame 3); Arrives (ack_frame 0); Arrives (ack_frame 2);
               PeerLeaves; Arrives (ack_frame 9)]) backlog) "r1" = 3%Z.
Proof.
  assert (Hauth : authenticated verify_token_example "good" = Some "u1") by by_computation.
  assert (Ho : raised_by (next_outcome (socket_of (world backlog) 7)) = None)
    by by_computation.
  split; [exact Hauth|]. split; [exact Ho|]. split; [by_computation|].
  destruct (websocket_endpoint_acknowledgments verify_token_example 7 "r1" "good" "u1"
              [Arrives (ack_frame 3); Arrives (ack_frame 0); Arrives (ack_frame 2);
               PeerLeaves; Arrives (ack_frame 9)] backlog Hauth Ho) as (Hmark & _).
  rewrite Hmark. by_computation.
Defined.

(** ** A heartbeat response keeps the session *)

Lemma has_type_exclusive name name' data :
  has_type name data = true -> name' ≠ name -> has_type name' data = false.
Proof.
  unfold has_type. destruct (dict_get "type" (fields data)) as [[t| | |]|]; try done.
  intros Ht%bool_decide_eq_true Hne. apply bool_decide_eq_false. congruence.
Qed.

Lemma handle_frame_heartbeat_response request_id data md s :
  has_type "heartbeat_response" data = true ->
  dict_get request_id (connection_metadata (self s)) = Some md ->
  handle_frame request_id data s =
  (Returned tt,
   on_self (set_metadata (dict_set request_id (with_last_heartbeat (utc (world s)) md)))
     (on_world tick s)).
Proof.
  intros Htype Hmd. unfold handle_frame.
  rewrite (has_type_exclusive _ "ack" _ Htype) by done. rewrite Htype.
  run_step. unfold dict_contains. rewrite Hmd. run_step.
  unfold modify, on_self, set_metadata, refresh_heartbeat. cbn. by rewrite Hmd.
Qed.

(** X16. A [heartbeat_response] frame keeps its session from eviction.
    When the endpoint handles one for a session that has metadata, the
    session's [last_heartbeat] becomes the time of handling and nothing
    else changes; so however stale the session was, a heartbeat turn
    taken within five minutes of the response sends it a heartbeat
    instead of evicting it, and, if that heartbeat goes through, leaves it
    registered. *)
Theorem heartbeat_response_keeps_session (request_id : string) (data : Message)
  (md : Metadata) (ws : nat) (current_time : Z) (s : State) :
  has_type "heartbeat_response" data = true ->
  dict_get request_id (connection_metadata (self s)) = Some md ->
  dict_get request_id (active_connections (self s)) = Some ws ->
  raised_by (next_outcome (socket_of (world s) ws)) = None ->
  (current_time - utc (world s) <= inactive_timeout)%Z ->
  let s1 := after (handle_frame request_id data) s in
  let s2 := after (heartbeat_session current_time request_id) s1 in
  handle_frame request_id data s = (Returned tt, s1) /\
  dict_get request_id (connection_metadata (self s1)) =
    Some (with_last_heartbeat (utc (world s)) md) /\
  calls (world s1) = calls (world s) /\
  heartbeat_session current_time request_id s1 = (Returned tt, s2) /\
  calls_since s s2 =
    [ {| call_ws := ws; call_method := SendJson (heartbeat_frame current_time);
         call_outcome := Succeeds |} ] /\
  dict_get request_id (active_connections (self s2)) = Some ws /\
  dict_get request_id (connection_metadata (self s2)) =
    Some (with_last_heartbeat current_time md).
Proof.
  intros Htype Hmd Hws Hok Hrecent s1 s2. subst s2 s1. unfold after.
  rewrite (handle_frame_heartbeat_response _ _ _ _ Htype Hmd). cbn [snd].
  pose (s1 := on_self (set_metadata
                (dict_set request_id (with_last_heartbeat (utc (world s)) md)))
                (on_world tick s)).
  fold s1.
  assert (Hmd1 : dict_get request_id (connection_metadata (self s1)) =
                 Some (with_last_heartbeat (utc (world s)) md)).
  { unfold s1. cbn. apply dict_get_set_eq. }
  assert (Hws1 : dict_get request_id (active_connections (self s1)) = Some ws) by done.
  assert (Hok1 : raised_by (next_outcome (socket_of (world s1) ws)) = None).
  { unfold s1. open_state. by rewrite socket_of_tick. }
  split; [done|]. split; [exact Hmd1|]. split; [done|].
  rewrite (heartbeat_session_success _ _ _ _ _ Hmd1 Hrecent Hws1 Hok1). cbn [snd].
  split; [done|]. split.
  { apply calls_since_app. open_state. cbn [record_call calls].
    by rewrite (raised_by_None _ Hok1). }
  split; [done|]. open_state. cbn. by rewrite dict_get_set_eq.
Qed.

Lemma heartbeat_response_keeps_session_witness :
  has_type "heartbeat_response" (control_frame "heartbeat_response") = true /\
  dict_get "r2" (connection_metadata (self three_sessions))
  = Some {| user_id := "u2"; connected_at := 0;
            last_heartbeat := 1009 - inactive_timeout - 1; reconnection_count := 0 |} /\
  dict_get "r2" (active_connections (self three_sessions)) = Some 8%nat /\
  raised_by (next_outcome (socket_of (world three_sessions) 8)) = None /\
  (1010 - utc (world three_sessions) <= inactive_timeout)%Z /\
  dict_get "r2" (active_connections (self (after (heartbeat_session 1010 "r2") three_sessions)))
  = None /\
  dict_get "r2" (active_connections
    (self (after (heartbeat_session 1010 "r2")
             (after (handle_frame "r2" (control_frame "heartbeat_response")) three_sessions))))
  = Some 8%nat.
Proof.
  assert (Htype : has_type "heartbeat_response" (control_frame "heartbeat_response") = true)
    by by_computation.
  assert (Hmd : dict_get "r2" (connection_metadata (self three_sessions))
                = Some {| user_id := "u2"; connected_at := 0;
                          last_heartbeat := 1009 - inactive_timeout - 1;
                          reconnection_count := 0 |}) by by_computation.
  assert (Hws : dict_get "r2" (active_connections (self three_sessions)) = Some 8%nat)
    by by_computation.
  assert (Hok : raised_by (next_outcome (socket_of (world three_sessions) 8)) = None)
    by by_computation.
  assert (Hnow : utc (world three_sessions) = 1009%Z) by by_computation.
  assert (Hrecent : (1010 - utc (world three_sessions) <= inactive_timeout)%Z).
  { rewrite Hnow. unfold inactive_timeout. lia. }
  split; [exact Htype|]. split; [exact Hmd|]. split; [exact Hws|]. split; [exact Hok|].
  split; [exact Hrecent|]. split; [by_computation|].
  apply (heartbeat_response_keeps_session "r2" _ _ 8 1010 three_sessions
           Htype Hmd Hws Hok Hrecent).
Defined.

(** ** Numbers do not go back *)

Section AtLeast.
Variables (request_id : string) (c mark : Z).

Abbreviation reached := (at_least request_id c mark).

Lemma at_least_number r s :
  reached s ->
  reached (on_self (set_counters (fun counters =>
             dict_set r (dict_get_or r 0%Z counters + 1)%Z counters)) s).
Proof.
  intros [Hc Hm]. split; [|done]. unfold counter in *. cbn.
  destruct (decide (r = request_id)) as [->|Hne].
  - rewrite dict_get_or_set_eq. lia.
  - by rewrite dict_get_or_set_ne.
Qed.

Lemma at_least_acknowledge r acked s :
  reached s ->
  reached (on_self (set_last_ack (fun acks =>
             dict_set r (Z.max (dict_get_or r 0%Z acks) acked) acks)) s).
Proof.
  intros [Hc Hm]. split; [done|]. unfold high_water_mark in *. cbn.
  destruct (decide (r = request_id)) as [->|Hne].
  - rewrite dict_get_or_set_eq. lia.
  - by rewrite dict_get_or_set_ne.
Qed.

Lemma at_least_registered r websocket user s :
  reached s -> reached (registered r websocket user s).
Proof.
  intros [Hc Hm]. split; by rewrite ?registered_counter_of, ?registered_mark_of.
Qed.

Lemma at_least_refresh r now s :
  reached s -> reached (on_self (set_metadata (refresh_heartbeat r now)) s).
Proof. intros [Hc Hm]. by split. Qed.

Ltac at_least_closure :=
  first [ apply at_least_number | apply at_least_acknowledge | apply at_least_registered
        | apply at_least_refresh | done ].

Lemma keeps_at_least_exec o : keeps reached (exec o).
Proof.
  destruct o; cbn [exec].
  - apply keeps_session_connect; at_least_closure.
  - apply keeps_session_disconnect; at_least_closure.
  - step_through. apply keeps_session_send_message; at_least_closure.
  - step_through. apply keeps_session_broadcast_progress; at_least_closure.
  - apply keeps_session__replay_queued_messages; at_least_closure.
  - apply keeps_session_acknowledge_message; at_least_closure.
  - apply (keeps_heartbeat_cycle
             (fun m _ => (c <= dict_get_or request_id 0 (message_counters m))%Z /\
                         (mark <= dict_get_or request_id 0 (last_ack m))%Z));
      by intros m h f.
Qed.

Lemma keeps_at_least_perform a : retains a = true -> keeps reached (perform a).
Proof.
  destruct a; cbn [perform retains]; intros Hr; [|done|].
  - apply keeps_at_least_exec.
  - apply keeps_session_websocket_endpoint; at_least_closure.
Qed.

Lemma at_least_history actions : forall s,
  forallb retains actions = true -> reached s -> reached (history actions s).
Proof.
  induction actions as [|a rest IH]; intros s Hall Hs; [done|].
  cbn in Hall. apply andb_prop in Hall as [Ha Hrest]. cbn [history fold_left].
  apply (IH _ Hrest). by apply keeps_at_least_perform.
Qed.

End AtLeast.

(** X17. Short of a cleanup, nothing the deployment does takes a
    session's numbers back: through any sequence of operations,
    heartbeat turns and client sessions served by the endpoint, the
    session's sequence counter and its high-water mark never decrease, so
    a sequence number once given out is not given out again. *)
Theorem numbers_never_go_back (request_id : string) (actions : list action) (s : State) :
  forallb retains actions = true ->
  (counter s request_id <= counter (history actions s) request_id)%Z /\
  (high_water_mark s request_id <= high_water_mark (history actions s) request_id)%Z.
Proof.
  intros Hall.
  apply (at_least_history request_id (counter s request_id) (high_water_mark s request_id)
           actions s Hall).
  split; lia.
Qed.

Lemma numbers_never_go_back_witness :
  forallb retains
    [Operation (Disconnect "r1"); Operation HeartbeatCycle;
     Endpoint verify_token_example 7 "r1" "good" [Arrives (ack_frame 2); PeerLeaves];
     Operation (BroadcastProgress "r1" "done" [])] = true /\
  counter backlog "r1" = 2%Z /\
  (2 <= counter
          (history
             [Operation (Disconnect "r1"); Operation HeartbeatCycle;
              Endpoint verify_token_example 7 "r1" "good" [Arrives (ack_frame 2); PeerLeaves];
              Operation (BroadcastProgress "r1" "done" [])] backlog) "r1")%Z.
Proof.
  assert (Hall : forallb retains
    [Operation (Disconnect "r1"); Operation HeartbeatCycle;
     Endpoint verify_token_example 7 "r1" "good" [Arrives (ack_frame 2); PeerLeaves];
     Operation (BroadcastProgress "r1" "done" [])] = true) by reflexivity.
  assert (Hc : counter backlog "r1" = 2%Z) by by_computation.
  split; [exact Hall|]. split; [exact Hc|].
  rewrite <- Hc at 1.
  apply (numbers_never_go_back "r1" _ backlog Hall).
Defined.

(** * What a failed transmission costs *)

(** X18. A replay that fails loses what it had not sent.  When the
    first pending message cannot be sent, the replay stops after that one
    call, yet it empties the session's queue and leaves the session
    registered; the messages that were pending are in no queue any more,
    and another replay sends nothing. *)
Theorem replay_failure_drops_queue (request_id : string) (ws : nat) (e : exn)
  (queued : list nat) (first : nat) (rest : list nat) (s : State) :
  dict_get request_id (message_queue (self s)) = Some queued ->
  dict_get request_id (active_connections (self s)) = Some ws ->
  unacknowledged (world s) (high_water_mark s request_id) queued = first :: rest ->
  raised_by (next_outcome (socket_of (world s) ws)) = Some e ->
  let s' := after (_replay_queued_messages request_id) s in
  _replay_queued_messages request_id s = (Returned tt, s') /\
  calls_since s s' =
    [ {| call_ws := ws; call_method := SendJson (deref (world s) first);
         call_outcome := next_outcome (socket_of (world s) ws) |} ] /\
  dict_get request_id (message_queue (self s')) = Some [] /\
  dict_get request_id (active_connections (self s')) = Some ws /\
  calls_since s' (after (_replay_queued_messages request_id) s') = [].
Proof.
  intros Hq Hws Hpending Ho s'.
  assert (Hne : unacknowledged (world s) (high_water_mark s request_id) queued ≠ [])
    by by rewrite Hpending.
  assert (Hloop : replay_loop request_id (first :: rest) s =
                  (Returned tt,
                   on_world (record_call ws (SendJson (deref (world s) first))) s)).
  { rewrite (replay_loop_cons_live _ _ _ _ _ Hws). cbn zeta.
    by destruct (next_outcome (socket_of (world s) ws)). }
  assert (Hrun : _replay_queued_messages request_id s =
                 (Returned tt,
                  on_self (set_queue (dict_set request_id []))
                    (on_world (record_call ws (SendJson (deref (world s) first))) s))).
  { rewrite (_replay_queued_messages_pending _ _ _ Hq Hne). rewrite Hpending.
    unfold after. by rewrite Hloop. }
  pose (s1 := on_self (set_queue (dict_set request_id []))
                (on_world (record_call ws (SendJson (deref (world s) first))) s)).
  assert (Hs' : s' = s1) by (unfold s', after; by rewrite Hrun).
  rewrite Hs'. fold s1 in Hrun.
  assert (Hcleared : dict_get request_id (message_queue (self s1)) = Some []).
  { unfold s1. cbn. apply dict_get_set_eq. }
  split; [exact Hrun|]. split; [by apply calls_since_app|].
  split; [exact Hcleared|]. split; [done|].
  apply calls_since_refl. unfold after.
  by rewrite (_replay_queued_messages_nothing _ _ _ Hcleared (unacknowledged_nil _ _)).
Qed.

Lemma replay_failure_drops_queue_witness :
  dict_get "r1" (message_queue (self replaying)) = Some [2; 3]%nat /\
  dict_get "r1" (active_connections (self replaying)) = Some 7%nat /\
  unacknowledged (world replaying) (high_water_mark replaying "r1") [2; 3]%nat = [3%nat] /\
  raised_by (next_outcome (socket_of (world replaying) 7)) = Some OtherException /\
  dict_get "r1" (message_queue (self (after (_replay_queued_messages "r1") replaying)))
  = Some [].
Proof.
  assert (Hq : dict_get "r1" (message_queue (self replaying)) = Some [2; 3]%nat)
    by by_computation.
  assert (Hws : dict_get "r1" (active_connections (self replaying)) = Some 7%nat)
    by by_computation.
  assert (Hp : unacknowledged (world replaying) (high_water_mark replaying "r1") [2; 3]%nat
               = [3%nat]) by by_computation.
  assert (Ho : raised_by (next_outcome (socket_of (world replaying) 7))
               = Some OtherException) by by_computation.
  split; [exact Hq|]. split; [exact Hws|]. split; [exact Hp|]. split; [exact Ho|].
  apply (replay_failure_drops_queue "r1" 7 _ _ _ _ replaying Hq Hws Hp Ho).
Defined.

(** X19. A connection whose confirmation cannot be sent costs the
    session its backlog.  When the transport accepts and then fails, and
    the session's high-water mark is not above its counter, [connect]
    still returns; it has called [accept], [send_json] (the
    confirmation) and [close] and nothing else, the session is left
    unregistered, and its queue is empty: the messages that were waiting
    and the confirmation itself are dropped without having been sent. *)
Theorem connect_failed_confirmation_drops_queue (request_id : string) (websocket : nat)
  (user : string) (e : exn) (s : State) :
  raised_by (next_outcome (socket_of (world s) websocket)) = None ->
  raised_by (next_outcome (after_call (socket_of (world s) websocket))) = Some e ->
  (high_water_mark s request_id <= counter s request_id)%Z ->
  let s' := after (connect request_id websocket user) s in
  connect request_id websocket user s = (Returned tt, s') /\
  map (fun c => (call_ws c, method_name (call_method c))) (calls_since s s') =
    [(websocket, "accept"); (websocket, "send_json"); (websocket, "close")] /\
  dict_get request_id (active_connections (self s')) = None /\
  dict_get request_id (message_queue (self s')) = Some [].
Proof.
  intros Haccept Hsend Hmark s'.
  pose (sr := registered request_id websocket user s).
  pose (ref := new_ref (world sr)).
  pose (s0 := on_world (allocate (connection_established request_id (utc (world sr))))
                (on_world tick sr)).
  assert (Hws0 : dict_get request_id (active_connections (self s0)) = Some websocket).
  { unfold s0, sr. open_state. rewrite registered_active. apply dict_get_set_eq. }
  assert (Ho0 : raised_by (next_outcome (socket_of (world s0) websocket)) = Some e).
  { unfold s0. open_state. rewrite socket_of_allocate, socket_of_tick. unfold sr.
    by rewrite registered_socket_of. }
  pose (s1 := enqueued request_id ref
                (closed request_id websocket
                   (on_world (record_call websocket
                                (SendJson (deref (world (numbered request_id ref s0)) ref)))
                      (numbered request_id ref s0)))).
  assert (Hconfirm : confirm request_id sr = (Returned false, s1)).
  { unfold confirm. do 2 run_step. open_state.
    change (new_ref (tick (world sr))) with ref. fold s0.
    apply (send_message_failed _ _ _ _ _ Hws0 Ho0). }
  assert (Hq1 : dict_get request_id (message_queue (self s1)) =
                Some (queue_of s request_id ++ [ref])).
  { unfold s1. open_state. cbn. rewrite dict_get_set_eq. do 2 f_equal.
    unfold queue_of. cbn. unfold s0, sr. open_state. by rewrite registered_queue. }
  assert (Hidle : dict_get request_id (active_connections (self s1)) = None).
  { unfold s1. open_state. cbn. apply dict_get_del_eq. }
  assert (Hmark1 : high_water_mark s1 request_id = high_water_mark s request_id).
  { transitivity (high_water_mark sr request_id); [done | apply registered_mark]. }
  assert (Hid : get_message_id (deref (world s1) ref) = (counter s request_id + 1)%Z).
  { unfold s1. open_state. rewrite !deref_record_call, numbered_message.
    cbn. change (counter s0 request_id) with (counter sr request_id).
    unfold sr. by rewrite registered_counter. }
  assert (Hpending : unacknowledged (world s1) (high_water_mark s1 request_id)
                       (queue_of s request_id ++ [ref]) ≠ []).
  { intros Hnone.
    assert (Hin : In ref (unacknowledged (world s1) (high_water_mark s1 request_id)
                            (queue_of s request_id ++ [ref]))).
    { apply filter_In. split; [apply in_or_app; right; by left|].
      rewrite Hid, Hmark1. apply Z.ltb_lt. lia. }
    by rewrite Hnone in Hin. }
  assert (Hrun : connect request_id websocket user s =
                 (Returned tt, on_self (set_queue (dict_set request_id [])) s1)).
  { rewrite (connect_accepted _ _ _ _ Haccept). fold sr.
    rewrite confirm_and_replay_split. unfold after at 1. rewrite Hconfirm. cbn [snd].
    rewrite (_replay_queued_messages_pending _ _ _ Hq1 Hpending).
    unfold after. by rewrite (replay_loop_idle _ _ _ Hidle). }
  assert (Hs' : s' = on_self (set_queue (dict_set request_id [])) s1).
  { unfold s', after. by rewrite Hrun. }
  rewrite Hs'. split; [exact Hrun|]. split.
  { assert (Hcalls : exists c1 c2 o3,
              calls (world (on_self (set_queue (dict_set request_id [])) s1)) =
              calls (world s) ++
              [ {| call_ws := websocket; call_method := Accept; call_outcome := c1 |};
                {| call_ws := websocket; call_method := SendJson c2; call_outcome := o3 |};
                {| call_ws := websocket; call_method := Close;
                   call_outcome := next_outcome
                     (socket_of (world (on_world (record_call websocket (SendJson c2))
                                          (numbered request_id ref s0))) websocket) |} ]).
    { eexists _, _, _. unfold s1. open_state. cbn [record_call calls].
      rewrite numbered_calls.
      unfold s0. open_state. cbn [allocate tick calls]. unfold sr.
      rewrite registered_calls, <- !app_assoc. reflexivity. }
    destruct Hcalls as (c1 & c2 & o3 & Hcalls).
    by rewrite (calls_since_app _ _ _ Hcalls). }
  split; [exact Hidle|]. cbn. apply dict_get_set_eq.
Qed.

Lemma connect_failed_confirmation_drops_queue_witness :
  raised_by (next_outcome (socket_of (world unlucky) 7)) = None /\
  raised_by (next_outcome (after_call (socket_of (world unlucky) 7))) = Some OtherException /\
  (high_water_mark unlucky "r1" <= counter unlucky "r1")%Z /\
  dict_get "r1" (message_queue (self unlucky)) = Some [2; 3]%nat /\
  dict_get "r1" (message_queue (self (after (connect "r1" 7 "u1") unlucky))) = Some [].
Proof.
  assert (Haccept : raised_by (next_outcome (socket_of (world unlucky) 7)) = None)
    by by_computation.
  assert (Hsend : raised_by (next_outcome (after_call (socket_of (world unlucky) 7)))
                  = Some OtherException) by by_computation.
  assert (Hm : high_water_mark unlucky "r1" = 1%Z) by by_computation.
  assert (Hc : counter unlucky "r1" = 2%Z) by by_computation.
  assert (Hmark : (high_water_mark unlucky "r1" <= counter unlucky "r1")%Z)
    by (rewrite Hm, Hc; lia).
  split; [exact Haccept|]. split; [exact Hsend|]. split; [exact Hmark|].
  split; [by_computation|].
  apply (connect_failed_confirmation_drops_queue "r1" 7 "u1" _ unlucky Haccept Hsend Hmark).
Defined.

(** * What the heartbeat loop never does *)

Lemma dict_del_sublist {V} (k : string) (d : dict string V) : dict_del k d `sublist_of` d.
Proof.
  induction d as [|[k' v'] d IH]; [done|]. cbn.
  destruct (decide (k = k')); [by apply sublist_cons | by apply sublist_skip].
Qed.

Lemma same_sessions_refl s : same_sessions s s.
Proof. intros r. by destruct (dict_get r (connection_metadata (self s))). Qed.

Lemma same_sessions_trans s1 s2 s3 :
  same_sessions s1 s2 -> same_sessions s2 s3 -> same_sessions s1 s3.
Proof.
  intros H12 H23 r. specialize (H12 r). specialize (H23 r).
  destruct (dict_get r (connection_metadata (self s1))) as [md1|],
           (dict_get r (connection_metadata (self s2))) as [md2|],
           (dict_get r (connection_metadata (self s3))) as [md3|]; try done.
  destruct H12 as (? & ? & ?), H23 as (? & ? & ?). repeat split; congruence.
Qed.

Lemma same_sessions_metadata s s' :
  connection_metadata (self s') = connection_metadata (self s) -> same_sessions s s'.
Proof. intros Hm r. rewrite Hm. by destruct (dict_get r (connection_metadata (self s))). Qed.

Lemma same_sessions_heartbeat request_id current_time md s g :
  dict_get request_id (connection_metadata (self s)) = Some md ->
  same_sessions s
    (on_self (set_metadata (dict_set request_id (with_last_heartbeat current_time md)))
       (on_world g s)).
Proof.
  intros Hmd r. cbn. destruct (decide (request_id = r)) as [<-|Hne].
  - by rewrite dict_get_set_eq, Hmd.
  - rewrite dict_get_set_ne by done.
    by destruct (dict_get r (connection_metadata (self s))).
Qed.

Lemma heartbeat_session_same_sessions current_time request_id s :
  same_sessions s (after (heartbeat_session current_time request_id) s).
Proof.
  unfold after.
  destruct (dict_get request_id (connection_metadata (self s))) as [md|] eqn:Hmd.
  - destruct (decide (inactive_timeout < current_time - last_heartbeat md)%Z) as [Hold|Hnew].
    + rewrite (heartbeat_session_timed_out _ _ _ _ Hmd Hold).
      apply same_sessions_metadata.
      by destruct (disconnect_after request_id s) as (_ & Hm & _).
    + assert (Hfresh : (current_time - last_heartbeat md <= inactive_timeout)%Z) by lia.
      destruct (dict_get request_id (active_connections (self s))) as [ws|] eqn:Hws.
      * destruct (raised_by (next_outcome (socket_of (world s) ws))) as [e|] eqn:Ho.
        -- rewrite (heartbeat_session_failed _ _ _ _ _ _ Hmd Hfresh Hws Ho).
           by apply same_sessions_metadata.
        -- rewrite (heartbeat_session_success _ _ _ _ _ Hmd Hfresh Hws Ho). cbn [snd].
           by apply same_sessions_heartbeat.
      * unfold heartbeat_session. run_step. rewrite Hmd.
        apply Z.ltb_ge in Hfresh as ->. run_step. rewrite Hws.
        apply same_sessions_refl.
  - unfold heartbeat_session. run_step. rewrite Hmd. apply same_sessions_refl.
Qed.

Lemma for_each_same_sessions current_time (request_ids : list string) : forall s,
  same_sessions s (after (for_each request_ids (heartbeat_session current_time)) s).
Proof.
  induction request_ids as [|r rest IH]; intros s; [apply same_sessions_refl|].
  cbn [for_each].
  destruct (total_returns _ s (total_heartbeat_session current_time r)) as ([] & Hrun).
  unfold after at 1. rewrite (bind_returned _ _ _ _ _ Hrun).
  eapply same_sessions_trans; [apply (heartbeat_session_same_sessions current_time r)|].
  apply IH.
Qed.

Lemma total_heartbeat_cycle : total heartbeat_cycle.
Proof.
  unfold heartbeat_cycle, sleep. step_total; apply total_heartbeat_session.
Qed.

Lemma heartbeat_cycle_same_sessions s : same_sessions s (after heartbeat_cycle s).
Proof.
  destruct (total_returns _ (on_world tick s)
              (total_for_each (dict_keys (active_connections (self s)))
                 (heartbeat_session (utc (world s)))
                 (total_heartbeat_session (utc (world s))))) as ([] & Hround).
  unfold after at 1. rewrite (heartbeat_cycle_round _ _ Hround). cbn [snd].
  eapply same_sessions_trans;
    [|apply (for_each_same_sessions (utc (world s))
               (dict_keys (active_connections (self s))) (on_world tick s))].
  by apply same_sessions_metadata.
Qed.

Lemma keeps_registry_heartbeat_cycle (registry : dict string nat) :
  keeps (fun s => active_connections (self s) `sublist_of` registry) heartbeat_cycle.
Proof.
  assert (Hd : forall r, keeps (fun s => active_connections (self s) `sublist_of` registry)
                           (disconnect r)).
  { intros r. unfold disconnect. step_through; [by intros s|].
    intros s Hs. cbn. etransitivity; [apply dict_del_sublist | exact Hs]. }
  unfold heartbeat_cycle. step_through; try (by intros s).
  unfold heartbeat_session. step_through; try apply Hd; by intros s.
Qed.

(** X20. The heartbeat loop never raises, whatever the transports do,
    and it only ever removes registrations: after any number of turns the
    registered sessions are among those registered before, on the same
    transports and in the same order, and every session that had metadata
    still has it, unchanged but for [last_heartbeat]; no session gains or
    loses metadata. *)
Theorem heartbeat_loop_only_evicts (cycles : nat) (s : State) :
  let s' := after (heartbeat_loop cycles) s in
  heartbeat_loop cycles s = (Returned tt, s') /\
  active_connections (self s') `sublist_of` active_connections (self s) /\
  same_sessions s s'.
Proof.
  revert s. induction cycles as [|n IH]; intros s s'.
  - split; [done|]. split; [done | apply same_sessions_refl].
  - subst s'. cbn [heartbeat_loop].
    destruct (total_returns _ s total_heartbeat_cycle) as ([] & Hcycle).
    unfold after at 1 2 3. rewrite !(bind_returned _ _ _ _ _ Hcycle).
    destruct (IH (after heartbeat_cycle s)) as (Hrun & Hsub & Hsame).
    unfold after at 1 in Hrun. unfold after at 1 in Hsub. unfold after at 2 in Hsame.
    split; [exact Hrun|]. split.
    + etransitivity; [exact Hsub|].
      by apply (keeps_registry_heartbeat_cycle (active_connections (self s)) s).
    + eapply same_sessions_trans; [apply heartbeat_cycle_same_sessions | exact Hsame].
Qed.
